(** * Timeline editor (vanilla-gsap): data model, day/pixel geometry, resize push

    A shallow embedding of [scripts/data-model.js] (class [TimelineDataModel],
    with [fromJSON] on untyped documents), of the coordinate functions and the
    keyboard move of [scripts/timeline.js] (class [Timeline]) and of the
    resize gesture of [scripts/resize.js].

    Conventions of the embedding.
    - A JavaScript [Date] is its time value: milliseconds since the epoch, in [Z].
    - A stored date string ["YYYY-MM-DD"] is represented by the number of the
      day it names (days since 1970-01-01).  For such strings [===] is
      equality and [localeCompare] is the order of the day numbers.
      [ymd] and [isoDate] convert between day numbers and the civil calendar.
    - The host time zone is a fixed offset [tz], in minutes east of UTC (the
      negation of [Date.prototype.getTimezoneOffset]); daylight saving changes
      are not modelled.
    - Pixel coordinates are exact rationals ([Q]); the rounding of binary
      floating point is not modelled.  The program computes them in doubles,
      whose results differ from the exact ones by a relative error of about
      [1e-16]: where that could decide a result, statements about pixels
      compare through the tolerance of [pixelToDay] or keep a margin.  The
      zoom is positive
      ([setZoom] keeps it between 0.25 and 3), so the division by it is the
      one of [Q].
    - [_notifyChange] is modelled by a counter of its invocations. *)

From Stdlib Require Import ZArith QArith Qabs Qround List Bool String Ascii.
From Stdlib Require Import Lia Lqa Permutation Sorted.
Import ListNotations.

Local Open Scope Z_scope.

(* ================================================================== *)
(** ** The host's [Date] object *)

Module JSDate.

(** [1000 * 60 * 60 * 24] *)
Definition msPerDay : Z := 1000 * 60 * 60 * 24.

(** [new Date(s + 'T00:00:00')]: a date-time form without offset is local
    time, so this is local midnight of the day [d] named by [s]. *)
Definition parseLocalMidnight (tz d : Z) : Z := d * msPerDay - tz * 60000.

(** [new Date(s)] for a date-only string: UTC midnight of that day. *)
Definition parseDateOnly (d : Z) : Z := d * msPerDay.

(** [date.setDate(date.getDate() + n)] under a fixed offset. *)
Definition addDays (t n : Z) : Z := t + n * msPerDay.

(** [date.toISOString().split('T')[0]]: the UTC day of the time value. *)
Definition toISODay (t : Z) : Z := t / msPerDay.

(** [date.getDay()]: local day of the week, 0 = Sunday.
    1970-01-01 was a Thursday. *)
Definition getDay (tz t : Z) : Z := ((t + tz * 60000) / msPerDay + 4) mod 7.

(** [Math.round(num / den)] for [den > 0]: halves round towards +infinity. *)
Definition roundDiv (num den : Z) : Z := (2 * num + den) / (2 * den).

(** Day number of a civil date (proleptic Gregorian calendar). *)
Definition ymd (y m d : Z) : Z :=
  let y' := if m <=? 2 then y - 1 else y in
  let era := y' / 400 in
  let yoe := y' - era * 400 in
  let mp := (m + 9) mod 12 in
  let doy := (153 * mp + 2) / 5 + d - 1 in
  let doe := yoe * 365 + yoe / 4 - yoe / 100 + doy in
  era * 146097 + doe - 719468.

(** Civil date of a day number. *)
Definition civil (z : Z) : Z * Z * Z :=
  let z' := z + 719468 in
  let era := z' / 146097 in
  let doe := z' - era * 146097 in
  let yoe := (doe - doe / 1460 + doe / 36524 - doe / 146096) / 365 in
  let doy := doe - (365 * yoe + yoe / 4 - yoe / 100) in
  let mp := (5 * doy + 2) / 153 in
  let d := doy - (153 * mp + 2) / 5 + 1 in
  let m := if mp <? 10 then mp + 3 else mp - 9 in
  let y := yoe + era * 400 in
  (if m <=? 2 then y + 1 else y, m, d).

(** [date.getDate()]: the local day of the month. *)
Definition getDate (tz t : Z) : Z :=
  let '(_, _, d) := civil ((t + tz * 60000) / msPerDay) in d.

Definition digit (n : Z) : string :=
  String (ascii_of_nat (48 + Z.to_nat (n mod 10))) EmptyString.

Definition pad2 (n : Z) : string := (digit (n / 10) ++ digit n)%string.

Definition pad4 (n : Z) : string := (pad2 (n / 100) ++ pad2 n)%string.

(** The string [YYYY-MM-DD] of a day number (years 0000 to 9999). *)
Definition isoDate (z : Z) : string :=
  let '(y, m, d) := civil z in
  (pad4 y ++ "-" ++ pad2 m ++ "-" ++ pad2 d)%string.

End JSDate.

(* ================================================================== *)
(** ** Rational helpers for pixel arithmetic *)

Definition Qltb (x y : Q) : bool := negb (Qle_bool y x).

(** [Math.max] on pixel values *)
Definition Qmax (x y : Q) : Q := if Qle_bool x y then y else x.

(** The tolerance [0.001] of [pixelToDay]. *)
Definition tolerance : Q := 1 # 1000.

(* ================================================================== *)
(** ** data-model.js: records *)

(** An entry of [data.timeline.items].  [addBlock] and [moveToTimeline] are
    the operations that put entries there and both put blocks, so the [type]
    is always ['block'] and [startDate] is always present: the fallbacks
    [item.startDate || ...] and [item.row || 0] return the stored values. *)
Record Block : Type := mkBlock {
  b_id : string;
  startDate : Z;
  duration : Z;
  label : string;
  row : Z;
  badge : string
}.

(** An entry of [data.timeline.annotations]. *)
Record Annotation : Type := mkAnnotation {
  a_id : string;
  date : Z;
  a_row : Z;
  text : string
}.

(** [this.data], [this.nextId] and the number of [_notifyChange] calls. *)
Record TimelineDataModel : Type := mkModel {
  items : list Block;
  annotations : list Annotation;
  data_zoom : Q;
  scrollPosition : Q;
  timelineStart : Z;            (* data.timeline.startDate *)
  lastBadgeValue : string;
  offTimeline : list Block;     (* data.offTimeline.blocks *)
  nextId : Z;
  changes : nat
}.

(** The first argument of [addBlock], [addAnnotation] and [getAnnotation]:
    a number (relative day) or a date string. *)
Inductive DayOrDate : Type :=
| RelativeDay (n : Z)
| AbsoluteDate (d : Z).

(** The [updates] object of [updateItem]: each property present or absent. *)
Record Updates : Type := mkUpdates {
  u_startDay : option Z;
  u_startDate : option Z;
  u_duration : option Z;
  u_label : option string;
  u_row : option Z;
  u_badge : option string;
  u_day : option Z;
  u_date : option Z;
  u_text : option string
}.

Definition noUpdates : Updates :=
  mkUpdates None None None None None None None None None.

(** The object literals [{ startDate: d }] and [{ duration: n }]. *)
Definition onlyStartDate (d : Z) : Updates :=
  mkUpdates None (Some d) None None None None None None None.

Definition onlyDuration (n : Z) : Updates :=
  mkUpdates None None (Some n) None None None None None None.

Definition set_items (dm : TimelineDataModel) (l : list Block) : TimelineDataModel :=
  mkModel l (annotations dm) (data_zoom dm) (scrollPosition dm) (timelineStart dm)
          (lastBadgeValue dm) (offTimeline dm) (nextId dm) (changes dm).

Definition set_annotations (dm : TimelineDataModel) (l : list Annotation) : TimelineDataModel :=
  mkModel (items dm) l (data_zoom dm) (scrollPosition dm) (timelineStart dm)
          (lastBadgeValue dm) (offTimeline dm) (nextId dm) (changes dm).

Definition set_lastBadgeValue (dm : TimelineDataModel) (s : string) : TimelineDataModel :=
  mkModel (items dm) (annotations dm) (data_zoom dm) (scrollPosition dm) (timelineStart dm)
          s (offTimeline dm) (nextId dm) (changes dm).

(** [_notifyChange()] *)
Definition notifyChange (dm : TimelineDataModel) : TimelineDataModel :=
  mkModel (items dm) (annotations dm) (data_zoom dm) (scrollPosition dm) (timelineStart dm)
          (lastBadgeValue dm) (offTimeline dm) (nextId dm) (S (changes dm)).

(** Decimal rendering of a non-negative number: [String(n)]. *)
Fixpoint decimalFuel (fuel : nat) (n : Z) (acc : string) : string :=
  match fuel with
  | O => acc
  | S f =>
      let acc' := (JSDate.digit n ++ acc)%string in
      if n / 10 =? 0 then acc' else decimalFuel f (n / 10) acc'
  end.

Definition toDecimal (n : Z) : string := decimalFuel (S (Z.to_nat n)) n EmptyString.

(** [generateId() { return String(this.nextId++); }] *)
Definition generateId (dm : TimelineDataModel) : string * TimelineDataModel :=
  (toDecimal (nextId dm),
   mkModel (items dm) (annotations dm) (data_zoom dm) (scrollPosition dm) (timelineStart dm)
           (lastBadgeValue dm) (offTimeline dm) (nextId dm + 1) (changes dm)).

(** [items.find(i => i.id === id)] and its index form [findIndex]. *)
Fixpoint findBlock (id : string) (l : list Block) : option Block :=
  match l with
  | [] => None
  | b :: r => if String.eqb (b_id b) id then Some b else findBlock id r
  end.

Fixpoint findBlockIndex (id : string) (l : list Block) : option nat :=
  match l with
  | [] => None
  | b :: r =>
      if String.eqb (b_id b) id then Some O
      else option_map S (findBlockIndex id r)
  end.

Fixpoint findAnnotation (id : string) (l : list Annotation) : option Annotation :=
  match l with
  | [] => None
  | a :: r => if String.eqb (a_id a) id then Some a else findAnnotation id r
  end.

Fixpoint findAnnotationIndex (id : string) (l : list Annotation) : option nat :=
  match l with
  | [] => None
  | a :: r =>
      if String.eqb (a_id a) id then Some O
      else option_map S (findAnnotationIndex id r)
  end.

(** [array.splice(i, 1)]: the array without its element [i]. *)
Fixpoint removeAt {A : Type} (i : nat) (l : list A) {struct l} : list A :=
  match l, i with
  | [], _ => []
  | _ :: r, O => r
  | x :: r, S j => x :: removeAt j r
  end.

(** The start index of [array.splice(start, 0, x)]: negative values count
    from the end, everything is clamped into [0 .. length]. *)
Definition spliceStart (len : nat) (start : Z) : nat :=
  if start <? 0 then Z.to_nat (Z.max (Z.of_nat len + start) 0)
  else Nat.min (Z.to_nat start) len.

(** [array.splice(start, 0, x)] *)
Definition insertAt {A : Type} (start : Z) (x : A) (l : list A) : list A :=
  let i := spliceStart (List.length l) start in
  firstn i l ++ x :: skipn i l.

(** The comparator of [sortTimelineItems] on two blocks is
    [aDate.localeCompare(bDate)].  [Array.prototype.sort] is stable, so its
    result is the stable sorted arrangement, computed here by insertion. *)
Fixpoint insertByDate (b : Block) (l : list Block) : list Block :=
  match l with
  | [] => [b]
  | x :: r =>
      if startDate b <=? startDate x then b :: l else x :: insertByDate b r
  end.

Fixpoint sortBlocks (l : list Block) : list Block :=
  match l with
  | [] => []
  | b :: r => insertByDate b (sortBlocks r)
  end.

Definition sortTimelineItems (dm : TimelineDataModel) : TimelineDataModel :=
  set_items dm (sortBlocks (items dm)).

(** [existing || 'XD'] on strings: the empty string is falsy. *)
Definition badgeOrDefault (s : string) : string :=
  if String.eqb s EmptyString then "XD"%string else s.

Definition orElse {A : Type} (o : option A) (d : A) : A :=
  match o with Some x => x | None => d end.

(** [Object.assign(item, updates)] on the properties a block carries. *)
Definition assignBlock (b : Block) (u : Updates) : Block :=
  mkBlock (b_id b)
          (orElse (u_startDate u) (startDate b))
          (orElse (u_duration u) (duration b))
          (orElse (u_label u) (label b))
          (orElse (u_row u) (row b))
          (orElse (u_badge u) (badge b)).

(** [Object.assign(item, updates)] on the properties an annotation carries. *)
Definition assignAnnotation (a : Annotation) (u : Updates) : Annotation :=
  mkAnnotation (a_id a)
               (orElse (u_date u) (date a))
               (orElse (u_row u) (a_row a))
               (orElse (u_text u) (text a)).

(** The array after the object found by [find(i => i.id === id)] was
    mutated in place into [b']. *)
Fixpoint replaceBlock (id : string) (b' : Block) (l : list Block) : list Block :=
  match l with
  | [] => []
  | b :: r => if String.eqb (b_id b) id then b' :: r else b :: replaceBlock id b' r
  end.

Fixpoint replaceAnnotation (id : string) (a' : Annotation) (l : list Annotation)
  : list Annotation :=
  match l with
  | [] => []
  | a :: r => if String.eqb (a_id a) id then a' :: r else a :: replaceAnnotation id a' r
  end.

(** [annotations.find(ann => ann.date === date && ann.row === row)] *)
Fixpoint findAnnotationAt (d r : Z) (l : list Annotation) : option Annotation :=
  match l with
  | [] => None
  | a :: rest =>
      if (date a =? d) && (a_row a =? r) then Some a else findAnnotationAt d r rest
  end.

(* ================================================================== *)
(** ** data-model.js: the operations of [TimelineDataModel] *)

Section Host.

(** Offset of the host's local time, minutes east of UTC. *)
Variable tz : Z.

(** [getStartDate() { return new Date(startDate + 'T00:00:00'); }] *)
Definition getStartDate (dm : TimelineDataModel) : Z :=
  JSDate.parseLocalMidnight tz (timelineStart dm).

Definition getRelativeDayFromDate (dm : TimelineDataModel) (absoluteDate : Z) : Z :=
  let startDate := getStartDate dm in
  let date := JSDate.parseDateOnly absoluteDate in
  let diffTime := date - startDate in
  let diffDays := JSDate.roundDiv diffTime JSDate.msPerDay in
  diffDays.

Definition getDateFromRelativeDay (dm : TimelineDataModel) (relativeDay : Z) : Z :=
  let startDate := getStartDate dm in
  let date := JSDate.addDays startDate relativeDay in
  JSDate.toISODay date.

Definition addBlock (dm : TimelineDataModel) (startDayOrDate : DayOrDate)
           (duration : Z) (label : string) (row : Z) : Block * TimelineDataModel :=
  let startDate :=
    match startDayOrDate with
    | RelativeDay n =>
        let startDateObj := getStartDate dm in
        let absoluteDate := JSDate.addDays startDateObj n in
        JSDate.toISODay absoluteDate
    | AbsoluteDate d => d
    end in
  let '(id, dm1) := generateId dm in
  let block := mkBlock id startDate duration label row
                       (badgeOrDefault (lastBadgeValue dm1)) in
  let dm2 := set_items dm1 (items dm1 ++ [block]) in
  let dm3 := sortTimelineItems dm2 in
  (block, notifyChange dm3).

Definition addAnnotation (dm : TimelineDataModel) (dayOrDate : DayOrDate)
           (row : Z) (text : string) : Annotation * TimelineDataModel :=
  let date :=
    match dayOrDate with
    | RelativeDay n => getDateFromRelativeDay dm n
    | AbsoluteDate d => d
    end in
  let '(id, dm1) := generateId dm in
  let annotation := mkAnnotation id date row text in
  let dm2 := set_annotations dm1 (annotations dm1 ++ [annotation]) in
  (annotation, notifyChange dm2).

Definition removeAnnotation (dm : TimelineDataModel) (id : string)
  : option Annotation * TimelineDataModel :=
  match findAnnotationIndex id (annotations dm) with
  | Some index =>
      let removed := nth_error (annotations dm) index in
      (removed, notifyChange (set_annotations dm (removeAt index (annotations dm))))
  | None => (None, dm)
  end.

Definition getAnnotation (dm : TimelineDataModel) (dayOrDate : DayOrDate) (row : Z)
  : option Annotation :=
  let date :=
    match dayOrDate with
    | RelativeDay n => getDateFromRelativeDay dm n
    | AbsoluteDate d => d
    end in
  findAnnotationAt date row (annotations dm).

Definition removeItem (dm : TimelineDataModel) (id : string)
  : option Block * TimelineDataModel :=
  match findBlockIndex id (items dm) with
  | Some index =>
      let item := nth_error (items dm) index in
      (item, notifyChange (set_items dm (removeAt index (items dm))))
  | None => (None, dm)
  end.

(** The rewriting of [updates] that precedes [Object.assign]:
    a relative [startDay] (or [day]) becomes an absolute date unless one
    is given as well. *)
Definition blockUpdates (dm : TimelineDataModel) (u : Updates) : Updates :=
  match u_startDay u, u_startDate u with
  | Some d, None =>
      mkUpdates None (Some (getDateFromRelativeDay dm d)) (u_duration u) (u_label u)
                (u_row u) (u_badge u) (u_day u) (u_date u) (u_text u)
  | _, _ => u
  end.

Definition annotationUpdates (dm : TimelineDataModel) (u : Updates) : Updates :=
  match u_day u, u_date u with
  | Some d, None =>
      mkUpdates (u_startDay u) (u_startDate u) (u_duration u) (u_label u)
                (u_row u) (u_badge u) None (Some (getDateFromRelativeDay dm d)) (u_text u)
  | _, _ => u
  end.

(** [updateItem(id, updates)]: the item returned, or null, and the model.
    The entries of [items] are blocks, so of the two rewritings tried on
    an entry of [items] only the one for blocks applies. *)
Definition updateItem (dm : TimelineDataModel) (id : string) (updates : Updates)
  : option (Block + Annotation) * TimelineDataModel :=
  match findBlock id (items dm) with
  | Some item =>
      let updates := blockUpdates dm updates in
      let item' := assignBlock item updates in
      let dm1 := set_items dm (replaceBlock id item' (items dm)) in
      let dm2 :=
        match u_badge updates with
        | Some bdg => set_lastBadgeValue dm1 bdg
        | None => dm1
        end in
      let dm3 := sortTimelineItems dm2 in
      (Some (inl item'), notifyChange dm3)
  | None =>
      match findAnnotation id (annotations dm) with
      | Some item =>
          let updates := annotationUpdates dm updates in
          let item' := assignAnnotation item updates in
          let dm1 := set_annotations dm (replaceAnnotation id item' (annotations dm)) in
          (Some (inr item'), notifyChange dm1)
      | None => (None, dm)
      end
  end.

Definition reorderItems (dm : TimelineDataModel) (draggedId : string) (targetIndex : Z)
  : TimelineDataModel :=
  match findBlockIndex draggedId (items dm) with
  | None => dm
  | Some draggedIndex =>
      match nth_error (items dm) draggedIndex with
      | Some item =>
          set_items dm (insertAt targetIndex item (removeAt draggedIndex (items dm)))
      | None => dm
      end
  end.

(** [items.find(..) || offTimeline.blocks.find(..)] *)
Definition getItem (dm : TimelineDataModel) (id : string) : option Block :=
  match findBlock id (items dm) with
  | Some b => Some b
  | None => findBlock id (offTimeline dm)
  end.

End Host.

(* ================================================================== *)
(** ** timeline.js: coordinates *)

(** A rendered block: the store object it shows and the box of its element
    ([element.style.left] and the width of [getBoundingClientRect()]). *)
Record Component : Type := mkComponent {
  c_data : Block;
  c_left : Q;
  c_width : Q
}.

(** The fields of [Timeline] the coordinate and gesture code reads.
    [tl_items] is the map [this.items] from ids to block components. *)
Record Timeline : Type := mkTimeline {
  dataModel : TimelineDataModel;
  zoom : Q;
  config_dayWidth : Z;
  blockHeight : Q;
  annotationSpace : Q;
  tl_items : list Component;
  selectedBlockId : option string;
  selectedAnnotationId : option string
}.

Definition set_dataModel (tl : Timeline) (dm : TimelineDataModel) : Timeline :=
  mkTimeline dm (zoom tl) (config_dayWidth tl) (blockHeight tl) (annotationSpace tl)
             (tl_items tl) (selectedBlockId tl) (selectedAnnotationId tl).

(** [this.items.get(id)] *)
Fixpoint getComponent (id : string) (l : list Component) : option Component :=
  match l with
  | [] => None
  | c :: r => if String.eqb (b_id (c_data c)) id then Some c else getComponent id r
  end.

(** The message of [console.warn] in [pixelToDay]. *)
Definition safetyWarning : string := "pixelToDay: exceeded safety limit".

Section Coordinates.

Variable tz : Z.

Definition getDateForDay (tl : Timeline) (day : Z) : Z :=
  let startDate := getStartDate tz (dataModel tl) in
  JSDate.addDays startDate day.

Definition isWeekend (tl : Timeline) (day : Z) : bool :=
  let date := getDateForDay tl day in
  let dayOfWeek := JSDate.getDay tz date in
  (dayOfWeek =? 0) || (dayOfWeek =? 6).

(** [getDayWidth(day = null)] *)
Definition getDayWidth (tl : Timeline) (day : option Z) : Z :=
  match day with
  | Some d => if isWeekend tl d then 20 else 80
  | None => config_dayWidth tl
  end.

(** [for (let i = 0; i < n; i++) totalPixels += this.getDayWidth(first + i)],
    with [n] iterations left. *)
Fixpoint widthLoop (tl : Timeline) (n : nat) (day : Z) (totalPixels : Z) : Z :=
  match n with
  | O => totalPixels
  | S k => widthLoop tl k (day + 1) (totalPixels + getDayWidth tl (Some day))
  end.

(** The unzoomed pixel at which day [d] starts: the sum [dayToPixel]
    scales by the zoom.  The sum is an integer and exact in the program
    too; the product with the zoom is exact here and rounded to a double
    there. *)
Definition dayStartPixel (tl : Timeline) (d : Z) : Z :=
  widthLoop tl (Z.to_nat d) 0 0.

Definition dayToPixel (tl : Timeline) (day : Z) : Q :=
  (inject_Z (widthLoop tl (Z.to_nat day) 0 0) * zoom tl)%Q.

Definition dayToPixelForDuration (tl : Timeline) (startDay duration : Z) : Q :=
  (inject_Z (widthLoop tl (Z.to_nat duration) startDay 0) * zoom tl)%Q.

(** The body of [while (true)] in [pixelToDay]; [fuel] bounds the number
    of iterations of the model, the code's own bound is the test
    [day > 10000].  The result carries the [console.warn] output. *)
Fixpoint pixelWalk (tl : Timeline) (fuel : nat) (unzoomedPixel : Q)
         (accumulatedPixels : Z) (day : Z) : Z * list string :=
  match fuel with
  | O => (day, [safetyWarning])
  | S f =>
      let dayWidth := getDayWidth tl (Some day) in
      let dayStart := accumulatedPixels in
      let dayEnd := accumulatedPixels + dayWidth in
      if Qltb (Qabs (unzoomedPixel - inject_Z dayStart)%Q) tolerance then (day, [])
      else if Qltb (Qabs (unzoomedPixel - inject_Z dayEnd)%Q) tolerance then (day + 1, [])
      else if Qltb (inject_Z dayStart) unzoomedPixel
              && Qltb unzoomedPixel (inject_Z dayEnd) then (day, [])
      else
        let day' := day + 1 in
        if day' >? 10000 then (day', [safetyWarning])
        else pixelWalk tl f unzoomedPixel dayEnd day'
  end.

(** The walk starts at day 0 and returns from the iteration of day 10000
    at the latest, that is after at most 10001 iterations. *)
Definition pixelToDayLog (tl : Timeline) (pixel : Q) : Z * list string :=
  let unzoomedPixel := (pixel / zoom tl)%Q in
  pixelWalk tl (Z.to_nat 10001) unzoomedPixel 0 0.

Definition pixelToDay (tl : Timeline) (pixel : Q) : Z := fst (pixelToDayLog tl pixel).

Definition snapPixelToGrid (tl : Timeline) (pixel : Q) : Q :=
  let day := pixelToDay tl pixel in
  dayToPixel tl day.

(** [calculateGridlineIntersection(x, y)], in exact arithmetic: the program
    computes [fractionalRow] and [positionInRow] in doubles, so a pointer
    within rounding distance of the edge of a band can fall on the other
    side of it there. *)
Definition calculateGridlineIntersection (tl : Timeline) (x y : Q) : Z * Z :=
  let day := pixelToDay tl x in
  let padding : Q := 32%Q in
  let relativeY := (y - padding)%Q in
  let rowSpacing := (blockHeight tl + annotationSpace tl)%Q in
  let fractionalRow := (relativeY / rowSpacing)%Q in
  let integerRow := Qfloor fractionalRow in
  let positionInRow := ((fractionalRow - inject_Z integerRow) * rowSpacing)%Q in
  let row :=
    if integerRow <? 0 then 0
    else if Qle_bool (blockHeight tl) positionInRow then integerRow
    else
      let rowAbove := integerRow in
      let rowBelow := Qceiling fractionalRow in
      let rowAboveGridline := (padding + inject_Z rowAbove * rowSpacing)%Q in
      let rowBelowGridline := (padding + inject_Z rowBelow * rowSpacing)%Q in
      let distanceToAbove := Qabs (y - rowAboveGridline)%Q in
      let distanceToBelow := Qabs (y - rowBelowGridline)%Q in
      if Qltb distanceToAbove distanceToBelow then rowAbove else rowBelow in
  (day, row).

(** The decision of the [mousemove] handler of [setupAnnotationHover] for a
    pointer over the empty track: [true] shows the plus icon on which a
    click creates an annotation, [false] hides it. *)
Definition annotationHoverShows (tl : Timeline) (x y : Q) : bool :=
  let '(day, row) := calculateGridlineIntersection tl x y in
  match getAnnotation tz (dataModel tl) (RelativeDay day) row with
  | None => true
  | Some _ => false
  end.

(** The data-model effect of [moveSelectedItem(deltaDays, deltaRow)]. *)
Definition moveSelectedItem (tl : Timeline) (deltaDays deltaRow : Z) : Timeline :=
  let dm := dataModel tl in
  match selectedBlockId tl with
  | Some selected =>
      match getItem dm selected with
      | Some block =>
          let startDate := startDate block in
          let relativeDay := getRelativeDayFromDate tz dm startDate in
          let newRelativeDay := Z.max 0 (relativeDay + deltaDays) in
          let newDate := getDateFromRelativeDay tz dm newRelativeDay in
          let newRow := Z.max 0 (row block + deltaRow) in
          let updates := mkUpdates None (Some newDate) None None (Some newRow)
                                   None None None None in
          set_dataModel tl (snd (updateItem tz dm (b_id block) updates))
      | None => tl
      end
  | None =>
      match selectedAnnotationId tl with
      | Some selected =>
          match findAnnotation selected (annotations dm) with
          | Some annotation =>
              let date := date annotation in
              let relativeDay := getRelativeDayFromDate tz dm date in
              let newRelativeDay := Z.max 0 (relativeDay + deltaDays) in
              let newDate := getDateFromRelativeDay tz dm newRelativeDay in
              let newRow := Z.max 0 (a_row annotation + deltaRow) in
              let updates := mkUpdates None None None None (Some newRow)
                                       None None (Some newDate) None in
              set_dataModel tl (snd (updateItem tz dm (a_id annotation) updates))
          | None => tl
          end
      | None => tl
      end
  end.

End Coordinates.

(* ================================================================== *)
(** ** resize.js: the resize gesture *)

(** An entry of [blocksToPush]. *)
Record PushEntry : Type := mkPush {
  p_component : Component;
  p_initialStartDate : Z;
  p_initialRelativeDay : Z;
  p_initialLeft : Q
}.

(** [resizeState] *)
Record ResizeState : Type := mkResize {
  rs_component : Component;
  rs_startX : Q;
  rs_initialWidth : Q;
  rs_initialDuration : Z;
  rs_initialLeft : Q;
  rs_initialRightEdge : Z;
  rs_initialRelativeDay : Z;
  rs_blocksToPush : list PushEntry
}.

Section Resize.

Variable tz : Z.

(** The body of the [forEach] of [findBlocksToRight] for one item: the
    entries it pushes. *)
Definition pushEntryOf (tl : Timeline) (resizedId : string)
           (resizedRow resizedRightEdge : Z) (item : Block) : list PushEntry :=
  if negb (String.eqb (b_id item) resizedId) && (row item =? resizedRow) then
    let itemStartDate := startDate item in
    let itemRelativeDay := getRelativeDayFromDate tz (dataModel tl) itemStartDate in
    if itemRelativeDay >=? resizedRightEdge then
      match getComponent (b_id item) (tl_items tl) with
      | Some component =>
          let initialLeft :=
            if Qeq_bool (c_left component) 0
            then dayToPixel tz tl itemRelativeDay
            else c_left component in
          [mkPush component itemStartDate itemRelativeDay initialLeft]
      | None => []
      end
    else []
  else [].

(** The tests of that body on the item itself: another block, in the
    row of the resized one, starting at or after its right edge. *)
Definition isPushed (tl : Timeline) (resizedId : string)
           (resizedRow resizedRightEdge : Z) (item : Block) : bool :=
  negb (String.eqb (b_id item) resizedId) && (row item =? resizedRow)
  && (resizedRightEdge <=? getRelativeDayFromDate tz (dataModel tl) (startDate item)).

Definition findBlocksToRight (resizedBlock : Component) (tl : Timeline)
  : list PushEntry :=
  let resizedData := c_data resizedBlock in
  let resizedRow := row resizedData in
  let resizedStartDate := startDate resizedData in
  let resizedRelativeDay :=
    getRelativeDayFromDate tz (dataModel tl) resizedStartDate in
  let resizedRightEdge := resizedRelativeDay + duration resizedData in
  flat_map (pushEntryOf tl (b_id resizedData) resizedRow resizedRightEdge)
           (items (dataModel tl)).

(** [startResize(e, component, timeline)] with [e.clientX = clientX]. *)
Definition startResize (clientX : Q) (component : Component) (tl : Timeline)
  : ResizeState :=
  let initialWidth := c_width component in
  let startX := clientX in
  let initialLeft := c_left component in
  let startDate := startDate (c_data component) in
  let initialRelativeDay := getRelativeDayFromDate tz (dataModel tl) startDate in
  let initialRightEdge := initialRelativeDay + duration (c_data component) in
  let blocksToPush := findBlocksToRight component tl in
  mkResize component startX initialWidth (duration (c_data component)) initialLeft
           initialRightEdge initialRelativeDay blocksToPush.

(** [snappedDuration] of [handleResizeEnd]. *)
Definition snappedDuration (rs : ResizeState) (tl : Timeline) (clientX : Q) : Z :=
  let deltaX := (clientX - rs_startX rs)%Q in
  let minWidth := dayToPixelForDuration tz tl (rs_initialRelativeDay rs) 1 in
  let newWidth := Qmax minWidth (rs_initialWidth rs + deltaX)%Q in
  let startDay := rs_initialRelativeDay rs in
  let endDay := pixelToDay tz tl (rs_initialLeft rs + newWidth)%Q in
  let newDuration := Z.max 1 (endDay - startDay) in
  newDuration.

(** One step of the [forEach] that commits the pushed blocks. *)
Definition commitPush (deltaDays : Z) (dm : TimelineDataModel) (p : PushEntry)
  : TimelineDataModel :=
  let newRelativeDay := p_initialRelativeDay p + deltaDays in
  let newStartDate := getDateFromRelativeDay tz dm newRelativeDay in
  snd (updateItem tz dm (b_id (c_data (p_component p))) (onlyStartDate newStartDate)).

(** The data-model effect of [handleResizeEnd(e)] with
    [e.clientX = clientX]; without a gesture in progress it returns at once. *)
Definition handleResizeEnd (resizeState : option ResizeState) (tl : Timeline)
           (clientX : Q) : Timeline :=
  match resizeState with
  | None => tl
  | Some rs =>
      let snapped := snappedDuration rs tl clientX in
      let deltaDays := snapped - rs_initialDuration rs in
      let dm1 :=
        snd (updateItem tz (dataModel tl) (b_id (c_data (rs_component rs)))
                        (onlyDuration snapped)) in
      let dm2 := fold_left (commitPush deltaDays) (rs_blocksToPush rs) dm1 in
      set_dataModel tl dm2
  end.

End Resize.

(** The id under which an entry of [blocksToPush] is committed, and the
    entry a given id is committed by. *)
Definition pushId (p : PushEntry) : string := b_id (c_data (p_component p)).

Fixpoint findPush (id : string) (ps : list PushEntry) : option PushEntry :=
  match ps with
  | [] => None
  | p :: r => if String.eqb (pushId p) id then Some p else findPush id r
  end.

(* ================================================================== *)
(** ** Scenario values *)

(** A freshly constructed model whose start date is [start]. *)
Definition newModel (start : Z) : TimelineDataModel :=
  mkModel [] [] 1 0 start "XD" [] 1 0.

(** A timeline over [dm] at zoom 1 with the components [render()] creates:
    one per block, placed at its day and as wide as its days. *)
Definition renderedComponents (tz : Z) (tl : Timeline) : list Component :=
  map (fun b =>
         let relativeDay := getRelativeDayFromDate tz (dataModel tl) (startDate b) in
         mkComponent b (dayToPixel tz tl relativeDay)
                     (dayToPixelForDuration tz tl relativeDay (duration b)))
      (items (dataModel tl)).

Definition newTimeline (dm : TimelineDataModel) : Timeline :=
  mkTimeline dm 1 80 80 40 [] None None.

Definition render (tz : Z) (tl : Timeline) : Timeline :=
  mkTimeline (dataModel tl) (zoom tl) (config_dayWidth tl) (blockHeight tl)
             (annotationSpace tl) (renderedComponents tz tl)
             (selectedBlockId tl) (selectedAnnotationId tl).

(** Blocks in non-decreasing order of [startDate]. *)
Definition byStartDate (a b : Block) : Prop := startDate a <= startDate b.

Definition blocksSorted (l : list Block) : Prop := StronglySorted byStartDate l.

(** The store of Scenario A under the host offset [tz]:
    [addBlock(0, 5, "Design", 0)] then [addBlock(5, 3, "Build", 0)]. *)
Definition scenarioModel (tz : Z) : TimelineDataModel :=
  let dm0 := newModel (JSDate.ymd 2024 1 1) in
  let dm1 := snd (addBlock tz dm0 (RelativeDay 0) 5 "Design" 0) in
  snd (addBlock tz dm1 (RelativeDay 5) 3 "Build" 0).

Definition scenarioTimeline (tz : Z) : Timeline :=
  render tz (newTimeline (scenarioModel tz)).

(** The timeline of Scenario A before any block is added: start date
    2024-01-01 (a Monday), zoom 1. *)
Definition mondayTimeline : Timeline := newTimeline (newModel (JSDate.ymd 2024 1 1)).

(** A timeline whose start date 2024-01-06 is a Saturday. *)
Definition saturdayTimeline : Timeline := newTimeline (newModel (JSDate.ymd 2024 1 6)).

(** Width of the column of a day by its weekday number ([x mod 7], 0 = Sunday). *)
Definition weekdayWidth (x : Z) : Z :=
  if (x mod 7 =? 0) || (x mod 7 =? 6) then 20 else 80.

(* ================================================================== *)
(** ** data-model.js: [fromJSON] on untyped documents

    [fromJSON] assigns whatever [JSON.parse] returns to [this.data], so here
    [this.data] is a JavaScript value, not the typed record above. *)

#[warnings="-register-all"]
Inductive JSValue : Type :=
| JUndefined
| JNull
| JBool (b : bool)
| JNumber (q : Q)
| JString (s : string)
| JArray (elements : list JSValue)
| JObject (properties : list (string * JSValue)).

(** [this.data] and [this.nextId] *)
Record RawModel : Type := mkRaw {
  raw_data : JSValue;
  raw_nextId : Z
}.

(** An expression either has a value or throws. *)
Inductive Outcome (A : Type) : Type :=
| Value (a : A)
| Thrown.
Arguments Value {A} a.
Arguments Thrown {A}.

Fixpoint lookupProperty (k : string) (props : list (string * JSValue)) : JSValue :=
  match props with
  | [] => JUndefined
  | (k', v) :: r => if String.eqb k' k then v else lookupProperty k r
  end.

Fixpoint storeProperty (k : string) (x : JSValue) (props : list (string * JSValue))
  : list (string * JSValue) :=
  match props with
  | [] => [(k, x)]
  | (k', v) :: r =>
      if String.eqb k' k then (k', x) :: r else (k', v) :: storeProperty k x r
  end.

(** [v.k]: a [TypeError] on [null] and [undefined]; none of the names read
    by [fromJSON] is a built-in property of a primitive or of an array. *)
Definition getProp (v : JSValue) (k : string) : Outcome JSValue :=
  match v with
  | JUndefined | JNull => Thrown
  | JObject props => Value (lookupProperty k props)
  | _ => Value JUndefined
  end.

(** [v.k = x] in strict code: a [TypeError] on [null], [undefined] and on
    primitives.  A named property put on an array is not an element of it
    and leaves the tree as it is. *)
Definition setProp (v : JSValue) (k : string) (x : JSValue) : Outcome JSValue :=
  match v with
  | JObject props => Value (JObject (storeProperty k x props))
  | JArray l => Value (JArray l)
  | _ => Thrown
  end.

(** Truthiness, as [!v] and [v || d] test it. *)
Definition truthy (v : JSValue) : bool :=
  match v with
  | JUndefined | JNull => false
  | JBool b => b
  | JNumber q => negb (Qeq_bool q 0)
  | JString s => negb (String.eqb s EmptyString)
  | JArray _ | JObject _ => true
  end.

Definition isUndefined (v : JSValue) : bool :=
  match v with JUndefined => true | _ => false end.

Definition isBlockType (v : JSValue) : bool :=
  match v with JString s => String.eqb s "block" | _ => false end.

(** The elements a spread [...v] contributes: a [TypeError] unless [v] is
    iterable; a string spreads into its characters. *)
Definition spread (v : JSValue) : Outcome (list JSValue) :=
  match v with
  | JArray l => Value l
  | JString s =>
      Value (map (fun c => JString (String c EmptyString)) (list_ascii_of_string s))
  | _ => Thrown
  end.

Section FromJSON.

Variable tz : Z.

(** Built-ins of the host: [JSON.parse] ([None] when it throws),
    the time value of [new Date(v)] ([None] for an invalid date),
    the time value after [d.setDate(d.getDate() + v)] for a [v] that is
    not a number ([None] for an invalid date), [parseInt] ([None] for
    [NaN]) and the result of [today.toISOString().split('T')[0]]. *)
Variable JSON_parse : string -> option JSValue.
Variable newDate : JSValue -> option Z.
Variable setDatePlusValue : Z -> JSValue -> option Z.
Variable parseInt : JSValue -> option Z.
Variable todayISO : string.

(** [date.setHours(0, 0, 0, 0)]: local midnight of the local day. *)
Definition setHoursZero (t : Z) : Z :=
  (t + tz * 60000) / JSDate.msPerDay * JSDate.msPerDay - tz * 60000.

(** [d.setDate(d.getDate() + v)] for a number [v]: [setDate] truncates the
    sum [d.getDate() + v] towards zero and moves to that day of the month of
    [d], so the date moves by the truncated sum less the day of the month. *)
Definition setDatePlus (t : Z) (v : JSValue) : option Z :=
  match v with
  | JNumber q =>
      let dayOfMonth := JSDate.getDate tz t in
      let sum := (inject_Z dayOfMonth + q)%Q in
      let dt := if Qle_bool 0 sum then Qfloor sum else Qceiling sum in
      Some (JSDate.addDays t (dt - dayOfMonth))
  | _ => setDatePlusValue t v
  end.

(** The statements on [this.data.timeline.startDate]: the new [this.data]
    and the day number of the normalised start date.  Every throw in them
    comes before their assignment. *)
Definition normaliseStartDate (data : JSValue) : Outcome (JSValue * option Z) :=
  match getProp data "timeline" with
  | Thrown => Thrown
  | Value timeline =>
      match getProp timeline "startDate" with
      | Thrown => Thrown
      | Value startDate =>
          if negb (truthy startDate) then
            match setProp timeline "startDate" (JString todayISO) with
            | Thrown => Thrown
            | Value timeline' =>
                match setProp data "timeline" timeline' with
                | Thrown => Thrown
                | Value data' => Value (data', None)
                end
            end
          else
            match newDate startDate with
            | None => Thrown       (* toISOString: RangeError *)
            | Some t =>
                let day := JSDate.toISODay (setHoursZero t) in
                match setProp timeline "startDate" (JString (JSDate.isoDate day)) with
                | Thrown => Thrown
                | Value timeline' =>
                    match setProp data "timeline" timeline' with
                    | Thrown => Thrown
                    | Value data' => Value (data', Some day)
                    end
                end
            end
      end
  end.

(** [new Date(this.data.timeline.startDate + 'T00:00:00')] after the
    normalisation. *)
Definition startDateObj (timeline : JSValue) (startDay : option Z) : option Z :=
  match startDay with
  | Some d => Some (JSDate.parseLocalMidnight tz d)
  | None =>
      match getProp timeline "startDate" with
      | Value (JString s) => newDate (JString (s ++ "T00:00:00"))
      | _ => None
      end
  end.

Definition storeField (item : JSValue) (k : string) (x : JSValue) : JSValue :=
  match setProp item k x with Value item' => item' | Thrown => item end.

Definition readField (item : JSValue) (k : string) : JSValue :=
  match getProp item k with Value v => v | Thrown => JUndefined end.

(** The migration of a relative day [from] into an absolute date [to]:
    the item after it, and whether [toISOString] threw. *)
Definition migrateDay (timeline : JSValue) (startDay : option Z)
           (from to : string) (item : JSValue) : JSValue * bool :=
  if negb (isUndefined (readField item from)) && negb (truthy (readField item to)) then
    match startDateObj timeline startDay with
    | None => (item, true)
    | Some t =>
        match setDatePlus t (readField item from) with
        | None => (item, true)
        | Some t' =>
            (storeField item to (JString (JSDate.isoDate (JSDate.toISODay t'))), false)
        end
    end
  else (item, false).

(** The callback of [items.forEach]: the item after it, and whether it
    threw. *)
Definition migrateItem (timeline : JSValue) (startDay : option Z) (item : JSValue)
  : JSValue * bool :=
  match getProp item "type" with
  | Thrown => (item, true)
  | Value ty =>
      if isBlockType ty then
        let item1 :=
          if isUndefined (readField item "row")
          then storeField item "row" (JNumber 0) else item in
        let '(item2, threw) := migrateDay timeline startDay "startDay" "startDate" item1 in
        if threw then (item2, true)
        else if isUndefined (readField item2 "badge") then
          let lastBadge := readField timeline "lastBadgeValue" in
          (storeField item2 "badge"
                      (if truthy lastBadge then lastBadge else JString "XD"), false)
        else (item2, false)
      else (item, false)
  end.

(** The callback of [annotations.forEach]. *)
Definition migrateAnnotation (timeline : JSValue) (startDay : option Z) (ann : JSValue)
  : JSValue * bool :=
  match getProp ann "day" with
  | Thrown => (ann, true)
  | Value _ => migrateDay timeline startDay "day" "date" ann
  end.

(** [array.forEach(callback)] for a callback that mutates its element:
    the array when the loop ends or is left by a throw. *)
Fixpoint forEachMutating (callback : JSValue -> JSValue * bool) (l : list JSValue)
  : list JSValue * bool :=
  match l with
  | [] => ([], false)
  | x :: r =>
      let '(x', threw) := callback x in
      if threw then (x' :: r, true)
      else
        let '(r', threw') := forEachMutating callback r in
        (x' :: r', threw')
  end.

(** [allItems.reduce(.., 0)]: [None] when [item.id] throws. *)
Fixpoint maxId (l : list JSValue) (max : Z) : option Z :=
  match l with
  | [] => Some max
  | item :: r =>
      match getProp item "id" with
      | Thrown => None
      | Value v => maxId r (Z.max max (orElse (parseInt v) 0))
      end
  end.

(** The statements of [fromJSON] after the start date, on the document
    [data] already stored in [this.data]: the document they leave behind
    and the new [nextId], if they get that far. *)
Definition migrateDocument (data : JSValue) (startDay : option Z)
  : JSValue * option Z :=
  let timeline := readField data "timeline" in
  match readField timeline "items" with
  | JArray itemList =>
      let '(itemList', threw) := forEachMutating (migrateItem timeline startDay) itemList in
      let timeline1 := storeField timeline "items" (JArray itemList') in
      if threw then (storeField data "timeline" timeline1, None)
      else
        let timeline2 :=
          if truthy (readField timeline1 "lastBadgeValue") then timeline1
          else storeField timeline1 "lastBadgeValue" (JString "XD") in
        let timeline3 :=
          if truthy (readField timeline2 "annotations") then timeline2
          else storeField timeline2 "annotations" (JArray []) in
        match readField timeline3 "annotations" with
        | JArray annList =>
            let '(annList', threw) :=
              forEachMutating (migrateAnnotation timeline3 startDay) annList in
            let timeline4 := storeField timeline3 "annotations" (JArray annList') in
            let data4 := storeField data "timeline" timeline4 in
            if threw then (data4, None)
            else
              match getProp (readField data4 "offTimeline") "blocks" with
              | Thrown => (data4, None)
              | Value blocks =>
                  match spread blocks with
                  | Thrown => (data4, None)
                  | Value blockList =>
                      match maxId (itemList' ++ annList' ++ blockList) 0 with
                      | None => (data4, None)
                      | Some m => (data4, Some (m + 1))
                      end
                  end
              end
        | _ => (storeField data "timeline" timeline3, None)
        end
  | _ => (data, None)
  end.

(** [fromJSON(json)]: its boolean result and the model it leaves.  The
    [catch] clause only logs and returns [false]. *)
Definition fromJSON (st : RawModel) (json : JSValue) : bool * RawModel :=
  let parsed :=
    match json with
    | JString s => JSON_parse s
    | v => Some v
    end in
  match parsed with
  | None => (false, st)
  | Some parsed =>
      let st1 := mkRaw parsed (raw_nextId st) in
      match normaliseStartDate parsed with
      | Thrown => (false, st1)
      | Value (data1, startDay) =>
          match migrateDocument data1 startDay with
          | (data2, None) => (false, mkRaw data2 (raw_nextId st))
          | (data2, Some next) => (true, mkRaw data2 next)
          end
      end
  end.

End FromJSON.

(** The document of a freshly constructed model with start date 2024-01-01,
    as [toJSON] writes it, and the model holding it. *)
Definition freshDocument : JSValue :=
  JObject
    [("timeline"%string,
      JObject [("items"%string, JArray []);
               ("annotations"%string, JArray []);
               ("zoom"%string, JNumber 1);
               ("scrollPosition"%string, JNumber 0);
               ("startDate"%string, JString "2024-01-01");
               ("lastBadgeValue"%string, JString "XD")]);
     ("offTimeline"%string, JObject [("blocks"%string, JArray [])])].

Definition freshRawModel : RawModel := mkRaw freshDocument 1.

(** A [JSON.parse] that knows the text of the empty object only. *)
Definition parseEmptyObject (s : string) : option JSValue :=
  if String.eqb s "{}" then Some (JObject []) else None.


(* ================================================================== *)
(** ** timeline.js: snapping to the right and the zoom *)

(** [Math.min] on pixel values *)
Definition Qmin (x y : Q) : Q := if Qle_bool x y then x else y.

Definition set_data_zoom (dm : TimelineDataModel) (z : Q) : TimelineDataModel :=
  mkModel (items dm) (annotations dm) z (scrollPosition dm) (timelineStart dm)
          (lastBadgeValue dm) (offTimeline dm) (nextId dm) (changes dm).

(** [setZoom(zoom)]: the clamp and the copy into the data model. *)
Definition setZoom (tl : Timeline) (z : Q) : Timeline :=
  let z' := Qmax (1 # 4) (Qmin 3 z) in
  mkTimeline (set_data_zoom (dataModel tl) z') z' (config_dayWidth tl) (blockHeight tl)
             (annotationSpace tl) (tl_items tl) (selectedBlockId tl)
             (selectedAnnotationId tl).

Section SnapRight.

Variable tz : Z.

Definition snapPixelToGridPreferRight (tl : Timeline) (pixel : Q) : Q :=
  let day := pixelToDay tz tl pixel in
  let leftGridline := dayToPixel tz tl day in
  let rightGridline := dayToPixel tz tl (day + 1) in
  let distanceToLeft := Qabs (pixel - leftGridline)%Q in
  let distanceToRight := Qabs (pixel - rightGridline)%Q in
  if Qle_bool distanceToRight distanceToLeft then rightGridline else leftGridline.

End SnapRight.

(** The top of row [k]: [padding + k * rowSpacing]. *)
Definition rowTop (tl : Timeline) (k : Z) : Q :=
  (32 + inject_Z k * (blockHeight tl + annotationSpace tl))%Q.

(* ================================================================== *)
(** ** data-model.js: [moveToTimeline] and [setStartDate] *)


Definition set_timelineStart (dm : TimelineDataModel) (d : Z) : TimelineDataModel :=
  mkModel (items dm) (annotations dm) (data_zoom dm) (scrollPosition dm) d
          (lastBadgeValue dm) (offTimeline dm) (nextId dm) (changes dm).

(** The argument of [setStartDate]: a [Date] object (its time value) or a
    date-only string (the day it names). *)
Inductive DateArg : Type :=
| DateObject (t : Z)
| DateText (d : Z).

Section HostMore.

Variable tz : Z.


Definition setStartDate (dm : TimelineDataModel) (date : DateArg) : TimelineDataModel :=
  let dateObj :=
    match date with
    | DateObject t => t
    | DateText d => JSDate.parseDateOnly d
    end in
  let dateObj := setHoursZero tz dateObj in
  notifyChange (set_timelineStart dm (JSDate.toISODay dateObj)).

End HostMore.

(* ================================================================== *)
(** ** timeline.js: selection, keyboard and pointer creation *)

(** [selectBlock(blockId)] and [selectAnnotation(annotationId)], on the two
    selection fields. *)
Definition selectBlock (tl : Timeline) (blockId : option string) : Timeline :=
  mkTimeline (dataModel tl) (zoom tl) (config_dayWidth tl) (blockHeight tl)
             (annotationSpace tl) (tl_items tl) blockId None.

Definition selectAnnotation (tl : Timeline) (annotationId : option string) : Timeline :=
  mkTimeline (dataModel tl) (zoom tl) (config_dayWidth tl) (blockHeight tl)
             (annotationSpace tl) (tl_items tl) None annotationId.

Definition set_selectedBlockId (tl : Timeline) (blockId : option string) : Timeline :=
  mkTimeline (dataModel tl) (zoom tl) (config_dayWidth tl) (blockHeight tl)
             (annotationSpace tl) (tl_items tl) blockId (selectedAnnotationId tl).

(** [Timeline.removeItem(id)]: [this.items.delete(id)]. *)
Definition removeComponent (tl : Timeline) (id : string) : Timeline :=
  mkTimeline (dataModel tl) (zoom tl) (config_dayWidth tl) (blockHeight tl)
             (annotationSpace tl)
             (filter (fun c => negb (String.eqb (b_id (c_data c)) id)) (tl_items tl))
             (selectedBlockId tl) (selectedAnnotationId tl).

(** The comparator of [getAllBlocksSorted]: by row, then by start date. *)
Definition rowThenDate (a b : Block) : bool :=
  (row a <? row b) || ((row a =? row b) && (startDate a <=? startDate b)).

Fixpoint insertByRow (b : Block) (l : list Block) : list Block :=
  match l with
  | [] => [b]
  | x :: r => if rowThenDate b x then b :: l else x :: insertByRow b r
  end.

Fixpoint sortByRow (l : list Block) : list Block :=
  match l with
  | [] => []
  | b :: r => insertByRow b (sortByRow r)
  end.

(** [getAllBlocksSorted()]: every entry of [items] is a block. *)
Definition getAllBlocksSorted (tl : Timeline) : list Block :=
  sortByRow (items (dataModel tl)).

(** [array.find(test)] *)
Fixpoint findFirst (test : Block -> bool) (l : list Block) : option Block :=
  match l with
  | [] => None
  | b :: r => if test b then Some b else findFirst test r
  end.

Definition findNextBlock (tl : Timeline) (currentBlockId : string) : option string :=
  let sortedBlocks := getAllBlocksSorted tl in
  match sortedBlocks with
  | [] => None
  | first :: _ =>
      match findBlockIndex currentBlockId sortedBlocks with
      | None => Some (b_id first)
      | Some currentIndex =>
          match nth_error sortedBlocks currentIndex with
          | None => Some (b_id first)
          | Some currentBlock =>
              let currentRow := row currentBlock in
              match findFirst (fun b => row b =? currentRow)
                              (skipn (S currentIndex) sortedBlocks) with
              | Some b => Some (b_id b)
              | None =>
                  match findFirst (fun b => currentRow <? row b) sortedBlocks with
                  | Some b => Some (b_id b)
                  | None => Some (b_id first)
                  end
              end
          end
      end
  end.

(** [sortedBlocks.length > 0] then [selectBlock(sortedBlocks[0].id)] *)
Definition selectFirstBlock (tl : Timeline) : Timeline :=
  match getAllBlocksSorted tl with
  | first :: _ => selectBlock tl (Some (b_id first))
  | [] => tl
  end.

Definition deleteSelectedBlock (tl : Timeline) : Timeline :=
  match selectedBlockId tl with
  | None => tl
  | Some deletedBlockId =>
      let nextBlockId := findNextBlock tl deletedBlockId in
      let tl1 := set_dataModel tl (snd (removeItem (dataModel tl) deletedBlockId)) in
      let tl2 := removeComponent tl1 deletedBlockId in
      let tl3 := set_selectedBlockId tl2 None in
      match nextBlockId with
      | Some next =>
          if negb (String.eqb next deletedBlockId) then
            match getItem (dataModel tl3) next with
            | Some _ => selectBlock tl3 (Some next)
            | None => selectFirstBlock tl3
            end
          else selectFirstBlock tl3
      | None => selectFirstBlock tl3
      end
  end.

Section Keyboard.

Variable tz : Z.

(** The step of the [forEach] of [findRightmostBlock] on
    [(rightmost, rightmostEnd)]. *)
Definition rightmostStep (tl : Timeline) (acc : option Block * Z) (item : Block)
  : option Block * Z :=
  let relativeDay := getRelativeDayFromDate tz (dataModel tl) (startDate item) in
  let endDay := relativeDay + duration item in
  if endDay >? snd acc then (Some item, endDay) else acc.

Definition findRightmostBlock (tl : Timeline) : option Block :=
  fst (fold_left (rightmostStep tl) (items (dataModel tl)) (None, -1)).

(** The key [N]: a 5-day block after the rightmost block, or at day 0 of an
    empty timeline; the new block is selected. *)
Definition keyN (tl : Timeline) : Timeline :=
  let dm := dataModel tl in
  match findRightmostBlock tl with
  | Some rightmost =>
      let relativeDay := getRelativeDayFromDate tz dm (startDate rightmost) in
      let newRelativeDay := relativeDay + duration rightmost in
      let newDate := getDateFromRelativeDay tz dm newRelativeDay in
      let '(newBlock, dm') := addBlock tz dm (AbsoluteDate newDate) 5 "" (row rightmost) in
      selectBlock (render tz (set_dataModel tl dm')) (Some (b_id newBlock))
  | None =>
      let newDate := JSDate.toISODay (getStartDate tz dm) in
      let '(newBlock, dm') := addBlock tz dm (AbsoluteDate newDate) 5 "" 0 in
      selectBlock (render tz (set_dataModel tl dm')) (Some (b_id newBlock))
  end.

(** The keys [+] and [=]: one more day for the selected block. *)
Definition keyPlus (tl : Timeline) : Timeline :=
  match selectedBlockId tl with
  | Some selected =>
      match getItem (dataModel tl) selected with
      | Some block =>
          let newDuration := duration block + 1 in
          render tz (set_dataModel tl
            (snd (updateItem tz (dataModel tl) (b_id block) (onlyDuration newDuration))))
      | None => tl
      end
  | None => tl
  end.

(** The keys [-] and [_]: one day less, for a block longer than a day. *)
Definition keyMinus (tl : Timeline) : Timeline :=
  match selectedBlockId tl with
  | Some selected =>
      match getItem (dataModel tl) selected with
      | Some block =>
          if duration block >? 1 then
            let newDuration := duration block - 1 in
            render tz (set_dataModel tl
              (snd (updateItem tz (dataModel tl) (b_id block) (onlyDuration newDuration))))
          else tl
      | None => tl
      end
  | None => tl
  end.

(** [Math.max(0, Math.floor(relativeY / rowSpacing))] *)
Definition rowUnder (tl : Timeline) (relativeY : Q) : Z :=
  Z.max 0 (Qfloor (relativeY / (blockHeight tl + annotationSpace tl))%Q).

(** [mousedownPosition] *)
Record MouseDown : Type := mkMouseDown {
  md_x : Q;
  md_y : Q;
  md_clientX : Q;
  md_clientY : Q
}.

(** The day, duration and row of the block [handleMouseUp] creates, after
    its guards on the element under the pointer: a click makes a 1-day
    block, a drag a block between the snapped ends; [None] when neither
    branch is taken.  [rectLeft] is [getBoundingClientRect().left]. *)
Definition createdBySpec (tl : Timeline) (down : MouseDown) (upClientX upClientY : Q)
           (rectLeft : Q) (isDraggingBlock : bool) : option (Z * Z * Z) :=
  let deltaX := Qabs (upClientX - md_clientX down)%Q in
  let deltaY := Qabs (upClientY - md_clientY down)%Q in
  let padding : Q := 32%Q in
  let relativeY := (md_y down - padding)%Q in
  let row := rowUnder tl relativeY in
  if Qle_bool deltaX 5 && Qle_bool deltaY 5 && negb isDraggingBlock then
    let day := pixelToDay tz tl (md_x down) in
    Some (day, 1, row)
  else if isDraggingBlock then
    let upX := (upClientX - rectLeft)%Q in
    let startX := md_x down in
    let snappedLeft := snapPixelToGrid tz tl (Qmin startX upX) in
    let snappedRight := snapPixelToGridPreferRight tz tl (Qmax startX upX) in
    let minWidth := dayToPixel tz tl 1 in
    let width := Qmax minWidth (snappedRight - snappedLeft)%Q in
    let startDay := pixelToDay tz tl snappedLeft in
    let endDay := pixelToDay tz tl (snappedLeft + width)%Q in
    let duration := Z.max 1 (endDay - startDay) in
    let day := startDay in
    Some (day, duration, row)
  else None.

(** [handleMouseUp]: the block is added with an empty label and the
    timeline is rendered. *)
Definition handleMouseUp (tl : Timeline) (down : MouseDown) (upClientX upClientY : Q)
           (rectLeft : Q) (isDraggingBlock : bool) : Timeline :=
  match createdBySpec tl down upClientX upClientY rectLeft isDraggingBlock with
  | Some (day, duration, row) =>
      render tz (set_dataModel tl
        (snd (addBlock tz (dataModel tl) (RelativeDay day) duration "" row)))
  | None => tl
  end.

End Keyboard.

(* ================================================================== *)
(** ** drag-drop.js: the end of a drag *)

Inductive DropZoneType : Type := Between | Before | After.

(** The object [findDropZone] returns. *)
Record DropZone : Type := mkDropZone {
  dz_type : DropZoneType;
  dz_index : nat;
  dz_position : Z
}.

(** [getBoundingClientRect()] of the track. *)
Record Rect : Type := mkRect {
  rect_left : Q;
  rect_right : Q;
  rect_top : Q;
  rect_bottom : Q
}.

Section DragDrop.

Variable tz : Z.

(** The first loop of [findDropZone], at index [i] of [items], with the
    rest of the array from that index on. *)
Fixpoint findGap (tl : Timeline) (draggedId : string) (x : Q) (i : nat)
         (rest : list Block) : option DropZone :=
  match rest with
  | current :: ((next :: _) as tail) =>
      if String.eqb (b_id current) draggedId || String.eqb (b_id next) draggedId
      then findGap tl draggedId x (S i) tail
      else
        let currentRelativeDay :=
          getRelativeDayFromDate tz (dataModel tl) (startDate current) in
        let currentEnd := dayToPixel tz tl (currentRelativeDay + duration current) in
        let nextRelativeDay := getRelativeDayFromDate tz (dataModel tl) (startDate next) in
        let nextStart := dayToPixel tz tl nextRelativeDay in
        let gapCenter := ((currentEnd + nextStart) / 2)%Q in
        if Qltb (Qabs (x - gapCenter)%Q) 30
        then Some (mkDropZone Between (S i) (pixelToDay tz tl gapCenter))
        else findGap tl draggedId x (S i) tail
  | _ => None
  end.

Definition findDropZone (tl : Timeline) (draggedId : string) (rectLeft clientX : Q)
  : option DropZone :=
  let x := (clientX - rectLeft)%Q in
  let items := items (dataModel tl) in
  match findGap tl draggedId x 0 items with
  | Some zone => Some zone
  | None =>
      match items with
      | [] => None
      | first :: _ =>
          let firstRelativeDay :=
            getRelativeDayFromDate tz (dataModel tl) (startDate first) in
          let firstStart := dayToPixel tz tl firstRelativeDay in
          if Qltb x firstStart && Qltb (Qabs (x - firstStart)%Q) 50
          then Some (mkDropZone Before 0 (pixelToDay tz tl x))
          else
            let last := List.last items first in
            let lastRelativeDay :=
              getRelativeDayFromDate tz (dataModel tl) (startDate last) in
            let lastEnd := dayToPixel tz tl (lastRelativeDay + duration last) in
            if Qltb lastEnd x && Qltb (Qabs (x - lastEnd)%Q) 50
            then Some (mkDropZone After (List.length items) (pixelToDay tz tl x))
            else None
      end
  end.

(** [handleDrop(dropZone, component, timeline, targetRow)] *)
Definition handleDrop (tl : Timeline) (dropZone : DropZone) (draggedId : string)
           (targetRow : Z) : Timeline :=
  let dm := dataModel tl in
  match findBlockIndex draggedId (items dm) with
  | None => tl
  | Some currentIndex =>
      match nth_error (items dm) currentIndex with
      | None => tl
      | Some item =>
          let dm1 := set_items dm (removeAt currentIndex (items dm)) in
          let newPosition := dz_position dropZone in
          let absoluteDate := getDateFromRelativeDay tz dm1 newPosition in
          let item' := mkBlock (b_id item) absoluteDate (duration item) (label item)
                               targetRow (badge item) in
          let insertIndex :=
            if Nat.ltb currentIndex (dz_index dropZone)
            then Nat.pred (dz_index dropZone) else dz_index dropZone in
          let dm2 := set_items dm1 (insertAt (Z.of_nat insertIndex) item' (items dm1)) in
          render tz (set_dataModel tl (sortTimelineItems dm2))
      end
  end.

(** [handleDragEnd(e)] for a dragged block, with [e.clientX], [e.clientY],
    the rectangle of the track and [currentLeft], the [style.left] of the
    dragged element. *)
Definition handleDragEnd (tl : Timeline) (draggedId : string) (rect : Rect)
           (clientX clientY currentLeft : Q) : Timeline :=
  let isOutside :=
    Qltb clientX (rect_left rect) || Qltb (rect_right rect) clientX
    || Qltb clientY (rect_top rect) || Qltb (rect_bottom rect) clientY in
  if isOutside then
    removeComponent (set_dataModel tl (snd (removeItem (dataModel tl) draggedId))) draggedId
  else
    let snappedPixel := snapPixelToGrid tz tl currentLeft in
    let snappedDay := pixelToDay tz tl snappedPixel in
    let padding : Q := 32%Q in
    let relativeY := (clientY - rect_top rect - padding)%Q in
    let targetRow := rowUnder tl relativeY in
    match findDropZone tl draggedId (rect_left rect) clientX with
    | Some dropZone =>
        handleDrop tl (mkDropZone (dz_type dropZone) (dz_index dropZone) snappedDay)
                   draggedId targetRow
    | None =>
        let absoluteDate := getDateFromRelativeDay tz (dataModel tl) snappedDay in
        let dm1 :=
          snd (updateItem tz (dataModel tl) draggedId
                 (mkUpdates None (Some absoluteDate) None None (Some targetRow)
                            None None None None)) in
        render tz (set_dataModel tl (sortTimelineItems dm1))
    end.

End DragDrop.

(* ================================================================== *)
(** ** block.js and annotation.js: badge cycling and the end of an edit *)

(** The cycle XD -> PM -> PD -> XD of [cycleBadge], on
    [this.data.badge || 'XD']. *)
Definition nextBadge (currentBadge : string) : string :=
  if String.eqb currentBadge "XD" then "PM"%string
  else if String.eqb currentBadge "PM" then "PD"%string
  else "XD"%string.

Section Editing.

Variable tz : Z.

(** [cycleBadge()] of the component showing [data]. *)
Definition cycleBadge (dm : TimelineDataModel) (data : Block) : TimelineDataModel :=
  let currentBadge := badgeOrDefault (badge data) in
  snd (updateItem tz dm (b_id data)
         (mkUpdates None None None None None (Some (nextBadge currentBadge))
                    None None None)).

(** [finishEditing] of the annotation [id], where [newText] is the trimmed
    value of the input: empty text removes the annotation. *)
Definition finishEditingAnnotation (dm : TimelineDataModel) (id : string)
           (newText : string) : TimelineDataModel :=
  if negb (String.eqb newText EmptyString) then
    snd (updateItem tz dm id
           (mkUpdates None None None None None None None None (Some newText)))
  else snd (removeAnnotation dm id).

End Editing.

(* ================================================================== *)
(** ** Invariants of the store *)



(** Durations of at least a day and rows from 0 on. *)
Definition blockWellFormed (b : Block) : Prop := 1 <= duration b /\ 0 <= row b.

Definition blocksWellFormed (dm : TimelineDataModel) : Prop :=
  Forall blockWellFormed (items dm).
(** What every gesture and key is to keep: well-formed blocks in order of
    their start dates. *)
Definition storeInvariant (dm : TimelineDataModel) : Prop :=
  blocksWellFormed dm /\ blocksSorted (items dm).




(* ================================================================== *)
(** ** The day that [toISOString] loses *)

(** [getDateFromRelativeDay] formats a local midnight with [toISOString],
    in UTC: east of UTC that instant is still on the previous UTC day.  The
    number of days by which the date it returns is early. *)
Definition utcDayLoss (tz : Z) : Z := if 0 <? tz then 1 else 0.

(* ================================================================== *)
(** * Properties *)

(** ** Dates *)

Example ymd_2024_01_01 : JSDate.ymd 2024 1 1 = 19723.
Proof. reflexivity. Qed.

Example isoDate_19723 : JSDate.isoDate 19723 = "2024-01-01"%string.
Proof. reflexivity. Qed.

Example epoch_is_thursday : JSDate.getDay 0 0 = 4.
Proof. reflexivity. Qed.

Lemma div_msPerDay (a r : Z) :
  0 <= r < JSDate.msPerDay -> (a * JSDate.msPerDay + r) / JSDate.msPerDay = a.
Proof.
  intros Hr. symmetry. apply Z.div_unique with (r := r); [left; exact Hr | lia].
Qed.

(** West of Greenwich (and at it) local midnight falls on the same UTC day. *)
Lemma getDateFromRelativeDay_west (tz : Z) (dm : TimelineDataModel) (n : Z) :
  -720 <= tz <= 0 ->
  getDateFromRelativeDay tz dm n = timelineStart dm + n.
Proof.
  intros Htz.
  unfold getDateFromRelativeDay, getStartDate, JSDate.addDays, JSDate.toISODay,
    JSDate.parseLocalMidnight.
  replace (timelineStart dm * JSDate.msPerDay - tz * 60000 + n * JSDate.msPerDay)
    with ((timelineStart dm + n) * JSDate.msPerDay + (- tz * 60000)) by ring.
  apply div_msPerDay. unfold JSDate.msPerDay. lia.
Qed.

(** East of Greenwich local midnight is still the previous UTC day. *)
Lemma getDateFromRelativeDay_east (tz : Z) (dm : TimelineDataModel) (n : Z) :
  0 < tz <= 840 ->
  getDateFromRelativeDay tz dm n = timelineStart dm + n - 1.
Proof.
  intros Htz.
  unfold getDateFromRelativeDay, getStartDate, JSDate.addDays, JSDate.toISODay,
    JSDate.parseLocalMidnight.
  replace (timelineStart dm * JSDate.msPerDay - tz * 60000 + n * JSDate.msPerDay)
    with ((timelineStart dm + n - 1) * JSDate.msPerDay
          + (JSDate.msPerDay - tz * 60000)) by ring.
  apply div_msPerDay. unfold JSDate.msPerDay. lia.
Qed.

(** The rounding absorbs every offset of less than half a day. *)
Lemma getRelativeDayFromDate_near (tz : Z) (dm : TimelineDataModel) (d : Z) :
  -720 <= tz < 720 ->
  getRelativeDayFromDate tz dm d = d - timelineStart dm.
Proof.
  intros Htz.
  unfold getRelativeDayFromDate, getStartDate, JSDate.roundDiv, JSDate.parseDateOnly,
    JSDate.parseLocalMidnight.
  symmetry.
  apply Z.div_unique with (r := 2 * tz * 60000 + JSDate.msPerDay);
    unfold JSDate.msPerDay; lia.
Qed.

Lemma relativeDay_of_date_west (tz : Z) (dm : TimelineDataModel) (n : Z) :
  -720 <= tz <= 0 ->
  getRelativeDayFromDate tz dm (getDateFromRelativeDay tz dm n) = n.
Proof.
  intros Htz. rewrite getDateFromRelativeDay_west by exact Htz.
  rewrite getRelativeDayFromDate_near by lia. ring.
Qed.

Lemma date_of_relativeDay_west (tz : Z) (dm : TimelineDataModel) (d : Z) :
  -720 <= tz <= 0 ->
  getDateFromRelativeDay tz dm (getRelativeDayFromDate tz dm d) = d.
Proof.
  intros Htz. rewrite getDateFromRelativeDay_west by exact Htz.
  rewrite getRelativeDayFromDate_near by lia. ring.
Qed.

(** Between Greenwich and the date line the round trip loses a day. *)
Lemma relativeDay_of_date_east (tz : Z) (dm : TimelineDataModel) (n : Z) :
  0 < tz < 720 ->
  getRelativeDayFromDate tz dm (getDateFromRelativeDay tz dm n) = n - 1.
Proof.
  intros Htz. rewrite getDateFromRelativeDay_east by lia.
  rewrite getRelativeDayFromDate_near by lia. ring.
Qed.

(** On every host within twelve hours of UTC: the date of a relative day
    is early by [utcDayLoss], and so is the day that comes back. *)
Lemma getDateFromRelativeDay_loss (tz : Z) (dm : TimelineDataModel) (n : Z) :
  -720 <= tz < 720 ->
  getDateFromRelativeDay tz dm n = timelineStart dm + n - utcDayLoss tz.
Proof.
  intros Htz. unfold utcDayLoss. destruct (Z.ltb_spec 0 tz) as [E | W].
  - apply getDateFromRelativeDay_east. lia.
  - rewrite getDateFromRelativeDay_west by lia. lia.
Qed.

Lemma relativeDay_of_date_loss (tz : Z) (dm : TimelineDataModel) (n : Z) :
  -720 <= tz < 720 ->
  getRelativeDayFromDate tz dm (getDateFromRelativeDay tz dm n) = n - utcDayLoss tz.
Proof.
  intros Htz. rewrite getDateFromRelativeDay_loss by exact Htz.
  rewrite getRelativeDayFromDate_near by exact Htz. ring.
Qed.

(** ** Day widths *)

(** The weekday of day [day] does not depend on the host's offset. *)
Lemma isWeekend_weekday (tz : Z) (tl : Timeline) (day : Z) :
  isWeekend tz tl day =
  let w := (timelineStart (dataModel tl) + day + 4) mod 7 in (w =? 0) || (w =? 6).
Proof.
  unfold isWeekend, getDateForDay, getStartDate, JSDate.getDay, JSDate.addDays,
    JSDate.parseLocalMidnight.
  replace (timelineStart (dataModel tl) * JSDate.msPerDay - tz * 60000
           + day * JSDate.msPerDay + tz * 60000)
    with ((timelineStart (dataModel tl) + day) * JSDate.msPerDay + 0) by ring.
  rewrite div_msPerDay by (unfold JSDate.msPerDay; lia).
  reflexivity.
Qed.

Lemma getDayWidth_cases (tz : Z) (tl : Timeline) (day : Z) :
  getDayWidth tz tl (Some day) = 20 \/ getDayWidth tz tl (Some day) = 80.
Proof.
  unfold getDayWidth. destruct (isWeekend tz tl day); [left | right]; reflexivity.
Qed.

Lemma getDayWidth_bounds (tz : Z) (tl : Timeline) (day : Z) :
  20 <= getDayWidth tz tl (Some day) <= 80.
Proof.
  destruct (getDayWidth_cases tz tl day) as [H | H]; rewrite H; lia.
Qed.

(** The accumulator of the summing loop is a plain offset. *)
Lemma widthLoop_acc (tz : Z) (tl : Timeline) (n : nat) :
  forall day acc, widthLoop tz tl n day acc = acc + widthLoop tz tl n day 0.
Proof.
  induction n as [| n IH]; intros day acc; cbn [widthLoop].
  - lia.
  - rewrite (IH (day + 1) (acc + _)).
    rewrite (IH (day + 1) (0 + _)). lia.
Qed.

(** Peeling the last iteration instead of the first. *)
Lemma widthLoop_last (tz : Z) (tl : Timeline) (n : nat) :
  forall day acc,
    widthLoop tz tl (S n) day acc =
    widthLoop tz tl n day acc + getDayWidth tz tl (Some (day + Z.of_nat n)).
Proof.
  induction n as [| n IH]; intros day acc.
  - simpl. replace (day + 0) with day by lia. reflexivity.
  - change (widthLoop tz tl (S (S n)) day acc)
      with (widthLoop tz tl (S n) (day + 1) (acc + getDayWidth tz tl (Some day))).
    rewrite IH. simpl widthLoop.
    replace (day + 1 + Z.of_nat n) with (day + Z.of_nat (S n)) by lia.
    reflexivity.
Qed.

Lemma dayStartPixel_succ (tz : Z) (tl : Timeline) (d : Z) :
  0 <= d ->
  dayStartPixel tz tl (d + 1) = dayStartPixel tz tl d + getDayWidth tz tl (Some d).
Proof.
  intros Hd. unfold dayStartPixel.
  replace (Z.to_nat (d + 1)) with (S (Z.to_nat d)) by lia.
  rewrite widthLoop_last. f_equal. f_equal. f_equal. lia.
Qed.

Lemma dayStartPixel_mono (tz : Z) (tl : Timeline) (k : Z) (n : nat) :
  0 <= k ->
  dayStartPixel tz tl k + 20 * Z.of_nat n <= dayStartPixel tz tl (k + Z.of_nat n).
Proof.
  intros Hk. induction n as [| n IH].
  - replace (k + Z.of_nat 0) with k by lia. lia.
  - replace (k + Z.of_nat (S n)) with (k + Z.of_nat n + 1) by lia.
    rewrite dayStartPixel_succ by lia.
    pose proof (getDayWidth_bounds tz tl (k + Z.of_nat n)). lia.
Qed.

Lemma dayStartPixel_gap (tz : Z) (tl : Timeline) (k d : Z) :
  0 <= k <= d ->
  dayStartPixel tz tl k + 20 * (d - k) <= dayStartPixel tz tl d.
Proof.
  intros H. pose proof (dayStartPixel_mono tz tl k (Z.to_nat (d - k)) ltac:(lia)) as M.
  replace (k + Z.of_nat (Z.to_nat (d - k))) with d in M by lia.
  lia.
Qed.

(** ** Comparisons of pixels *)

Lemma Qltb_lt (x y : Q) : Qltb x y = true <-> (x < y)%Q.
Proof.
  unfold Qltb. rewrite negb_true_iff. split.
  - intros H. apply Qnot_le_lt. intros C. apply Qle_bool_iff in C. congruence.
  - intros H. destruct (Qle_bool y x) eqn:E; [| reflexivity].
    apply Qle_bool_iff in E. exfalso. exact (Qlt_not_le _ _ H E).
Qed.

Lemma Qltb_ge (x y : Q) : Qltb x y = false <-> (y <= x)%Q.
Proof.
  unfold Qltb. rewrite negb_false_iff. apply Qle_bool_iff.
Qed.

Lemma near_iff (u c : Q) :
  Qltb (Qabs (u - c)) tolerance = true <-> (c - tolerance < u /\ u < c + tolerance)%Q.
Proof.
  rewrite Qltb_lt, Qabs_Qlt_condition. split; intros [A B]; split; lra.
Qed.

Lemma far_iff (u c : Q) :
  Qltb (Qabs (u - c)) tolerance = false <-> (u <= c - tolerance \/ c + tolerance <= u)%Q.
Proof.
  split.
  - intros H. destruct (Qlt_le_dec (c - tolerance) u) as [A | A]; [| left; exact A].
    destruct (Qlt_le_dec u (c + tolerance)) as [B | B]; [| right; exact B].
    assert (T : Qltb (Qabs (u - c)) tolerance = true) by (apply near_iff; split; assumption).
    congruence.
  - intros H. destruct (Qltb (Qabs (u - c)) tolerance) eqn:E; [| reflexivity].
    apply near_iff in E. unfold tolerance in *. destruct H; lra.
Qed.

Lemma inject_Z_gap (a b n : Z) :
  a + n <= b -> (inject_Z a + inject_Z n <= inject_Z b)%Q.
Proof.
  intros H. rewrite <- inject_Z_plus. rewrite <- Zle_Qle. exact H.
Qed.

(** ** The walk of [pixelToDay] *)

Section Walk.

Variable tz : Z.
Variable tl : Timeline.

Let startOf := dayStartPixel tz tl.

(** A pixel within the tolerance of the start of day [d] is found from any
    earlier day [k], as long as [d] is not beyond the cap. *)
Lemma pixelWalk_boundary (u : Q) (d : Z) :
  d <= 10001 ->
  (inject_Z (startOf d) - tolerance < u /\ u < inject_Z (startOf d) + tolerance)%Q ->
  forall (fuel : nat) (k : Z),
    0 <= k < d ->
    (Z.to_nat (d - k) <= fuel)%nat ->
    pixelWalk tz tl fuel u (startOf k) k = (d, []).
Proof.
  intros Hd Hu fuel. induction fuel as [| f IH]; intros k Hk Hfuel.
  - lia.
  - cbn [pixelWalk].
    pose proof (getDayWidth_bounds tz tl k) as Hw.
    pose proof (dayStartPixel_succ tz tl k ltac:(lia)) as Hs. fold startOf in Hs.
    rewrite <- Hs.
    assert (G1 : (inject_Z (startOf k) + inject_Z (20 * (d - k)) <= inject_Z (startOf d))%Q)
      by (apply inject_Z_gap, dayStartPixel_gap; lia).
    assert (G0 : (20 <= inject_Z (20 * (d - k)))%Q)
      by (change 20%Q with (inject_Z 20); rewrite <- Zle_Qle; lia).
    unfold tolerance in *.
    replace (Qltb (Qabs (u - inject_Z (startOf k))) (1 # 1000)) with false
      by (symmetry; apply far_iff; unfold tolerance; right; lra).
    destruct (Z.eq_dec (k + 1) d) as [E | E].
    + rewrite E.
      replace (Qltb (Qabs (u - inject_Z (startOf d))) (1 # 1000)) with true
        by (symmetry; apply near_iff; unfold tolerance; lra).
      rewrite <- E. reflexivity.
    + assert (G2 : (inject_Z (startOf (k + 1)) + inject_Z (20 * (d - (k + 1)))
                    <= inject_Z (startOf d))%Q)
        by (apply inject_Z_gap, dayStartPixel_gap; lia).
      assert (G3 : (20 <= inject_Z (20 * (d - (k + 1))))%Q)
        by (change 20%Q with (inject_Z 20); rewrite <- Zle_Qle; lia).
      replace (Qltb (Qabs (u - inject_Z (startOf (k + 1)))) (1 # 1000)) with false
        by (symmetry; apply far_iff; unfold tolerance; right; lra).
      replace (Qltb u (inject_Z (startOf (k + 1)))) with false
        by (symmetry; apply Qltb_ge; lra).
      rewrite andb_false_r.
      replace (k + 1 >? 10000) with false by (symmetry; rewrite Z.gtb_ltb; apply Z.ltb_ge; lia).
      apply IH; lia.
Qed.

(** A pixel from just before the start of day [d] up to the tolerance
    before the start of day [d + 1] is found in day [d]. *)
Lemma pixelWalk_day (u : Q) (d : Z) :
  d <= 10000 ->
  (inject_Z (startOf d) - tolerance < u /\ u <= inject_Z (startOf (d + 1)) - tolerance)%Q ->
  forall (fuel : nat) (k : Z),
    0 <= k <= d ->
    (Z.to_nat (d - k) < fuel)%nat ->
    pixelWalk tz tl fuel u (startOf k) k = (d, []).
Proof.
  intros Hd Hu fuel. induction fuel as [| f IH]; intros k Hk Hfuel.
  - lia.
  - cbn [pixelWalk].
    pose proof (dayStartPixel_succ tz tl k ltac:(lia)) as Hs. fold startOf in Hs.
    rewrite <- Hs.
    assert (G1 : (inject_Z (startOf k) + inject_Z (20 * (d - k)) <= inject_Z (startOf d))%Q)
      by (apply inject_Z_gap, dayStartPixel_gap; lia).
    destruct (Z.eq_dec k d) as [E | E].
    + subst k.
      destruct (Qltb (Qabs (u - inject_Z (startOf d))) tolerance) eqn:T1; [reflexivity |].
      apply far_iff in T1.
      replace (Qltb (Qabs (u - inject_Z (startOf (d + 1)))) tolerance) with false
        by (symmetry; apply far_iff; left; lra).
      replace (Qltb (inject_Z (startOf d)) u) with true
        by (symmetry; apply Qltb_lt; unfold tolerance in *; lra).
      replace (Qltb u (inject_Z (startOf (d + 1)))) with true
        by (symmetry; apply Qltb_lt; unfold tolerance in *; lra).
      reflexivity.
    + assert (G0 : (20 <= inject_Z (20 * (d - k)))%Q)
        by (change 20%Q with (inject_Z 20); rewrite <- Zle_Qle; lia).
      assert (G2 : (inject_Z (startOf (k + 1)) + inject_Z (20 * (d - (k + 1)))
                    <= inject_Z (startOf d))%Q)
        by (apply inject_Z_gap, dayStartPixel_gap; lia).
      assert (G3 : (0 <= inject_Z (20 * (d - (k + 1))))%Q)
        by (change 0%Q with (inject_Z 0); rewrite <- Zle_Qle; lia).
      replace (Qltb (Qabs (u - inject_Z (startOf k))) tolerance) with false
        by (symmetry; apply far_iff; right; unfold tolerance in *; lra).
      destruct (Qltb (Qabs (u - inject_Z (startOf (k + 1)))) tolerance) eqn:T2.
      * apply near_iff in T2.
        destruct (Z.eq_dec (k + 1) d) as [E' | E']; [rewrite E'; reflexivity |].
        exfalso.
        assert (G4 : (20 <= inject_Z (20 * (d - (k + 1))))%Q)
          by (change 20%Q with (inject_Z 20); rewrite <- Zle_Qle; lia).
        unfold tolerance in *. lra.
      * apply far_iff in T2.
        replace (Qltb u (inject_Z (startOf (k + 1)))) with false
          by (symmetry; apply Qltb_ge; unfold tolerance in *; lra).
        rewrite andb_false_r.
        replace (k + 1 >? 10000) with false
          by (symmetry; rewrite Z.gtb_ltb; apply Z.ltb_ge; lia).
        apply IH; lia.
Qed.

(** From the iteration of day [k] on, the walk stops after at most
    [10001 - k] iterations: more fuel than that is never used. *)
Lemma pixelWalk_fuel (u : Q) :
  forall (fuel fuel' : nat) (acc k : Z),
    (Z.to_nat (10001 - k) <= fuel)%nat ->
    (Z.to_nat (10001 - k) <= fuel')%nat ->
    k <= 10000 ->
    pixelWalk tz tl fuel u acc k = pixelWalk tz tl fuel' u acc k.
Proof.
  induction fuel as [| f IH]; intros fuel' acc k Hf Hf' Hk.
  - lia.
  - destruct fuel' as [| f']; [lia |].
    cbn [pixelWalk].
    destruct (Qltb (Qabs (u - inject_Z acc)) tolerance); [reflexivity |].
    destruct (Qltb (Qabs (u - inject_Z (acc + getDayWidth tz tl (Some k)))) tolerance);
      [reflexivity |].
    destruct (Qltb (inject_Z acc) u && Qltb u (inject_Z (acc + getDayWidth tz tl (Some k))));
      [reflexivity |].
    destruct (k + 1 >? 10000) eqn:C; [reflexivity |].
    rewrite Z.gtb_ltb in C. apply Z.ltb_ge in C.
    apply IH; lia.
Qed.

End Walk.

(** ** [pixelToDay] *)

Lemma dayStartPixel_0 (tz : Z) (tl : Timeline) : dayStartPixel tz tl 0 = 0.
Proof. reflexivity. Qed.

Lemma unzoom_dayToPixel (tz : Z) (tl : Timeline) (d : Z) :
  (0 < zoom tl)%Q ->
  (dayToPixel tz tl d / zoom tl == inject_Z (dayStartPixel tz tl d))%Q.
Proof.
  intros Hz. unfold dayToPixel, dayStartPixel.
  apply Qdiv_mult_l. intros C. rewrite C in Hz. exact (Qlt_irrefl _ Hz).
Qed.

Lemma pixelToDayLog_on_boundary (tz : Z) (tl : Timeline) (d : Z) (p : Q) :
  (0 < zoom tl)%Q -> 0 <= d <= 10001 ->
  (p == dayToPixel tz tl d)%Q ->
  pixelToDayLog tz tl p = (d, []).
Proof.
  intros Hz Hd Hp. unfold pixelToDayLog.
  assert (Hu : (p / zoom tl == inject_Z (dayStartPixel tz tl d))%Q)
    by (rewrite Hp; apply unzoom_dayToPixel; exact Hz).
  rewrite <- (dayStartPixel_0 tz tl) at 1.
  destruct (Z.eq_dec d 0) as [E | E].
  - apply pixelWalk_day.
    + lia.
    + subst d. rewrite Hu.
      pose proof (inject_Z_gap _ _ 20 (dayStartPixel_gap tz tl 0 (0 + 1) ltac:(lia))) as G.
      assert (G' : (inject_Z (dayStartPixel tz tl 0) + 20
                    <= inject_Z (dayStartPixel tz tl (0 + 1)))%Q) by exact G.
      unfold tolerance. split; lra.
    + lia.
    + lia.
  - apply pixelWalk_boundary.
    + lia.
    + rewrite Hu. unfold tolerance. split; lra.
    + lia.
    + lia.
Qed.

Lemma pixelToDayLog_boundary (tz : Z) (tl : Timeline) (d : Z) :
  (0 < zoom tl)%Q -> 0 <= d <= 10001 ->
  pixelToDayLog tz tl (dayToPixel tz tl d) = (d, []).
Proof.
  intros Hz Hd. apply pixelToDayLog_on_boundary; [exact Hz | exact Hd | reflexivity].
Qed.

(** The width of one day added to the start of that day is the start of
    the next one. *)
Lemma dayToPixel_next (tz : Z) (tl : Timeline) (d : Z) :
  0 <= d ->
  (dayToPixel tz tl d + dayToPixelForDuration tz tl d 1 == dayToPixel tz tl (d + 1))%Q.
Proof.
  intros Hd. unfold dayToPixel, dayToPixelForDuration.
  fold (dayStartPixel tz tl d). fold (dayStartPixel tz tl (d + 1)).
  rewrite dayStartPixel_succ by exact Hd.
  change (Z.to_nat 1) with 1%nat. cbn [widthLoop]. rewrite Z.add_0_l.
  rewrite inject_Z_plus. ring.
Qed.


(** Whatever the pixel, the walk returns a day between the one it is at and
    10001, and it warns exactly when it gives up at the cap. *)
Lemma pixelWalk_result (tz : Z) (tl : Timeline) (u : Q) :
  forall (fuel : nat) (acc k : Z),
    0 <= k <= 10000 ->
    (Z.to_nat (10001 - k) <= fuel)%nat ->
    (k <= fst (pixelWalk tz tl fuel u acc k) <= 10001) /\
    (snd (pixelWalk tz tl fuel u acc k) = []
     \/ pixelWalk tz tl fuel u acc k = (10001, [safetyWarning])).
Proof.
  induction fuel as [| f IH]; intros acc k Hk Hf.
  - lia.
  - cbn [pixelWalk].
    destruct (Qltb (Qabs (u - inject_Z acc)) tolerance);
      [cbn [fst snd]; split; [lia | left; reflexivity] |].
    destruct (Qltb (Qabs (u - inject_Z (acc + getDayWidth tz tl (Some k)))) tolerance);
      [cbn [fst snd]; split; [lia | left; reflexivity] |].
    destruct (Qltb (inject_Z acc) u && Qltb u (inject_Z (acc + getDayWidth tz tl (Some k))));
      [cbn [fst snd]; split; [lia | left; reflexivity] |].
    destruct (k + 1 >? 10000) eqn:C.
    + rewrite Z.gtb_ltb in C. apply Z.ltb_lt in C.
      assert (E : k + 1 = 10001) by lia. rewrite E.
      cbn [fst snd]. split; [lia | right; reflexivity].
    + rewrite Z.gtb_ltb in C. apply Z.ltb_ge in C.
      destruct (IH (acc + getDayWidth tz tl (Some k)) (k + 1) ltac:(lia) ltac:(lia))
        as [B L].
      split; [lia | exact L].
Qed.

(** ** Widths of a week *)

Lemma getDayWidth_weekday (tz : Z) (tl : Timeline) (day : Z) :
  getDayWidth tz tl (Some day) = weekdayWidth (timelineStart (dataModel tl) + day + 4).
Proof.
  unfold getDayWidth, weekdayWidth. rewrite isWeekend_weekday. reflexivity.
Qed.

Lemma weekdayWidth_shift (r q i : Z) :
  weekdayWidth (7 * q + r + i) = weekdayWidth (r + i).
Proof.
  unfold weekdayWidth.
  replace (7 * q + r + i) with (r + i + q * 7) by ring.
  rewrite Z_mod_plus_full. reflexivity.
Qed.

Lemma week_of_widths (x : Z) :
  weekdayWidth x + weekdayWidth (x + 1) + weekdayWidth (x + 2) + weekdayWidth (x + 3)
  + weekdayWidth (x + 4) + weekdayWidth (x + 5) + weekdayWidth (x + 6) = 440.
Proof.
  pose proof (Z.mod_pos_bound x 7 ltac:(lia)) as Hr.
  rewrite (Z.div_mod x 7) by lia.
  replace (7 * (x / 7) + x mod 7) with (7 * (x / 7) + x mod 7 + 0) at 1 by ring.
  rewrite !weekdayWidth_shift.
  assert (C : x mod 7 = 0 \/ x mod 7 = 1 \/ x mod 7 = 2 \/ x mod 7 = 3
              \/ x mod 7 = 4 \/ x mod 7 = 5 \/ x mod 7 = 6) by lia.
  destruct C as [C | [C | [C | [C | [C | [C | C]]]]]]; rewrite C; reflexivity.
Qed.

Lemma week_widthLoop (tz : Z) (tl : Timeline) (startDay : Z) :
  widthLoop tz tl 7 startDay 0 = 440.
Proof.
  cbn [widthLoop]. rewrite !getDayWidth_weekday.
  pose proof (week_of_widths (timelineStart (dataModel tl) + startDay + 4)) as W.
  replace (timelineStart (dataModel tl) + (startDay + 1) + 4)
    with (timelineStart (dataModel tl) + startDay + 4 + 1) by ring.
  replace (timelineStart (dataModel tl) + (startDay + 1 + 1) + 4)
    with (timelineStart (dataModel tl) + startDay + 4 + 2) by ring.
  replace (timelineStart (dataModel tl) + (startDay + 1 + 1 + 1) + 4)
    with (timelineStart (dataModel tl) + startDay + 4 + 3) by ring.
  replace (timelineStart (dataModel tl) + (startDay + 1 + 1 + 1 + 1) + 4)
    with (timelineStart (dataModel tl) + startDay + 4 + 4) by ring.
  replace (timelineStart (dataModel tl) + (startDay + 1 + 1 + 1 + 1 + 1) + 4)
    with (timelineStart (dataModel tl) + startDay + 4 + 5) by ring.
  replace (timelineStart (dataModel tl) + (startDay + 1 + 1 + 1 + 1 + 1 + 1) + 4)
    with (timelineStart (dataModel tl) + startDay + 4 + 6) by ring.
  lia.
Qed.

(** ** Claims on the coordinate functions *)




(** C8 (amended).  The walk of [pixelToDay] is bounded for every pixel: it
    returns from the iteration of day 10000 at the latest, so no run needs
    more than 10001 iterations, and the day returned lies between 0 and
    10001.  When the cap is exceeded the function logs one warning and
    returns day 10001 to its caller as an ordinary result. *)
Theorem pixelToDay_walk_is_capped (tz : Z) (tl : Timeline) (pixel : Q) :
  0 <= pixelToDay tz tl pixel <= 10001 /\
  (snd (pixelToDayLog tz tl pixel) = []
   \/ pixelToDayLog tz tl pixel = (10001, [safetyWarning])) /\
  (forall fuel : nat,
     (Z.to_nat 10001 <= fuel)%nat ->
     pixelWalk tz tl fuel (pixel / zoom tl) 0 0 = pixelToDayLog tz tl pixel).
Proof.
  unfold pixelToDay, pixelToDayLog.
  assert (H0 : 0 <= 0 <= 10000) by lia.
  assert (H1 : (Z.to_nat (10001 - 0) <= Z.to_nat 10001)%nat) by (apply Nat.le_refl).
  destruct (pixelWalk_result tz tl (pixel / zoom tl) (Z.to_nat 10001) 0 0 H0 H1)
    as [B L].
  split; [exact B |]. split; [exact L |].
  intros fuel Hf. apply pixelWalk_fuel; lia.
Qed.

Lemma pixelToDay_walk_is_capped_witness :
  pixelWalk 0 mondayTimeline (Z.to_nat 20000) (450 / zoom mondayTimeline) 0 0
  = pixelToDayLog 0 mondayTimeline 450.
Proof.
  apply (proj2 (proj2 (pixelToDay_walk_is_capped 0 mondayTimeline 450))).
  lia.
Defined.

(** A pixel left of day 0 exceeds the cap; the caller gets day 10001, which
    does not contain that pixel, and nothing is thrown. *)
Lemma pixelToDay_cap_returns_a_day :
  pixelToDayLog 0 mondayTimeline (-5) = (10001, [safetyWarning]) /\
  (-5 < dayToPixel 0 mondayTimeline 10001)%Q.
Proof.
  split.
  - vm_compute. reflexivity.
  - vm_compute. reflexivity.
Qed.

(** C10 (amended).  Seven consecutive day columns always contain exactly two
    weekend columns, so [dayToPixelForDuration(startDay, 7)] is [440 * zoom]
    for every start day; it is strictly less than [7 * dayToPixel(1)] when
    the zoom is positive and day 0, the timeline's start date, is a weekday. *)
Theorem week_width_is_440 (tz : Z) (tl : Timeline) (startDay : Z) :
  (dayToPixelForDuration tz tl startDay 7 == 440 * zoom tl)%Q /\
  ((0 < zoom tl)%Q -> isWeekend tz tl 0 = false ->
   (dayToPixelForDuration tz tl startDay 7 < 7 * dayToPixel tz tl 1)%Q).
Proof.
  assert (E : (dayToPixelForDuration tz tl startDay 7 == 440 * zoom tl)%Q).
  { unfold dayToPixelForDuration.
    change (Z.to_nat 7) with 7%nat. rewrite week_widthLoop. reflexivity. }
  split; [exact E |].
  intros Hz Hday. rewrite E.
  unfold dayToPixel. change (Z.to_nat 1) with 1%nat. cbn [widthLoop].
  unfold getDayWidth. rewrite Hday.
  change (inject_Z (0 + 80)) with 80%Q. lra.
Qed.

Lemma week_width_is_440_witness :
  (dayToPixelForDuration 0 mondayTimeline 3 7 < 7 * dayToPixel 0 mondayTimeline 1)%Q.
Proof.
  apply (proj2 (week_width_is_440 0 mondayTimeline 3)); reflexivity.
Defined.

(** With a start date on a Saturday the first column is narrow, and a week
    is wider than seven times [dayToPixel(1)]. *)
Lemma week_wider_when_start_is_saturday :
  isWeekend 0 saturdayTimeline 0 = true /\
  isWeekend 0 saturdayTimeline 1 = true /\
  ~ (dayToPixelForDuration 0 saturdayTimeline 0 7
     < 7 * dayToPixel 0 saturdayTimeline 1)%Q.
Proof.
  split; [reflexivity |]. split; [reflexivity |].
  vm_compute. discriminate.
Qed.

(** ** Lists of blocks *)

Lemma findBlock_Some (id : string) (l : list Block) (b : Block) :
  findBlock id l = Some b -> In b l /\ b_id b = id.
Proof.
  induction l as [| x r IH]; cbn [findBlock]; [discriminate |].
  destruct (String.eqb (b_id x) id) eqn:E.
  - intros H. injection H as <-. apply String.eqb_eq in E. split; [left; reflexivity | exact E].
  - intros H. destruct (IH H) as [A B]. split; [right; exact A | exact B].
Qed.

Lemma findBlock_None (id : string) (l : list Block) :
  findBlock id l = None <-> ~ In id (map b_id l).
Proof.
  induction l as [| x r IH]; cbn [findBlock map In]; [tauto |].
  destruct (String.eqb (b_id x) id) eqn:E.
  - apply String.eqb_eq in E. split; [discriminate | intros H; exfalso; apply H; left; exact E].
  - apply String.eqb_neq in E. rewrite IH. tauto.
Qed.

Lemma findBlock_unique (l : list Block) (b : Block) :
  NoDup (map b_id l) -> In b l -> findBlock (b_id b) l = Some b.
Proof.
  induction l as [| x r IH]; cbn [map In findBlock]; [tauto |].
  intros Hnd Hin. inversion Hnd as [| ? ? Hx Hr]; subst.
  destruct Hin as [-> | Hin].
  - rewrite String.eqb_refl. reflexivity.
  - destruct (String.eqb (b_id x) (b_id b)) eqn:E.
    + apply String.eqb_eq in E. exfalso. apply Hx. rewrite E. apply in_map. exact Hin.
    + apply IH; assumption.
Qed.

Lemma findBlock_perm (id : string) (l l' : list Block) :
  NoDup (map b_id l) -> Permutation l l' -> findBlock id l = findBlock id l'.
Proof.
  intros Hnd Hp.
  assert (Hnd' : NoDup (map b_id l'))
    by (eapply Permutation_NoDup; [apply Permutation_map; exact Hp | exact Hnd]).
  destruct (findBlock id l) as [b |] eqn:E.
  - destruct (findBlock_Some _ _ _ E) as [Hin <-].
    symmetry. apply findBlock_unique; [exact Hnd' |].
    eapply Permutation_in; eassumption.
  - symmetry. apply findBlock_None. apply findBlock_None in E.
    intros C. apply E. eapply Permutation_in; [| exact C].
    apply Permutation_map. symmetry. exact Hp.
Qed.

Lemma findBlockIndex_None (id : string) (l : list Block) :
  findBlockIndex id l = None <-> findBlock id l = None.
Proof.
  induction l as [| x r IH]; cbn [findBlockIndex findBlock]; [tauto |].
  destruct (String.eqb (b_id x) id); [split; discriminate |].
  destruct (findBlockIndex id r); cbn [option_map].
  - split; [discriminate |]. intros H. apply IH in H. discriminate.
  - split; [intros _; apply IH; reflexivity | reflexivity].
Qed.

Lemma findBlockIndex_nth (id : string) (l : list Block) (i : nat) :
  findBlockIndex id l = Some i -> nth_error l i = findBlock id l.
Proof.
  revert i. induction l as [| x r IH]; intros i; cbn [findBlockIndex findBlock];
    [discriminate |].
  destruct (String.eqb (b_id x) id).
  - intros H. injection H as <-. reflexivity.
  - destruct (findBlockIndex id r) as [j |]; cbn [option_map]; [| discriminate].
    intros H. injection H as <-. cbn [nth_error]. apply IH. reflexivity.
Qed.

Lemma findAnnotationIndex_None (id : string) (l : list Annotation) :
  findAnnotationIndex id l = None <-> findAnnotation id l = None.
Proof.
  induction l as [| x r IH]; cbn [findAnnotationIndex findAnnotation]; [tauto |].
  destruct (String.eqb (a_id x) id); [split; discriminate |].
  destruct (findAnnotationIndex id r); cbn [option_map].
  - split; [discriminate |]. intros H. apply IH in H. discriminate.
  - split; [intros _; apply IH; reflexivity | reflexivity].
Qed.

Lemma replaceBlock_ids (id : string) (b' : Block) (l : list Block) :
  b_id b' = id -> map b_id (replaceBlock id b' l) = map b_id l.
Proof.
  intros Hid. induction l as [| x r IH]; cbn [replaceBlock map]; [reflexivity |].
  destruct (String.eqb (b_id x) id) eqn:E; cbn [map].
  - apply String.eqb_eq in E. congruence.
  - rewrite IH. reflexivity.
Qed.

Lemma findBlock_replace_same (id : string) (b b' : Block) (l : list Block) :
  findBlock id l = Some b -> b_id b' = id ->
  findBlock id (replaceBlock id b' l) = Some b'.
Proof.
  intros Hf Hid. induction l as [| x r IH]; cbn [findBlock replaceBlock] in *;
    [discriminate |].
  destruct (String.eqb (b_id x) id) eqn:E; cbn [findBlock].
  - rewrite Hid, String.eqb_refl. reflexivity.
  - rewrite E. apply IH. exact Hf.
Qed.

Lemma findBlock_replace_other (id id' : string) (b' : Block) (l : list Block) :
  id' <> id -> b_id b' = id ->
  findBlock id' (replaceBlock id b' l) = findBlock id' l.
Proof.
  intros Hne Hid. induction l as [| x r IH]; cbn [findBlock replaceBlock];
    [reflexivity |].
  destruct (String.eqb (b_id x) id) eqn:E; cbn [findBlock].
  - apply String.eqb_eq in E.
    replace (String.eqb (b_id b') id') with false
      by (symmetry; apply String.eqb_neq; congruence).
    replace (String.eqb (b_id x) id') with false
      by (symmetry; apply String.eqb_neq; congruence).
    reflexivity.
  - rewrite IH. reflexivity.
Qed.

(** ** Sorting *)

Lemma insertByDate_perm (b : Block) (l : list Block) :
  Permutation (insertByDate b l) (b :: l).
Proof.
  induction l as [| x r IH]; cbn [insertByDate]; [reflexivity |].
  destruct (startDate b <=? startDate x); [reflexivity |].
  rewrite IH. apply perm_swap.
Qed.

Lemma sortBlocks_perm (l : list Block) : Permutation (sortBlocks l) l.
Proof.
  induction l as [| x r IH]; cbn [sortBlocks]; [reflexivity |].
  rewrite insertByDate_perm. apply perm_skip. exact IH.
Qed.

Lemma insertByDate_sorted (b : Block) (l : list Block) :
  blocksSorted l -> blocksSorted (insertByDate b l).
Proof.
  unfold blocksSorted. induction l as [| x r IH]; intros Hs; cbn [insertByDate].
  - constructor; constructor.
  - inversion Hs as [| ? ? Hr Hx]; subst.
    destruct (startDate b <=? startDate x) eqn:E.
    + apply Z.leb_le in E. constructor; [exact Hs |].
      constructor; [exact E |].
      rewrite Forall_forall in *. intros y Hy. specialize (Hx y Hy).
      unfold byStartDate in *. lia.
    + apply Z.leb_gt in E. constructor; [apply IH; exact Hr |].
      rewrite Forall_forall in *. intros y Hy.
      apply (Permutation_in _ (insertByDate_perm b r)) in Hy.
      destruct Hy as [<- | Hy]; [unfold byStartDate; lia | apply Hx; exact Hy].
Qed.

Lemma sortBlocks_sorted (l : list Block) : blocksSorted (sortBlocks l).
Proof.
  induction l as [| x r IH]; cbn [sortBlocks].
  - constructor.
  - apply insertByDate_sorted. exact IH.
Qed.

Lemma removeAt_In {A : Type} (i : nat) (l : list A) (x : A) :
  In x (removeAt i l) -> In x l.
Proof.
  revert i. induction l as [| y r IH]; intros i; cbn [removeAt]; [tauto |].
  destruct i as [| j]; cbn [In]; [tauto |].
  intros [H | H]; [left; exact H | right; eapply IH; exact H].
Qed.

Lemma removeAt_sorted (i : nat) (l : list Block) :
  blocksSorted l -> blocksSorted (removeAt i l).
Proof.
  unfold blocksSorted. revert i. induction l as [| x r IH]; intros i Hs; cbn [removeAt].
  - constructor.
  - inversion Hs as [| ? ? Hr Hx]; subst.
    destruct i as [| j]; [exact Hr |].
    constructor; [apply IH; exact Hr |].
    rewrite Forall_forall in *. intros y Hy. apply Hx. eapply removeAt_In. exact Hy.
Qed.

(** ** [updateItem] on a block *)

Section UpdateBlock.

Variable tz : Z.
Variable dm : TimelineDataModel.
Variable id : string.
Variable u : Updates.
Variable b : Block.
Hypothesis Hfound : findBlock id (items dm) = Some b.

Let b' := assignBlock b (blockUpdates tz dm u).
Let dm' := snd (updateItem tz dm id u).

Lemma updateItem_block_result : fst (updateItem tz dm id u) = Some (inl b').
Proof. unfold updateItem. rewrite Hfound. reflexivity. Qed.

Lemma updateItem_block_items :
  items dm' = sortBlocks (replaceBlock id b' (items dm)).
Proof.
  unfold dm', updateItem. rewrite Hfound. cbn [snd].
  destruct (u_badge (blockUpdates tz dm u)); reflexivity.
Qed.

Lemma updateItem_block_frame :
  annotations dm' = annotations dm /\ timelineStart dm' = timelineStart dm /\
  offTimeline dm' = offTimeline dm /\ nextId dm' = nextId dm /\
  changes dm' = S (changes dm).
Proof.
  unfold dm', updateItem. rewrite Hfound. cbn [snd].
  destruct (u_badge (blockUpdates tz dm u)); repeat split; reflexivity.
Qed.

Lemma assignBlock_id : b_id b' = id.
Proof. unfold b'. cbn [assignBlock b_id]. apply (findBlock_Some _ _ _ Hfound). Qed.

Lemma updateItem_block_ids :
  Permutation (map b_id (items dm')) (map b_id (items dm)).
Proof.
  rewrite updateItem_block_items.
  rewrite <- (replaceBlock_ids id b' (items dm) assignBlock_id).
  apply Permutation_map, sortBlocks_perm.
Qed.

Lemma updateItem_block_NoDup :
  NoDup (map b_id (items dm)) -> NoDup (map b_id (items dm')).
Proof.
  intros H. eapply Permutation_NoDup; [symmetry; apply updateItem_block_ids | exact H].
Qed.

Lemma updateItem_block_lookup (id' : string) :
  NoDup (map b_id (items dm)) ->
  findBlock id' (items dm') =
  if String.eqb id' id then Some b' else findBlock id' (items dm).
Proof.
  intros Hnd. rewrite updateItem_block_items.
  rewrite <- (findBlock_perm id' (replaceBlock id b' (items dm)))
    by (first [ rewrite (replaceBlock_ids id b' (items dm) assignBlock_id); exact Hnd
              | symmetry; apply sortBlocks_perm ]).
  destruct (String.eqb id' id) eqn:E.
  - apply String.eqb_eq in E. subst id'.
    apply findBlock_replace_same with (b := b); [exact Hfound | exact assignBlock_id].
  - apply String.eqb_neq in E.
    apply findBlock_replace_other; [exact E | exact assignBlock_id].
Qed.

End UpdateBlock.

(** ** Claims on the store *)

Lemma findAnnotationAt_None (d r : Z) (l : list Annotation) :
  findAnnotationAt d r l = None <->
  (forall a, In a l -> ~ (date a = d /\ a_row a = r)).
Proof.
  induction l as [| x rest IH]; cbn [findAnnotationAt In].
  - split; [intros _ a [] | reflexivity].
  - destruct ((date x =? d) && (a_row x =? r)) eqn:E.
    + apply andb_true_iff in E. destruct E as [E1 E2].
      apply Z.eqb_eq in E1. apply Z.eqb_eq in E2.
      split; [discriminate |]. intros H. exfalso. apply (H x); [left; reflexivity | tauto].
    + rewrite IH. split.
      * intros H a [<- | Ha]; [| apply H; exact Ha].
        intros [A B]. apply andb_false_iff in E.
        destruct E as [E | E]; apply Z.eqb_neq in E; contradiction.
      * intros H a Ha. apply H. right. exact Ha.
Qed.

(** C1 (amended).  [addAnnotation] has no occupancy test: every call appends
    one annotation with the requested date, row and text to the collection
    and notifies once, whether or not the (date, row) pair is taken.  What
    keeps a pair from being used twice is the hover handler: it shows the
    create affordance exactly when no annotation of the store has the date
    and row of the hovered intersection. *)
Theorem addAnnotation_appends (tz : Z) (dm : TimelineDataModel)
        (dayOrDate : DayOrDate) (r : Z) (t : string) :
  let a := fst (addAnnotation tz dm dayOrDate r t) in
  let dm' := snd (addAnnotation tz dm dayOrDate r t) in
  annotations dm' = annotations dm ++ [a] /\
  date a = match dayOrDate with
           | RelativeDay n => getDateFromRelativeDay tz dm n
           | AbsoluteDate d => d
           end /\
  a_row a = r /\ text a = t /\
  items dm' = items dm /\
  changes dm' = S (changes dm) /\
  (forall (tl : Timeline) (x y : Q),
     annotationHoverShows tz tl x y = true <->
     (forall e, In e (annotations (dataModel tl)) ->
                ~ (date e = getDateFromRelativeDay tz (dataModel tl)
                              (fst (calculateGridlineIntersection tz tl x y))
                   /\ a_row e = snd (calculateGridlineIntersection tz tl x y)))).
Proof.
  cbv zeta. unfold addAnnotation. cbn.
  repeat (split; [reflexivity |]).
  intros tl x y. unfold annotationHoverShows.
  destruct (calculateGridlineIntersection tz tl x y) as [day row0]. cbn [fst snd].
  unfold getAnnotation. rewrite <- findAnnotationAt_None.
  destruct (findAnnotationAt _ _ _); split; congruence.
Qed.

Lemma addAnnotation_appends_witness :
  annotationHoverShows 0 mondayTimeline 250 40 = true.
Proof.
  apply (proj2 (proj2 (proj2 (proj2 (proj2 (proj2
    (addAnnotation_appends 0 (newModel 0) (RelativeDay 0) 0 "")))))) mondayTimeline 250%Q 40%Q).
  intros e [].
Defined.

(** Two calls at the same day and row leave two milestones on that pair. *)
Lemma addAnnotation_twice_same_pair :
  let dm1 := snd (addAnnotation 0 (newModel (JSDate.ymd 2024 1 1)) (RelativeDay 3) 0 "") in
  let dm2 := snd (addAnnotation 0 dm1 (RelativeDay 3) 0 "") in
  getAnnotation 0 dm1 (RelativeDay 3) 0 <> None /\
  annotations dm2 <> annotations dm1 /\
  map (fun a => (JSDate.isoDate (date a), a_row a)) (annotations dm2)
  = [("2024-01-04"%string, 0); ("2024-01-04"%string, 0)].
Proof.
  cbv zeta. split; [| split].
  - vm_compute. discriminate.
  - vm_compute. discriminate.
  - vm_compute. reflexivity.
Qed.

Lemma insertAt_perm {A : Type} (start : Z) (x : A) (l : list A) :
  Permutation (insertAt start x l) (x :: l).
Proof.
  unfold insertAt. generalize (spliceStart (List.length l) start). intros i.
  symmetry. etransitivity; [| apply Permutation_middle].
  apply perm_skip. rewrite firstn_skipn. reflexivity.
Qed.

Lemma removeAt_perm {A : Type} (i : nat) (l : list A) (x : A) :
  nth_error l i = Some x -> Permutation (x :: removeAt i l) l.
Proof.
  revert i. induction l as [| y r IH]; intros i; destruct i as [| j];
    cbn [nth_error removeAt]; try discriminate.
  - intros H. injection H as <-. reflexivity.
  - intros H. rewrite perm_swap. apply perm_skip. apply IH. exact H.
Qed.

Lemma nth_error_insertAt {A : Type} (j : nat) (x : A) (l : list A) :
  (j <= List.length l)%nat ->
  nth_error (firstn j l ++ x :: skipn j l) j = Some x /\
  removeAt j (firstn j l ++ x :: skipn j l) = l.
Proof.
  revert j. induction l as [| y r IH]; intros j Hj.
  - cbn [List.length] in Hj. replace j with 0%nat by lia. split; reflexivity.
  - destruct j as [| j'].
    + split; reflexivity.
    + cbn [List.length] in Hj. cbn [firstn skipn app nth_error removeAt].
      destruct (IH j' ltac:(lia)) as [H1 H2]. rewrite H1, H2. split; reflexivity.
Qed.

(** C2 (amended).  [addBlock] and [updateItem] on a block keep the other
    blocks, leave the blocks in order of their start dates and notify once.
    [addAnnotation] and [updateItem] on an annotation leave the blocks as
    they are and notify once.  [removeItem] of a block of the store removes
    that block alone, notifies once and keeps sorted blocks sorted.  A call
    with an id the store does not have changes nothing and does not notify.
    [reorderItems] only rearranges the blocks, without sorting and without
    notifying: it takes the dragged block out and puts it at the target
    index, the other blocks keeping their order; a target past the end
    means the end and a negative target counts from the end. *)
Theorem mutations_sort_and_notify (tz : Z) (dm : TimelineDataModel) :
  (forall d n l r,
     let dm' := snd (addBlock tz dm d n l r) in
     blocksSorted (items dm') /\
     Permutation (items dm') (fst (addBlock tz dm d n l r) :: items dm) /\
     changes dm' = S (changes dm)) /\
  (forall id u b,
     findBlock id (items dm) = Some b ->
     let dm' := snd (updateItem tz dm id u) in
     blocksSorted (items dm') /\
     Permutation (items dm')
                 (replaceBlock id (assignBlock b (blockUpdates tz dm u)) (items dm)) /\
     changes dm' = S (changes dm)) /\
  (forall id u a,
     findBlock id (items dm) = None ->
     findAnnotation id (annotations dm) = Some a ->
     let dm' := snd (updateItem tz dm id u) in
     items dm' = items dm /\ changes dm' = S (changes dm)) /\
  (forall d r t,
     let dm' := snd (addAnnotation tz dm d r t) in
     items dm' = items dm /\ changes dm' = S (changes dm)) /\
  (forall id b,
     findBlock id (items dm) = Some b ->
     let dm' := snd (removeItem dm id) in
     Permutation (b :: items dm') (items dm) /\
     (blocksSorted (items dm) -> blocksSorted (items dm')) /\
     changes dm' = S (changes dm)) /\
  (forall id,
     findBlock id (items dm) = None ->
     snd (removeItem dm id) = dm /\
     (forall target, reorderItems dm id target = dm) /\
     (forall u, findAnnotation id (annotations dm) = None ->
                snd (updateItem tz dm id u) = dm)) /\
  (forall id target,
     Permutation (items (reorderItems dm id target)) (items dm) /\
     changes (reorderItems dm id target) = changes dm) /\
  (forall id target b,
     findBlock id (items dm) = Some b ->
     let dm' := reorderItems dm id target in
     exists i,
       findBlockIndex id (items dm) = Some i /\
       let others := removeAt i (items dm) in
       let n := Z.of_nat (List.length others) in
       (0 <= target <= n ->
        nth_error (items dm') (Z.to_nat target) = Some b /\
        removeAt (Z.to_nat target) (items dm') = others) /\
       (n <= target -> items dm' = others ++ [b]) /\
       (- n <= target < 0 ->
        nth_error (items dm') (Z.to_nat (n + target)) = Some b /\
        removeAt (Z.to_nat (n + target)) (items dm') = others) /\
       (target < - n -> items dm' = b :: others)).
Proof.
  split; [| split; [| split; [| split; [| split; [| split; [| split]]]]]].
  - intros d n l r. cbv zeta. split; [| split].
    + unfold addBlock. cbn. apply sortBlocks_sorted.
    + unfold addBlock.
      cbn [fst snd generateId notifyChange sortTimelineItems set_items items].
      rewrite sortBlocks_perm. symmetry. apply Permutation_cons_append.
    + reflexivity.
  - intros id u b Hb. cbv zeta. split; [| split].
    + rewrite (updateItem_block_items tz dm id u b Hb). apply sortBlocks_sorted.
    + rewrite (updateItem_block_items tz dm id u b Hb). apply sortBlocks_perm.
    + apply (updateItem_block_frame tz dm id u b Hb).
  - intros id u a Hb Ha. cbv zeta. unfold updateItem. rewrite Hb, Ha.
    split; reflexivity.
  - intros d r t. cbv zeta. split; reflexivity.
  - intros id b Hb. cbv zeta. unfold removeItem.
    destruct (findBlockIndex id (items dm)) as [i |] eqn:E.
    + pose proof (findBlockIndex_nth _ _ _ E) as N. rewrite Hb in N.
      cbn. split; [apply removeAt_perm; exact N |].
      split; [intros Hs; apply removeAt_sorted; exact Hs | reflexivity].
    + apply findBlockIndex_None in E. congruence.
  - intros id Hb. split; [| split].
    + unfold removeItem. apply findBlockIndex_None in Hb. rewrite Hb. reflexivity.
    + intros target. unfold reorderItems. apply findBlockIndex_None in Hb.
      rewrite Hb. reflexivity.
    + intros u Ha. unfold updateItem. rewrite Hb, Ha. reflexivity.
  - intros id target. unfold reorderItems.
    destruct (findBlockIndex id (items dm)) as [i |] eqn:E; [| split; reflexivity].
    destruct (nth_error (items dm) i) as [x |] eqn:N; [| split; reflexivity].
    cbn [set_items items changes]. split; [| reflexivity].
    rewrite insertAt_perm. apply removeAt_perm. exact N.
  - intros id target b Hb. cbv zeta. unfold reorderItems.
    destruct (findBlockIndex id (items dm)) as [i |] eqn:E.
    2:{ apply findBlockIndex_None in E. congruence. }
    exists i. split; [reflexivity |].
    pose proof (findBlockIndex_nth _ _ _ E) as N. rewrite Hb in N. rewrite N.
    cbn [set_items items]. unfold insertAt, spliceStart.
    set (others := removeAt i (items dm)).
    split; [| split; [| split]].
    + intros Ht. destruct (Z.ltb_spec target 0) as [C | C]; [lia |].
      rewrite Nat.min_l by lia. apply nth_error_insertAt. lia.
    + intros Ht. destruct (Z.ltb_spec target 0) as [C | C]; [lia |].
      rewrite Nat.min_r by lia. rewrite firstn_all, skipn_all. reflexivity.
    + intros Ht. destruct (Z.ltb_spec target 0) as [C | C]; [| lia].
      rewrite Z.max_l by lia. apply nth_error_insertAt. lia.
    + intros Ht. destruct (Z.ltb_spec target 0) as [C | C]; [| lia].
      rewrite Z.max_r by lia. reflexivity.
Qed.

Lemma mutations_sort_and_notify_witness :
  blocksSorted (items (snd (updateItem 0 (scenarioModel 0) "1"
                  (mkUpdates None (Some 20000) None None None None None None None)))) /\
  changes (snd (removeItem (scenarioModel 0) "2")) = S (changes (scenarioModel 0)) /\
  map b_id (items (reorderItems (scenarioModel 0) "1" 1)) = ["2"%string; "1"%string].
Proof.
  split; [| split].
  - apply (proj1 (proj2 (mutations_sort_and_notify 0 (scenarioModel 0)))
             "1"%string _ (mkBlock "1" 19723 5 "Design" 0 "XD")).
    reflexivity.
  - apply (proj1 (proj2 (proj2 (proj2 (proj2 (mutations_sort_and_notify 0 (scenarioModel 0))))))
             "2"%string (mkBlock "2" 19728 3 "Build" 0 "XD")).
    reflexivity.
  - destruct (proj2 (proj2 (proj2 (proj2 (proj2 (proj2 (proj2
                (mutations_sort_and_notify 0 (scenarioModel 0))))))))
                "1"%string 1 (mkBlock "1" 19723 5 "Design" 0 "XD") eq_refl)
      as [i [Hi [_ [H _]]]].
    vm_compute in Hi. injection Hi as <-.
    rewrite H; [reflexivity | vm_compute; discriminate].
Defined.

(** [reorderItems] on the sorted store of Scenario A puts the earlier block
    behind the later one and notifies nobody. *)
Lemma reorderItems_unsorted_silent :
  let dm := scenarioModel 0 in
  let dm' := reorderItems dm "1" 1 in
  blocksSorted (items dm) /\ ~ blocksSorted (items dm') /\ changes dm' = changes dm.
Proof.
  cbv zeta. split; [| split].
  - change (items (scenarioModel 0))
      with [mkBlock "1" 19723 5 "Design" 0 "XD"; mkBlock "2" 19728 3 "Build" 0 "XD"].
    repeat constructor. unfold byStartDate. cbn. lia.
  - change (items (reorderItems (scenarioModel 0) "1" 1))
      with [mkBlock "2" 19728 3 "Build" 0 "XD"; mkBlock "1" 19723 5 "Design" 0 "XD"].
    intros H. inversion H as [| ? ? _ Hx]; subst.
    inversion Hx as [| ? ? Hle _]; subst. unfold byStartDate in Hle. cbn in Hle. lia.
  - vm_compute. reflexivity.
Qed.

(** ** [moveSelectedItem] *)

Lemma findAnnotation_Some (id : string) (l : list Annotation) (a : Annotation) :
  findAnnotation id l = Some a -> a_id a = id.
Proof.
  induction l as [| x r IH]; cbn [findAnnotation]; [discriminate |].
  destruct (String.eqb (a_id x) id) eqn:E; [| exact IH].
  intros H. injection H as <-. apply String.eqb_eq. exact E.
Qed.

Lemma findAnnotation_replace_same (id : string) (a a' : Annotation) (l : list Annotation) :
  findAnnotation id l = Some a -> a_id a' = id ->
  findAnnotation id (replaceAnnotation id a' l) = Some a'.
Proof.
  intros Hf Hid. induction l as [| x r IH]; cbn [findAnnotation replaceAnnotation] in *;
    [discriminate |].
  destruct (String.eqb (a_id x) id) eqn:E; cbn [findAnnotation].
  - rewrite Hid, String.eqb_refl. reflexivity.
  - rewrite E. apply IH. exact Hf.
Qed.

Lemma getItem_items (dm : TimelineDataModel) (id : string) (b : Block) :
  findBlock id (items dm) = Some b -> getItem dm id = Some b.
Proof. intros H. unfold getItem. rewrite H. reflexivity. Qed.

(** C9 (amended).  [removeItem], [updateItem] and [removeAnnotation] with an
    id the store does not have return null and leave the store as it is.
    The clamp to 0 belongs to [moveSelectedItem] alone: on every host,
    moving the selected block, or else the selected annotation, by any
    number of days and rows commits row [max(0, row + deltaRow)] and the
    date of relative day [max(0, day + deltaDays)].  On a host within
    twelve hours of UTC that date is read back as that day less
    [utcDayLoss tz]: at and west of UTC the day is never negative, east of
    UTC it is one day earlier.  The
    store itself does not clamp: [updateItem] stores the row and the date
    it is given and the date of the relative day it is given, and
    [addBlock] stores the row, the duration and the date of the relative
    day it is given, whatever their sign. *)
Theorem unknown_id_noop_and_move_clamps (tz : Z) (dm : TimelineDataModel) (id : string) :
  (findBlock id (items dm) = None -> removeItem dm id = (None, dm)) /\
  (findBlock id (items dm) = None -> findAnnotation id (annotations dm) = None ->
   forall u, updateItem tz dm id u = (None, dm)) /\
  (findAnnotation id (annotations dm) = None -> removeAnnotation dm id = (None, dm)) /\
  (forall (tl : Timeline) (deltaDays deltaRow : Z) (b : Block),
     dataModel tl = dm ->
     selectedBlockId tl = Some id ->
     findBlock id (items dm) = Some b ->
     NoDup (map b_id (items dm)) ->
     exists b',
       findBlock id (items (dataModel (moveSelectedItem tz tl deltaDays deltaRow))) = Some b' /\
       row b' = Z.max 0 (row b + deltaRow) /\
       startDate b'
       = getDateFromRelativeDay tz dm
           (Z.max 0 (getRelativeDayFromDate tz dm (startDate b) + deltaDays)) /\
       0 <= row b' /\
       (-720 <= tz < 720 ->
        getRelativeDayFromDate tz dm (startDate b')
        = Z.max 0 (getRelativeDayFromDate tz dm (startDate b) + deltaDays) - utcDayLoss tz) /\
       (-720 <= tz <= 0 -> 0 <= getRelativeDayFromDate tz dm (startDate b'))) /\
  (forall (tl : Timeline) (deltaDays deltaRow : Z) (a : Annotation),
     dataModel tl = dm ->
     selectedBlockId tl = None ->
     selectedAnnotationId tl = Some id ->
     findAnnotation id (annotations dm) = Some a ->
     findBlock id (items dm) = None ->
     exists a',
       findAnnotation id (annotations (dataModel (moveSelectedItem tz tl deltaDays deltaRow)))
       = Some a' /\
       a_row a' = Z.max 0 (a_row a + deltaRow) /\
       date a'
       = getDateFromRelativeDay tz dm
           (Z.max 0 (getRelativeDayFromDate tz dm (date a) + deltaDays)) /\
       0 <= a_row a' /\
       (-720 <= tz < 720 ->
        getRelativeDayFromDate tz dm (date a')
        = Z.max 0 (getRelativeDayFromDate tz dm (date a) + deltaDays) - utcDayLoss tz) /\
       (-720 <= tz <= 0 -> 0 <= getRelativeDayFromDate tz dm (date a'))) /\
  (forall (u : Updates) (b : Block),
     findBlock id (items dm) = Some b ->
     NoDup (map b_id (items dm)) ->
     exists b',
       findBlock id (items (snd (updateItem tz dm id u))) = Some b' /\
       (forall r, u_row u = Some r -> row b' = r) /\
       (forall d, u_startDate u = Some d -> startDate b' = d) /\
       (forall n, u_startDay u = Some n -> u_startDate u = None ->
          startDate b' = getDateFromRelativeDay tz dm n /\
          (-720 <= tz < 720 ->
           getRelativeDayFromDate tz dm (startDate b') = n - utcDayLoss tz))) /\
  (forall (n d : Z) (l : string) (r : Z),
     let b := fst (addBlock tz dm (RelativeDay n) d l r) in
     let dm' := snd (addBlock tz dm (RelativeDay n) d l r) in
     In b (items dm') /\ row b = r /\ duration b = d /\
     startDate b = getDateFromRelativeDay tz dm n /\
     (-720 <= tz < 720 ->
      getRelativeDayFromDate tz dm' (startDate b) = n - utcDayLoss tz)).
Proof.
  split; [| split; [| split; [| split; [| split; [| split]]]]].
  - intros H. unfold removeItem. apply findBlockIndex_None in H. rewrite H. reflexivity.
  - intros H Ha u. unfold updateItem. rewrite H, Ha. reflexivity.
  - intros H. unfold removeAnnotation. apply findAnnotationIndex_None in H.
    rewrite H. reflexivity.
  - intros tl deltaDays deltaRow b Hdm Hsel Hb Hnd.
    unfold moveSelectedItem. rewrite Hsel, Hdm, (getItem_items dm id b Hb).
    cbn [set_dataModel dataModel].
    assert (Hid : b_id b = id) by apply (findBlock_Some _ _ _ Hb).
    rewrite Hid.
    rewrite (updateItem_block_lookup tz dm id _ b Hb id Hnd), String.eqb_refl.
    eexists. split; [reflexivity |].
    cbn [assignBlock blockUpdates u_startDay u_startDate u_row orElse row startDate].
    split; [reflexivity |]. split; [reflexivity |]. split; [lia |].
    split.
    + intros Htz. apply relativeDay_of_date_loss. exact Htz.
    + intros W. rewrite relativeDay_of_date_loss by lia. unfold utcDayLoss.
      replace (0 <? tz) with false by (symmetry; apply Z.ltb_ge; lia). lia.
  - intros tl deltaDays deltaRow a Hdm Hblock Hsel Ha Hb.
    unfold moveSelectedItem. rewrite Hblock, Hsel, Hdm, Ha.
    cbn [set_dataModel dataModel].
    rewrite (findAnnotation_Some _ _ _ Ha).
    unfold updateItem. rewrite Hb, Ha. cbn [snd notifyChange set_annotations annotations].
    eexists. split.
    + apply findAnnotation_replace_same with (a := a); [exact Ha |].
      cbn [assignAnnotation a_id]. apply (findAnnotation_Some _ _ _ Ha).
    + cbn [assignAnnotation annotationUpdates u_day u_date u_row orElse a_row date].
      split; [reflexivity |]. split; [reflexivity |]. split; [lia |].
      split.
      * intros Htz. apply relativeDay_of_date_loss. exact Htz.
      * intros W. rewrite relativeDay_of_date_loss by lia. unfold utcDayLoss.
        replace (0 <? tz) with false by (symmetry; apply Z.ltb_ge; lia). lia.
  - intros u b Hb Hnd.
    rewrite (updateItem_block_lookup tz dm id u b Hb id Hnd), String.eqb_refl.
    eexists. split; [reflexivity |].
    unfold assignBlock, blockUpdates.
    destruct (u_startDay u) as [n0 |] eqn:E1, (u_startDate u) as [d0 |] eqn:E2;
      cbn [row startDate u_row u_startDate orElse].
    all: rewrite ?E2.
    all: cbn [orElse].
    all: split; [intros r Hr; rewrite Hr; reflexivity |].
    all: split; [intros d Hd; first [discriminate Hd | injection Hd as <-; reflexivity] |].
    all: intros n Hn Hd; try discriminate.
    injection Hn as <-. split; [reflexivity |].
    intros Htz. apply relativeDay_of_date_loss. exact Htz.
  - intros n d l r. cbv zeta.
    split; [| split; [reflexivity | split; [reflexivity | split; [reflexivity |]]]].
    + unfold addBlock.
      cbn [fst snd generateId notifyChange sortTimelineItems set_items items].
      eapply Permutation_in; [symmetry; apply sortBlocks_perm |].
      apply in_or_app. right. left. reflexivity.
    + intros Htz.
      etransitivity; [| apply (relativeDay_of_date_loss tz dm n Htz)].
      unfold getRelativeDayFromDate, getStartDate. reflexivity.
Qed.

(** The keyboard move at the left end and at the top, on a host at UTC and
    on a host at UTC+1, and an unknown id. *)
Lemma unknown_id_noop_and_move_clamps_witness :
  removeItem (scenarioModel 0) "7" = (None, scenarioModel 0) /\
  (exists b',
     findBlock "1" (items (dataModel (moveSelectedItem 0
        (mkTimeline (scenarioModel 0) 1 80 80 40 [] (Some "1"%string) None) (-3) (-2))))
     = Some b' /\ row b' = 0 /\ startDate b' = JSDate.ymd 2024 1 1) /\
  (exists b',
     findBlock "1" (items (dataModel (moveSelectedItem 60
        (mkTimeline (scenarioModel 0) 1 80 80 40 [] (Some "1"%string) None) (-3) (-2))))
     = Some b' /\ row b' = 0 /\
     getRelativeDayFromDate 60 (scenarioModel 0) (startDate b') = -1).
Proof.
  split; [| split].
  - apply (proj1 (unknown_id_noop_and_move_clamps 0 (scenarioModel 0) "7")). reflexivity.
  - destruct (proj1 (proj2 (proj2 (proj2
                (unknown_id_noop_and_move_clamps 0 (scenarioModel 0) "1"))))
                (mkTimeline (scenarioModel 0) 1 80 80 40 [] (Some "1"%string) None)
                (-3) (-2) (mkBlock "1" 19723 5 "Design" 0 "XD"))
      as [b' [Hb' [Hrow [Hdate _]]]].
    + reflexivity.
    + reflexivity.
    + reflexivity.
    + repeat constructor; cbn; intuition discriminate.
    + exists b'. split; [exact Hb' |]. split; [cbn [row] in Hrow; lia |].
      rewrite Hdate. vm_compute. reflexivity.
  - destruct (proj1 (proj2 (proj2 (proj2
                (unknown_id_noop_and_move_clamps 60 (scenarioModel 0) "1"))))
                (mkTimeline (scenarioModel 0) 1 80 80 40 [] (Some "1"%string) None)
                (-3) (-2) (mkBlock "1" 19723 5 "Design" 0 "XD"))
      as [b' [Hb' [Hrow [_ [_ [Hday _]]]]]].
    + reflexivity.
    + reflexivity.
    + reflexivity.
    + repeat constructor; cbn; intuition discriminate.
    + exists b'. split; [exact Hb' |]. split; [cbn [row] in Hrow; lia |].
      rewrite Hday by lia. vm_compute. reflexivity.
Defined.

(** [updateItem] stores a negative row and a negative day as they are. *)
Lemma updateItem_stores_negative_row_and_day :
  exists b',
    findBlock "1" (items (snd (updateItem 0 (scenarioModel 0) "1"
       (mkUpdates (Some (-2)) None None None (Some (-1)) None None None None))))
    = Some b' /\
    row b' = -1 /\
    getRelativeDayFromDate 0 (scenarioModel 0) (startDate b') = -2.
Proof.
  eexists. split; [vm_compute; reflexivity |]. split; vm_compute; reflexivity.
Qed.

(** ** Committing a resize *)

Lemma assign_onlyStartDate (tz : Z) (dm : TimelineDataModel) (b : Block) (d : Z) :
  assignBlock b (blockUpdates tz dm (onlyStartDate d))
  = mkBlock (b_id b) d (duration b) (label b) (row b) (badge b).
Proof. reflexivity. Qed.

Lemma assign_onlyDuration (tz : Z) (dm : TimelineDataModel) (b : Block) (n : Z) :
  assignBlock b (blockUpdates tz dm (onlyDuration n))
  = mkBlock (b_id b) (startDate b) n (label b) (row b) (badge b).
Proof. reflexivity. Qed.

(** An update that names no block leaves the blocks and the start date. *)
Lemma updateItem_no_block (tz : Z) (dm : TimelineDataModel) (id : string) (u : Updates) :
  findBlock id (items dm) = None ->
  items (snd (updateItem tz dm id u)) = items dm /\
  timelineStart (snd (updateItem tz dm id u)) = timelineStart dm.
Proof.
  intros H. unfold updateItem. rewrite H.
  destruct (findAnnotation id (annotations dm)); split; reflexivity.
Qed.

Lemma getDateFromRelativeDay_start (tz : Z) (dm dm' : TimelineDataModel) (n : Z) :
  timelineStart dm' = timelineStart dm ->
  getDateFromRelativeDay tz dm' n = getDateFromRelativeDay tz dm n.
Proof.
  intros H. unfold getDateFromRelativeDay, getStartDate. rewrite H. reflexivity.
Qed.

Lemma getRelativeDayFromDate_start (tz : Z) (dm dm' : TimelineDataModel) (d : Z) :
  timelineStart dm' = timelineStart dm ->
  getRelativeDayFromDate tz dm' d = getRelativeDayFromDate tz dm d.
Proof.
  intros H. unfold getRelativeDayFromDate, getStartDate. rewrite H. reflexivity.
Qed.

(** What one committed entry does to the lookup of any id. *)
Lemma commitPush_lookup (tz : Z) (deltaDays : Z) (dm : TimelineDataModel) (p : PushEntry) :
  NoDup (map b_id (items dm)) ->
  let dm' := commitPush tz deltaDays dm p in
  NoDup (map b_id (items dm')) /\
  timelineStart dm' = timelineStart dm /\
  forall id',
    findBlock id' (items dm') =
    if String.eqb id' (pushId p)
    then option_map
           (fun b => mkBlock (b_id b)
                             (getDateFromRelativeDay tz dm (p_initialRelativeDay p + deltaDays))
                             (duration b) (label b) (row b) (badge b))
           (findBlock id' (items dm))
    else findBlock id' (items dm).
Proof.
  intros Hnd. cbv zeta. unfold commitPush. fold (pushId p).
  destruct (findBlock (pushId p) (items dm)) as [b |] eqn:E.
  - split; [apply updateItem_block_NoDup with (b := b); assumption |].
    split; [apply (updateItem_block_frame tz dm _ _ b E) |].
    intros id'. rewrite (updateItem_block_lookup tz dm _ _ b E id' Hnd).
    destruct (String.eqb id' (pushId p)) eqn:Q; [| reflexivity].
    apply String.eqb_eq in Q. subst id'. rewrite E. reflexivity.
  - destruct (updateItem_no_block tz dm (pushId p)
                (onlyStartDate (getDateFromRelativeDay tz dm (p_initialRelativeDay p + deltaDays)))
                E) as [Hi Hs].
    rewrite Hi. split; [exact Hnd |]. split; [exact Hs |].
    intros id'. destruct (String.eqb id' (pushId p)) eqn:Q; [| reflexivity].
    apply String.eqb_eq in Q. subst id'. rewrite E. reflexivity.
Qed.

(** What the whole loop does, when no id is committed twice. *)
Lemma commitPushes_lookup (tz : Z) (deltaDays : Z) (ps : list PushEntry) :
  forall dm : TimelineDataModel,
    NoDup (map b_id (items dm)) ->
    NoDup (map pushId ps) ->
    let dm' := fold_left (commitPush tz deltaDays) ps dm in
    timelineStart dm' = timelineStart dm /\
    forall id',
      findBlock id' (items dm') =
      match findPush id' ps with
      | Some p =>
          option_map
            (fun b => mkBlock (b_id b)
                              (getDateFromRelativeDay tz dm (p_initialRelativeDay p + deltaDays))
                              (duration b) (label b) (row b) (badge b))
            (findBlock id' (items dm))
      | None => findBlock id' (items dm)
      end.
Proof.
  induction ps as [| p r IH]; intros dm Hnd Hps; cbv zeta.
  - cbn [fold_left findPush]. split; reflexivity.
  - cbn [fold_left findPush]. cbn [map] in Hps.
    inversion Hps as [| ? ? Hp Hr]; subst.
    destruct (commitPush_lookup tz deltaDays dm p Hnd) as [Hnd1 [Hs1 Hl1]].
    destruct (IH (commitPush tz deltaDays dm p) Hnd1 Hr) as [Hs2 Hl2].
    split; [congruence |].
    intros id'. rewrite Hl2, Hl1.
    destruct (String.eqb (pushId p) id') eqn:Q.
    + apply String.eqb_eq in Q. subst id'. rewrite String.eqb_refl.
      replace (findPush (pushId p) r) with (@None PushEntry); [reflexivity |].
      symmetry. clear - Hp. induction r as [| q r IH]; [reflexivity |].
      cbn [findPush]. cbn [map In] in Hp.
      destruct (String.eqb (pushId q) (pushId p)) eqn:Q.
      * apply String.eqb_eq in Q. tauto.
      * apply IH. tauto.
    + replace (String.eqb id' (pushId p)) with false
        by (symmetry; rewrite String.eqb_sym; exact Q).
      destruct (findPush id' r); [| reflexivity].
      destruct (findBlock id' (items dm)); cbn [option_map]; [| reflexivity].
      rewrite (getDateFromRelativeDay_start tz dm _ _ Hs1). reflexivity.
Qed.

(** ** The set fixed at the start of the gesture *)

Lemma getComponent_id (id : string) (l : list Component) (c : Component) :
  getComponent id l = Some c -> b_id (c_data c) = id.
Proof.
  induction l as [| x r IH]; cbn [getComponent]; [discriminate |].
  destruct (String.eqb (b_id (c_data x)) id) eqn:E; [| exact IH].
  intros H. injection H as <-. apply String.eqb_eq. exact E.
Qed.

Section PushSet.

Variable tz : Z.
Variable tl : Timeline.
Variable resizedId : string.
Variable resizedRow resizedRightEdge : Z.

Let entryOf := pushEntryOf tz tl resizedId resizedRow resizedRightEdge.
Let dayOf (item : Block) := getRelativeDayFromDate tz (dataModel tl) (startDate item).

Lemma pushEntryOf_cases (item : Block) :
  (entryOf item = [] /\
   (isPushed tz tl resizedId resizedRow resizedRightEdge item = false
    \/ getComponent (b_id item) (tl_items tl) = None))
  \/
  (exists p, entryOf item = [p] /\ pushId p = b_id item /\
             p_initialRelativeDay p = dayOf item /\
             isPushed tz tl resizedId resizedRow resizedRightEdge item = true).
Proof.
  unfold entryOf, pushEntryOf, isPushed, dayOf.
  destruct (negb (String.eqb (b_id item) resizedId) && (row item =? resizedRow));
    [| left; split; [reflexivity | left; reflexivity]].
  rewrite Z.geb_leb. cbn [andb].
  destruct (resizedRightEdge <=? getRelativeDayFromDate tz (dataModel tl) (startDate item));
    [| left; split; [reflexivity | left; reflexivity]].
  destruct (getComponent (b_id item) (tl_items tl)) as [c |] eqn:C;
    [| left; split; [reflexivity | right; reflexivity]].
  right. eexists. split; [reflexivity |].
  split; [exact (getComponent_id _ _ _ C) |]. split; reflexivity.
Qed.

Lemma findPush_app (id : string) (a b : list PushEntry) :
  findPush id (a ++ b) =
  match findPush id a with Some p => Some p | None => findPush id b end.
Proof.
  induction a as [| x r IH]; cbn [app findPush]; [reflexivity |].
  destruct (String.eqb (pushId x) id); [reflexivity | exact IH].
Qed.

Lemma pushIds_are_block_ids (l : list Block) (q : PushEntry) :
  In q (flat_map entryOf l) -> In (pushId q) (map b_id l).
Proof.
  induction l as [| x r IH]; cbn [flat_map map In]; [tauto |].
  intros H. apply in_app_or in H. destruct H as [H | H]; [| right; apply IH; exact H].
  left. destruct (pushEntryOf_cases x) as [[E _] | [p [E [Hid _]]]]; rewrite E in H.
  - destruct H.
  - destruct H as [<- | []]. symmetry. exact Hid.
Qed.

Lemma findPush_absent (id : string) (l : list Block) :
  ~ In id (map b_id l) -> findPush id (flat_map entryOf l) = None.
Proof.
  intros H. destruct (findPush id (flat_map entryOf l)) as [q |] eqn:E; [| reflexivity].
  exfalso. apply H.
  assert (In q (flat_map entryOf l) /\ pushId q = id) as [Hin <-].
  { clear H. induction (flat_map entryOf l) as [| x r IH]; cbn [findPush] in E;
      [discriminate |].
    destruct (String.eqb (pushId x) id) eqn:Q.
    - injection E as <-. apply String.eqb_eq in Q. split; [left; reflexivity | exact Q].
    - destruct (IH E) as [A B]. split; [right; exact A | exact B]. }
  apply pushIds_are_block_ids. exact Hin.
Qed.

Lemma pushIds_NoDup (l : list Block) :
  NoDup (map b_id l) -> NoDup (map pushId (flat_map entryOf l)).
Proof.
  induction l as [| x r IH]; cbn [flat_map map]; [constructor |].
  intros Hnd. inversion Hnd as [| ? ? Hx Hr]; subst.
  destruct (pushEntryOf_cases x) as [[E _] | [p [E [Hid _]]]]; rewrite E; cbn [app map].
  - apply IH. exact Hr.
  - constructor; [| apply IH; exact Hr].
    rewrite Hid. intros C. apply in_map_iff in C. destruct C as [q [Hq Hin]].
    apply Hx. rewrite <- Hq. apply pushIds_are_block_ids. exact Hin.
Qed.

(** The entry that commits a block of the store is the one its own test
    produced. *)
Lemma findPush_block (l : list Block) (X : Block) :
  NoDup (map b_id l) -> In X l ->
  findPush (b_id X) (flat_map entryOf l) = hd_error (entryOf X).
Proof.
  induction l as [| x r IH]; cbn [flat_map map In]; [tauto |].
  intros Hnd Hin. inversion Hnd as [| ? ? Hx Hr]; subst.
  rewrite findPush_app.
  destruct Hin as [-> | Hin].
  - destruct (pushEntryOf_cases X) as [[E _] | [p [E [Hid _]]]]; rewrite E.
    + cbn [findPush hd_error]. apply findPush_absent. exact Hx.
    + cbn [findPush hd_error]. rewrite Hid, String.eqb_refl. reflexivity.
  - assert (Hne : b_id x <> b_id X).
    { intros C. apply Hx. rewrite C. apply in_map. exact Hin. }
    destruct (pushEntryOf_cases x) as [[E _] | [p [E [Hid _]]]]; rewrite E.
    + cbn [findPush]. apply IH; assumption.
    + cbn [findPush]. rewrite Hid.
      replace (String.eqb (b_id x) (b_id X)) with false
        by (symmetry; apply String.eqb_neq; exact Hne).
      apply IH; assumption.
Qed.

End PushSet.

(** ** Claims on the resize gesture *)

Section ResizeGesture.

Variable tz : Z.
Variable tl : Timeline.
Variable component : Component.
Variable startX clientX : Q.

Let dm := dataModel tl.
Let B := c_data component.
Let rs := startResize tz startX component tl.
Let tl' := handleResizeEnd tz (Some rs) tl clientX.
Let dayOf (d : Z) := getRelativeDayFromDate tz dm d.
Let oldEdge := dayOf (startDate B) + duration B.
Let delta := snappedDuration tz rs tl clientX - duration B.

Hypothesis Hids : NoDup (map b_id (items dm)).
Hypothesis HB : In B (items dm).

Let dm1 := snd (updateItem tz dm (b_id B) (onlyDuration (snappedDuration tz rs tl clientX))).

Lemma resize_first_update :
  NoDup (map b_id (items dm1)) /\
  timelineStart dm1 = timelineStart dm /\
  forall id',
    findBlock id' (items dm1) =
    if String.eqb id' (b_id B)
    then Some (mkBlock (b_id B) (startDate B) (snappedDuration tz rs tl clientX)
                       (label B) (row B) (badge B))
    else findBlock id' (items dm).
Proof.
  pose proof (findBlock_unique _ _ Hids HB) as HfB.
  split; [apply updateItem_block_NoDup with (b := B); assumption |].
  split; [apply (updateItem_block_frame tz dm _ _ B HfB) |].
  intros id'. unfold dm1.
  rewrite (updateItem_block_lookup tz dm _ _ B HfB id' Hids). reflexivity.
Qed.

Lemma resize_lookup (id' : string) :
  findBlock id' (items (dataModel tl')) =
  match findPush id' (rs_blocksToPush rs) with
  | Some p =>
      option_map
        (fun b => mkBlock (b_id b)
                          (getDateFromRelativeDay tz dm (p_initialRelativeDay p + delta))
                          (duration b) (label b) (row b) (badge b))
        (findBlock id' (items dm1))
  | None => findBlock id' (items dm1)
  end.
Proof.
  destruct resize_first_update as [Hnd1 [Hs1 _]].
  unfold tl', handleResizeEnd. cbn [set_dataModel dataModel].
  fold dm. change (b_id (c_data (rs_component rs))) with (b_id B).
  change (rs_initialDuration rs) with (duration B). fold dm1. fold delta.
  destruct (commitPushes_lookup tz delta (rs_blocksToPush rs) dm1 Hnd1) as [_ Hl].
  - apply pushIds_NoDup. exact Hids.
  - rewrite Hl. destruct (findPush id' (rs_blocksToPush rs)); [| reflexivity].
    rewrite (getDateFromRelativeDay_start tz dm dm1 _ Hs1). reflexivity.
Qed.

Lemma resize_resized_block :
  findBlock (b_id B) (items (dataModel tl'))
  = Some (mkBlock (b_id B) (startDate B) (snappedDuration tz rs tl clientX)
                  (label B) (row B) (badge B)).
Proof.
  destruct resize_first_update as [_ [_ Hl1]].
  rewrite resize_lookup.
  change (rs_blocksToPush rs)
    with (flat_map (pushEntryOf tz tl (b_id B) (row B) oldEdge) (items dm)).
  rewrite (findPush_block tz tl _ _ _ (items dm) B Hids HB).
  destruct (pushEntryOf_cases tz tl (b_id B) (row B) oldEdge B)
    as [[E _] | [p [_ [_ [_ C]]]]].
  - rewrite E. cbn [hd_error]. rewrite Hl1, String.eqb_refl. reflexivity.
  - unfold isPushed in C. rewrite String.eqb_refl in C. discriminate.
Qed.

Lemma resize_other_block (X : Block) :
  In X (items dm) -> b_id X <> b_id B ->
  getComponent (b_id X) (tl_items tl) <> None ->
  (row X = row B /\ oldEdge <= dayOf (startDate X) ->
   findBlock (b_id X) (items (dataModel tl'))
   = Some (mkBlock (b_id X)
                   (getDateFromRelativeDay tz dm (dayOf (startDate X) + delta))
                   (duration X) (label X) (row X) (badge X))) /\
  (~ (row X = row B /\ oldEdge <= dayOf (startDate X)) ->
   findBlock (b_id X) (items (dataModel tl')) = Some X).
Proof.
  intros HX Hne Hc.
  destruct resize_first_update as [_ [_ Hl1]].
  assert (L1 : findBlock (b_id X) (items dm1) = Some X).
  { rewrite Hl1.
    replace (String.eqb (b_id X) (b_id B)) with false
      by (symmetry; apply String.eqb_neq; exact Hne).
    apply findBlock_unique; assumption. }
  rewrite resize_lookup.
  change (rs_blocksToPush rs)
    with (flat_map (pushEntryOf tz tl (b_id B) (row B) oldEdge) (items dm)).
  rewrite (findPush_block tz tl _ _ _ (items dm) X Hids HX).
  assert (T : isPushed tz tl (b_id B) (row B) oldEdge X = true
              <-> row X = row B /\ oldEdge <= dayOf (startDate X)).
  { unfold isPushed.
    replace (String.eqb (b_id X) (b_id B)) with false
      by (symmetry; apply String.eqb_neq; exact Hne).
    cbn [negb andb]. rewrite andb_true_iff, Z.eqb_eq, Z.leb_le. reflexivity. }
  destruct (pushEntryOf_cases tz tl (b_id B) (row B) oldEdge X)
    as [[E [C | C]] | [p [E [_ [Hday C]]]]]; rewrite E; cbn [hd_error].
  - split; [| intros _; exact L1].
    intros H. apply T in H. congruence.
  - contradiction.
  - split; [| intros H; exfalso; apply H; apply T; exact C].
    intros _. rewrite L1. cbn [option_map]. rewrite Hday. reflexivity.
Qed.

End ResizeGesture.

Lemma commitPushes_durations (tz : Z) (deltaDays : Z) (ps : list PushEntry) :
  forall dm : TimelineDataModel,
    NoDup (map b_id (items dm)) ->
    forall id',
      option_map duration (findBlock id' (items (fold_left (commitPush tz deltaDays) ps dm)))
      = option_map duration (findBlock id' (items dm)).
Proof.
  induction ps as [| p r IH]; intros dm Hnd id'; cbn [fold_left]; [reflexivity |].
  destruct (commitPush_lookup tz deltaDays dm p Hnd) as [Hnd1 [_ Hl1]].
  rewrite (IH _ Hnd1), Hl1.
  destruct (String.eqb id' (pushId p)); [| reflexivity].
  destruct (findBlock id' (items dm)); reflexivity.
Qed.

Lemma Qmax_floor (floor x : Q) : (x < floor)%Q -> Qmax floor x = floor.
Proof.
  intros H. unfold Qmax. destruct (Qle_bool floor x) eqn:E; [| reflexivity].
  apply Qle_bool_iff in E. exfalso. exact (Qlt_not_le _ _ H E).
Qed.

(** C3.  In a store with unique ids whose blocks are all rendered: when the
    gesture that started on block [B] ends, [B] has the snapped duration and
    its old start date; every other block of the row of [B] whose start day
    was at or after the old right edge of [B] keeps its duration, row, label
    and badge and is stored at the date of its old start day plus [delta],
    where [delta] is the change of the duration of [B]; every remaining
    block is untouched.  On a host within twelve hours of UTC the stored
    date and the start day of a pushed block thereby move by
    [delta - utcDayLoss tz] days: by [delta] at and west of UTC, and by one
    day less east of UTC. *)
Theorem resize_pushes_blocks_at_or_after_old_edge
        (tz : Z) (tl : Timeline) (component : Component) (startX clientX : Q) :
  NoDup (map b_id (items (dataModel tl))) ->
  In (c_data component) (items (dataModel tl)) ->
  (forall X, In X (items (dataModel tl)) -> getComponent (b_id X) (tl_items tl) <> None) ->
  let dm := dataModel tl in
  let B := c_data component in
  let rs := startResize tz startX component tl in
  let dm' := dataModel (handleResizeEnd tz (Some rs) tl clientX) in
  let dayOf := fun X => getRelativeDayFromDate tz dm (startDate X) in
  let oldEdge := dayOf B + duration B in
  let delta := snappedDuration tz rs tl clientX - duration B in
  findBlock (b_id B) (items dm')
  = Some (mkBlock (b_id B) (startDate B) (duration B + delta) (label B) (row B) (badge B)) /\
  forall X,
    In X (items dm) -> b_id X <> b_id B ->
    (row X = row B /\ oldEdge <= dayOf X ->
     exists X',
       findBlock (b_id X) (items dm') = Some X' /\
       startDate X' = getDateFromRelativeDay tz dm (dayOf X + delta) /\
       (-720 <= tz < 720 ->
        startDate X' = startDate X + delta - utcDayLoss tz /\
        getRelativeDayFromDate tz dm' (startDate X') = dayOf X + delta - utcDayLoss tz) /\
       duration X' = duration X /\ row X' = row X /\
       label X' = label X /\ badge X' = badge X) /\
    (~ (row X = row B /\ oldEdge <= dayOf X) ->
     findBlock (b_id X) (items dm') = Some X).
Proof.
  intros Hids HB Hrendered. cbv zeta. split.
  - rewrite (resize_resized_block tz tl component startX clientX Hids HB).
    f_equal. f_equal. lia.
  - intros X HX Hne.
    destruct (resize_other_block tz tl component startX clientX Hids HB X HX Hne
                (Hrendered X HX)) as [Hpush Hrest].
    split; [| exact Hrest].
    intros Hcond. eexists. split; [apply Hpush; exact Hcond |].
    cbn [startDate duration row label badge].
    assert (Hs : timelineStart (dataModel
                   (handleResizeEnd tz (Some (startResize tz startX component tl)) tl clientX))
                 = timelineStart (dataModel tl)).
    { destruct (resize_first_update tz tl component startX clientX Hids HB)
        as [Hnd1 [Hs1 _]].
      unfold handleResizeEnd. cbn [set_dataModel dataModel].
      destruct (commitPushes_lookup tz
                  (snappedDuration tz (startResize tz startX component tl) tl clientX
                   - rs_initialDuration (startResize tz startX component tl))
                  (rs_blocksToPush (startResize tz startX component tl)) _ Hnd1)
        as [Hs2 _].
      - apply pushIds_NoDup. exact Hids.
      - exact (eq_trans Hs2 Hs1). }
    split; [reflexivity |]. split; [| repeat split].
    intros Htz. split.
    + rewrite getDateFromRelativeDay_loss by exact Htz.
      rewrite (getRelativeDayFromDate_near tz (dataModel tl)) by exact Htz. lia.
    + rewrite getRelativeDayFromDate_near by exact Htz.
      rewrite getDateFromRelativeDay_loss by exact Htz.
      rewrite (getRelativeDayFromDate_near tz (dataModel tl)) by exact Htz.
      rewrite Hs. lia.
Qed.

(** Scenario A: start date 2024-01-01, [addBlock(0, 5)] and [addBlock(5, 3)]
    in row 0, then a drag of the handle of the first block that makes it 8
    days long.  On a host at UTC the second block moves from 2024-01-06 to
    2024-01-09, still 3 days long.  On a host at UTC+1 the same calls store
    the second block at 2024-01-05 and the resize moves it to 2024-01-07:
    two days for a change of three. *)
Lemma resize_pushes_blocks_at_or_after_old_edge_witness :
  (let tl := scenarioTimeline 0 in
   let first := mkComponent (mkBlock "1" 19723 5 "Design" 0 "XD") 0 400 in
   let second := mkBlock "2" 19728 3 "Build" 0 "XD" in
   let dm' := dataModel (handleResizeEnd 0 (Some (startResize 0 400 first tl)) tl 520) in
   In second (items (dataModel tl)) /\
   JSDate.isoDate (startDate second) = "2024-01-06"%string /\
   option_map duration (findBlock "1" (items dm')) = Some 8 /\
   exists X',
     findBlock "2" (items dm') = Some X' /\
     JSDate.isoDate (startDate X') = "2024-01-09"%string /\ duration X' = 3) /\
  (let tl := scenarioTimeline 60 in
   let first := mkComponent (mkBlock "1" 19722 5 "Design" 0 "XD") 0 340 in
   let second := mkBlock "2" 19727 3 "Build" 0 "XD" in
   let dm' := dataModel (handleResizeEnd 60 (Some (startResize 60 340 first tl)) tl 460) in
   In second (items (dataModel tl)) /\
   JSDate.isoDate (startDate second) = "2024-01-05"%string /\
   option_map duration (findBlock "1" (items dm')) = Some 8 /\
   exists X',
     findBlock "2" (items dm') = Some X' /\
     JSDate.isoDate (startDate X') = "2024-01-07"%string /\ duration X' = 3).
Proof.
  split; cbv zeta.
  - assert (Htz : -720 <= 0 < 720) by lia.
    assert (Hids : NoDup (map b_id (items (dataModel (scenarioTimeline 0))))).
    { change (map b_id (items (dataModel (scenarioTimeline 0))))
        with ["1"%string; "2"%string].
      repeat constructor; cbn; intuition discriminate. }
    assert (HB : In (c_data (mkComponent (mkBlock "1" 19723 5 "Design" 0 "XD") 0 400))
                    (items (dataModel (scenarioTimeline 0)))) by (left; reflexivity).
    assert (Hr : forall X, In X (items (dataModel (scenarioTimeline 0))) ->
                           getComponent (b_id X) (tl_items (scenarioTimeline 0)) <> None).
    { intros X [<- | [<- | []]]; vm_compute; discriminate. }
    destruct (resize_pushes_blocks_at_or_after_old_edge 0 (scenarioTimeline 0)
                (mkComponent (mkBlock "1" 19723 5 "Design" 0 "XD") 0 400) 400 520
                Hids HB Hr) as [H1 H2].
    split; [right; left; reflexivity |].
    split; [reflexivity |].
    split.
    + etransitivity; [exact (f_equal (option_map duration) H1) |].
      vm_compute. reflexivity.
    + destruct (H2 (mkBlock "2" 19728 3 "Build" 0 "XD")) as [Hpush _].
      * right. left. reflexivity.
      * discriminate.
      * destruct Hpush as [X' [Hf [_ [Hdate [Hdur _]]]]].
        -- split; [reflexivity | vm_compute; discriminate].
        -- exists X'. split; [exact Hf |]. split; [| exact Hdur].
           rewrite (proj1 (Hdate Htz)). vm_compute. reflexivity.
  - assert (Htz : -720 <= 60 < 720) by lia.
    assert (Hids : NoDup (map b_id (items (dataModel (scenarioTimeline 60))))).
    { change (map b_id (items (dataModel (scenarioTimeline 60))))
        with ["1"%string; "2"%string].
      repeat constructor; cbn; intuition discriminate. }
    assert (HB : In (c_data (mkComponent (mkBlock "1" 19722 5 "Design" 0 "XD") 0 340))
                    (items (dataModel (scenarioTimeline 60)))) by (left; reflexivity).
    assert (Hr : forall X, In X (items (dataModel (scenarioTimeline 60))) ->
                           getComponent (b_id X) (tl_items (scenarioTimeline 60)) <> None).
    { intros X [<- | [<- | []]]; vm_compute; discriminate. }
    destruct (resize_pushes_blocks_at_or_after_old_edge 60 (scenarioTimeline 60)
                (mkComponent (mkBlock "1" 19722 5 "Design" 0 "XD") 0 340) 340 460
                Hids HB Hr) as [H1 H2].
    split; [right; left; reflexivity |].
    split; [reflexivity |].
    split.
    + etransitivity; [exact (f_equal (option_map duration) H1) |].
      vm_compute. reflexivity.
    + destruct (H2 (mkBlock "2" 19727 3 "Build" 0 "XD")) as [Hpush _].
      * right. left. reflexivity.
      * discriminate.
      * destruct Hpush as [X' [Hf [_ [Hdate [Hdur _]]]]].
        -- split; [reflexivity | vm_compute; discriminate].
        -- exists X'. split; [exact Hf |]. split; [| exact Hdur].
           rewrite (proj1 (Hdate Htz)). vm_compute. reflexivity.
Defined.

(** C7.  Whatever the pointer position at the end of the gesture, the
    snapped duration is at least 1 and it is the duration the resized block
    has in the store afterwards.  Pointer positions that would make the block
    narrower than the one-day width all end the gesture in the same store:
    the excess does not reach the duration nor the shift of the pushed
    blocks, and for a block drawn at its start day that duration is 1. *)
Theorem resize_duration_floor
        (tz : Z) (tl : Timeline) (rs : ResizeState) (clientX : Q) :
  let floorWidth := dayToPixelForDuration tz tl (rs_initialRelativeDay rs) 1 in
  let beyond := fun x : Q => (rs_initialWidth rs + (x - rs_startX rs) < floorWidth)%Q in
  let id := b_id (c_data (rs_component rs)) in
  1 <= snappedDuration tz rs tl clientX /\
  (forall b,
     NoDup (map b_id (items (dataModel tl))) ->
     findBlock id (items (dataModel tl)) = Some b ->
     option_map duration
       (findBlock id (items (dataModel (handleResizeEnd tz (Some rs) tl clientX))))
     = Some (snappedDuration tz rs tl clientX)) /\
  (forall clientX' : Q,
     beyond clientX -> beyond clientX' ->
     snappedDuration tz rs tl clientX' = snappedDuration tz rs tl clientX /\
     handleResizeEnd tz (Some rs) tl clientX' = handleResizeEnd tz (Some rs) tl clientX) /\
  (beyond clientX ->
   (0 < zoom tl)%Q -> 0 <= rs_initialRelativeDay rs <= 10000 ->
   (rs_initialLeft rs == dayToPixel tz tl (rs_initialRelativeDay rs))%Q ->
   snappedDuration tz rs tl clientX = 1).
Proof.
  cbv zeta.
  assert (Hfloor : forall x : Q,
             (rs_initialWidth rs + (x - rs_startX rs)
              < dayToPixelForDuration tz tl (rs_initialRelativeDay rs) 1)%Q ->
             snappedDuration tz rs tl x
             = Z.max 1 (pixelToDay tz tl
                          (rs_initialLeft rs
                           + dayToPixelForDuration tz tl (rs_initialRelativeDay rs) 1)
                        - rs_initialRelativeDay rs)).
  { intros x Hx. unfold snappedDuration. rewrite (Qmax_floor _ _ Hx). reflexivity. }
  split; [unfold snappedDuration; lia |].
  split; [| split].
  - intros b Hnd Hb. unfold handleResizeEnd. cbn [set_dataModel dataModel].
    rewrite commitPushes_durations
      by (apply updateItem_block_NoDup with (b := b); assumption).
    rewrite (updateItem_block_lookup tz (dataModel tl) _ _ b Hb _ Hnd), String.eqb_refl.
    reflexivity.
  - intros clientX' H H'.
    assert (E : snappedDuration tz rs tl clientX' = snappedDuration tz rs tl clientX)
      by (rewrite (Hfloor _ H), (Hfloor _ H'); reflexivity).
    split; [exact E |].
    unfold handleResizeEnd. rewrite E. reflexivity.
  - intros H Hz Hday Hleft. rewrite (Hfloor _ H).
    unfold pixelToDay.
    rewrite (pixelToDayLog_on_boundary tz tl (rs_initialRelativeDay rs + 1)).
    + cbn [fst]. lia.
    + exact Hz.
    + lia.
    + rewrite Hleft. apply dayToPixel_next. lia.
Qed.

Lemma resize_duration_floor_witness :
  let tl := scenarioTimeline 0 in
  let first := mkComponent (mkBlock "1" 19723 5 "Design" 0 "XD") 0 400 in
  let rs := startResize 0 400 first tl in
  snappedDuration 0 rs tl (-100000) = 1 /\
  handleResizeEnd 0 (Some rs) tl (-7) = handleResizeEnd 0 (Some rs) tl (-100000) /\
  option_map duration
    (findBlock "1" (items (dataModel (handleResizeEnd 0 (Some rs) tl (-100000))))) = Some 1.
Proof.
  cbv zeta.
  pose proof (resize_duration_floor 0 (scenarioTimeline 0)
                (startResize 0 400 (mkComponent (mkBlock "1" 19723 5 "Design" 0 "XD") 0 400)
                             (scenarioTimeline 0))
                (-100000)%Q) as H.
  cbv zeta in H. destruct H as [_ [Hdur [Hsame Hone]]].
  assert (E : snappedDuration 0
                (startResize 0 400 (mkComponent (mkBlock "1" 19723 5 "Design" 0 "XD") 0 400)
                             (scenarioTimeline 0))
                (scenarioTimeline 0) (-100000) = 1).
  { apply Hone.
    - vm_compute. reflexivity.
    - reflexivity.
    - vm_compute. split; discriminate.
    - vm_compute. reflexivity. }
  split; [exact E |]. split.
  - apply Hsame; vm_compute; reflexivity.
  - rewrite <- E.
    apply (Hdur (mkBlock "1" 19723 5 "Design" 0 "XD")).
    + change (map b_id (items (dataModel (scenarioTimeline 0))))
        with ["1"%string; "2"%string].
      repeat constructor; cbn; intuition discriminate.
    + reflexivity.
Defined.

(** ** Claims on dates and on loading *)

(** C6.  The two conversions are meant to be inverse to each other, and on
    a host at or west of UTC they are ([relativeDay_of_date_west],
    [date_of_relativeDay_west]).  On a host east of UTC, up to UTC+12, they
    are not: [getDateFromRelativeDay] formats the local midnight with
    [toISOString], which is still the previous day in UTC, so each round
    trip loses one day. *)
Theorem relative_day_round_trip_east_of_utc
        (tz : Z) (dm : TimelineDataModel) (n d : Z) :
  0 < tz < 720 ->
  getDateFromRelativeDay tz dm 0 = timelineStart dm - 1 /\
  getRelativeDayFromDate tz dm (getDateFromRelativeDay tz dm n) = n - 1 /\
  getDateFromRelativeDay tz dm (getRelativeDayFromDate tz dm d) = d - 1.
Proof.
  intros Htz. split; [| split].
  - rewrite getDateFromRelativeDay_east by lia. ring.
  - apply relativeDay_of_date_east. exact Htz.
  - rewrite getDateFromRelativeDay_east by lia.
    rewrite getRelativeDayFromDate_near by lia. ring.
Qed.

(** At UTC+01:00 with start date 2024-01-01, day 0 becomes 2023-12-31 and
    comes back as day -1, and the stored date 2024-01-06 comes back as
    2024-01-05. *)
Lemma relative_day_round_trip_east_of_utc_witness :
  let dm := newModel (JSDate.ymd 2024 1 1) in
  JSDate.isoDate (getDateFromRelativeDay 60 dm 0) = "2023-12-31"%string /\
  getRelativeDayFromDate 60 dm (getDateFromRelativeDay 60 dm 0) = -1 /\
  JSDate.isoDate
    (getDateFromRelativeDay 60 dm (getRelativeDayFromDate 60 dm (JSDate.ymd 2024 1 6)))
  = "2024-01-05"%string.
Proof.
  cbv zeta.
  assert (Htz : 0 < 60 < 720) by lia.
  destruct (relative_day_round_trip_east_of_utc 60 (newModel (JSDate.ymd 2024 1 1))
              0 (JSDate.ymd 2024 1 6) Htz) as [H0 [H1 H2]].
  rewrite H1, H2, H0. repeat split.
Defined.

(** Text that [JSON.parse] rejects leaves the model as it was. *)
Lemma fromJSON_unparseable
      (tz : Z) (parse : string -> option JSValue) (newDate : JSValue -> option Z)
      (setDatePlusValue : Z -> JSValue -> option Z) (parseInt : JSValue -> option Z)
      (todayISO : string) (st : RawModel) (s : string) :
  parse s = None ->
  fromJSON tz parse newDate setDatePlusValue parseInt todayISO st (JString s) = (false, st).
Proof.
  intros H. unfold fromJSON. rewrite H. reflexivity.
Qed.

(** C4.  A document that parses but has no [timeline] makes [fromJSON]
    return [false] after [this.data] has been replaced by it: whatever the
    model held before is gone. *)
Theorem fromJSON_failure_replaces_data
        (tz : Z) (parse : string -> option JSValue) (newDate : JSValue -> option Z)
        (setDatePlusValue : Z -> JSValue -> option Z) (parseInt : JSValue -> option Z)
        (todayISO : string) (st : RawModel) (s : string) :
  parse s = Some (JObject []) ->
  fromJSON tz parse newDate setDatePlusValue parseInt todayISO st (JString s)
  = (false, mkRaw (JObject []) (raw_nextId st)).
Proof.
  intros H. unfold fromJSON. rewrite H. reflexivity.
Qed.

Lemma fromJSON_failure_replaces_data_witness :
  fromJSON 0 parseEmptyObject (fun _ => None) (fun _ _ => None) (fun _ => None)
           "2024-01-01" freshRawModel (JString "{}")
  = (false, mkRaw (JObject []) 1)
  /\ mkRaw (JObject []) 1 <> freshRawModel.
Proof.
  split.
  - apply (fromJSON_failure_replaces_data 0 parseEmptyObject (fun _ => None)
             (fun _ _ => None) (fun _ => None) "2024-01-01" freshRawModel "{}").
    reflexivity.
  - discriminate.
Defined.

(** A well-formed document loads: on a UTC host the fresh document comes
    back unchanged with [nextId] 1. *)
Example fromJSON_fresh_document :
  fromJSON 0 parseEmptyObject
           (fun v => match v with
                     | JString s =>
                         if String.eqb s "2024-01-01"
                         then Some (JSDate.parseDateOnly (JSDate.ymd 2024 1 1))
                         else None
                     | _ => None
                     end)
           (fun _ _ => None) (fun _ => None) "2024-01-01"
           (mkRaw JNull 7) freshDocument
  = (true, freshRawModel).
Proof. vm_compute. reflexivity. Qed.

(* ================================================================== *)
(** * Further properties *)

(** ** Gridlines *)

Lemma pixelToDay_range (tz : Z) (tl : Timeline) (p : Q) :
  0 <= pixelToDay tz tl p <= 10001.
Proof.
  unfold pixelToDay, pixelToDayLog.
  assert (H0 : 0 <= 0 <= 10000) by lia.
  assert (H1 : (Z.to_nat (10001 - 0) <= Z.to_nat 10001)%nat) by (apply Nat.le_refl).
  exact (proj1 (pixelWalk_result tz tl (p / zoom tl) (Z.to_nat 10001) 0 0 H0 H1)).
Qed.

(** X1.  Snapping is idempotent: a snapped pixel is the start of a day and
    snapping it again returns it. *)
Theorem snapPixelToGrid_idempotent (tz : Z) (tl : Timeline) (p : Q) :
  (0 < zoom tl)%Q ->
  snapPixelToGrid tz tl (snapPixelToGrid tz tl p) = snapPixelToGrid tz tl p /\
  pixelToDay tz tl (snapPixelToGrid tz tl p) = pixelToDay tz tl p.
Proof.
  intros Hz. unfold snapPixelToGrid.
  assert (E : pixelToDay tz tl (dayToPixel tz tl (pixelToDay tz tl p)) = pixelToDay tz tl p).
  { unfold pixelToDay at 1.
    rewrite pixelToDayLog_boundary; [reflexivity | exact Hz | apply pixelToDay_range]. }
  split; [rewrite E; reflexivity | exact E].
Qed.

Lemma snapPixelToGrid_idempotent_witness :
  snapPixelToGrid 0 mondayTimeline (snapPixelToGrid 0 mondayTimeline 457)
  = snapPixelToGrid 0 mondayTimeline 457.
Proof.
  apply (proj1 (snapPixelToGrid_idempotent 0 mondayTimeline 457 eq_refl)).
Defined.

Lemma widthLoop_app (tz : Z) (tl : Timeline) (n m : nat) :
  forall day acc,
    widthLoop tz tl (n + m) day acc
    = widthLoop tz tl m (day + Z.of_nat n) (widthLoop tz tl n day acc).
Proof.
  induction n as [| n IH]; intros day acc.
  - cbn [Nat.add widthLoop]. replace (day + Z.of_nat 0) with day by lia. reflexivity.
  - cbn [Nat.add widthLoop]. rewrite IH. f_equal. lia.
Qed.

Lemma dayStartPixel_add (tz : Z) (tl : Timeline) (a n : Z) :
  0 <= a -> 0 <= n ->
  dayStartPixel tz tl (a + n) = dayStartPixel tz tl a + widthLoop tz tl (Z.to_nat n) a 0.
Proof.
  intros Ha Hn. unfold dayStartPixel.
  replace (Z.to_nat (a + n)) with (Z.to_nat a + Z.to_nat n)%nat by lia.
  rewrite widthLoop_app. rewrite widthLoop_acc. f_equal. f_equal. lia.
Qed.

Lemma widthLoop_bounds (tz : Z) (tl : Timeline) (n : nat) :
  forall day,
    20 * Z.of_nat n <= widthLoop tz tl n day 0 <= 80 * Z.of_nat n.
Proof.
  induction n as [| n IH]; intros day; cbn [widthLoop]; [lia |].
  rewrite widthLoop_acc. specialize (IH (day + 1)).
  pose proof (getDayWidth_bounds tz tl day). lia.
Qed.

(** X2.  The pixel totals add up before the zoom is applied: the total
    that [dayToPixel(a + n)] accumulates is the total of [dayToPixel(a)]
    plus the total that [dayToPixelForDuration(a, n)] accumulates, and
    that one lies between [20 n] and [80 n].  Later days start strictly
    further right at a positive zoom. *)
Theorem dayToPixel_adds_durations (tz : Z) (tl : Timeline) (a n : Z) :
  0 <= a -> 0 <= n ->
  dayStartPixel tz tl (a + n)
  = dayStartPixel tz tl a + widthLoop tz tl (Z.to_nat n) a 0 /\
  20 * n <= widthLoop tz tl (Z.to_nat n) a 0 <= 80 * n /\
  ((0 < zoom tl)%Q -> 0 < n -> (dayToPixel tz tl a < dayToPixel tz tl (a + n))%Q).
Proof.
  intros Ha Hn. split; [apply dayStartPixel_add; assumption |]. split.
  - pose proof (widthLoop_bounds tz tl (Z.to_nat n) a) as B.
    rewrite Z2Nat.id in B by exact Hn. exact B.
  - intros Hz Hpos. unfold dayToPixel.
    fold (dayStartPixel tz tl (a + n)). fold (dayStartPixel tz tl a).
    apply Qmult_lt_compat_r; [exact Hz |].
    rewrite <- Zlt_Qlt.
    pose proof (dayStartPixel_gap tz tl a (a + n) ltac:(lia)). lia.
Qed.

Lemma dayToPixel_adds_durations_witness :
  dayStartPixel 0 mondayTimeline (5 + 3)
  = dayStartPixel 0 mondayTimeline 5 + widthLoop 0 mondayTimeline (Z.to_nat 3) 5 0.
Proof.
  apply (proj1 (dayToPixel_adds_durations 0 mondayTimeline 5 3 ltac:(lia) ltac:(lia))).
Defined.

(** ** Pixels outside the days the walk visits *)

Lemma dayToPixel_dayStartPixel (tz : Z) (tl : Timeline) (d : Z) :
  dayToPixel tz tl d = (inject_Z (dayStartPixel tz tl d) * zoom tl)%Q.
Proof. reflexivity. Qed.

Lemma pixelWalk_gives_up (tz : Z) (tl : Timeline) (u : Q) :
  (u <= - tolerance
   \/ inject_Z (dayStartPixel tz tl 10001) + tolerance <= u)%Q ->
  forall (fuel : nat) (k : Z),
    0 <= k <= 10000 ->
    (Z.to_nat (10001 - k) <= fuel)%nat ->
    pixelWalk tz tl fuel u (dayStartPixel tz tl k) k = (10001, [safetyWarning]).
Proof.
  intros Hu fuel. induction fuel as [| f IH]; intros k Hk Hfuel.
  - lia.
  - cbn [pixelWalk].
    pose proof (dayStartPixel_succ tz tl k ltac:(lia)) as Hs. rewrite <- Hs.
    assert (P0 : (0 <= inject_Z (dayStartPixel tz tl k))%Q).
    { change 0%Q with (inject_Z 0). rewrite <- Zle_Qle.
      pose proof (dayStartPixel_gap tz tl 0 k ltac:(lia)) as G.
      rewrite dayStartPixel_0 in G. lia. }
    assert (P1 : (inject_Z (dayStartPixel tz tl k) + 20
                  <= inject_Z (dayStartPixel tz tl (k + 1)))%Q).
    { change 20%Q with (inject_Z 20). rewrite <- inject_Z_plus, <- Zle_Qle.
      pose proof (dayStartPixel_gap tz tl k (k + 1) ltac:(lia)). lia. }
    assert (P2 : (inject_Z (dayStartPixel tz tl (k + 1))
                  <= inject_Z (dayStartPixel tz tl 10001))%Q).
    { rewrite <- Zle_Qle.
      pose proof (dayStartPixel_gap tz tl (k + 1) 10001 ltac:(lia)). lia. }
    replace (Qltb (Qabs (u - inject_Z (dayStartPixel tz tl k))) tolerance) with false
      by (symmetry; apply far_iff; unfold tolerance in *; destruct Hu; [left | right]; lra).
    replace (Qltb (Qabs (u - inject_Z (dayStartPixel tz tl (k + 1)))) tolerance) with false
      by (symmetry; apply far_iff; unfold tolerance in *; destruct Hu; [left | right]; lra).
    replace (Qltb (inject_Z (dayStartPixel tz tl k)) u
             && Qltb u (inject_Z (dayStartPixel tz tl (k + 1)))) with false.
    2:{ symmetry. apply andb_false_iff. unfold tolerance in *.
        destruct Hu; [left | right]; apply Qltb_ge; lra. }
    destruct (k + 1 >? 10000) eqn:C.
    + rewrite Z.gtb_ltb in C. apply Z.ltb_lt in C.
      replace (k + 1) with 10001 by lia. reflexivity.
    + rewrite Z.gtb_ltb in C. apply Z.ltb_ge in C. apply IH; lia.
Qed.

(** X3.  A pixel left of the origin, or right of the start of day 10001, by
    the tolerance or more is in none of the days the walk visits:
    [pixelToDay] warns and returns 10001. *)
Theorem pixelToDay_outside_gives_up (tz : Z) (tl : Timeline) (p : Q) :
  (0 < zoom tl)%Q ->
  (p <= - (tolerance * zoom tl)
   \/ dayToPixel tz tl 10001 + tolerance * zoom tl <= p)%Q ->
  pixelToDayLog tz tl p = (10001, [safetyWarning]).
Proof.
  intros Hz Hp. unfold pixelToDayLog.
  rewrite <- (dayStartPixel_0 tz tl) at 1.
  apply pixelWalk_gives_up; try lia.
  destruct Hp as [Hp | Hp]; [left | right].
  - apply Qle_shift_div_r; [exact Hz |].
    setoid_replace (- tolerance * zoom tl)%Q with (- (tolerance * zoom tl))%Q by ring.
    exact Hp.
  - apply Qle_shift_div_l; [exact Hz |].
    rewrite dayToPixel_dayStartPixel in Hp.
    setoid_replace ((inject_Z (dayStartPixel tz tl 10001) + tolerance) * zoom tl)%Q
      with (inject_Z (dayStartPixel tz tl 10001) * zoom tl + tolerance * zoom tl)%Q by ring.
    exact Hp.
Qed.

Lemma pixelToDay_outside_gives_up_witness :
  pixelToDayLog 0 mondayTimeline (-1) = (10001, [safetyWarning]).
Proof.
  apply (pixelToDay_outside_gives_up 0 mondayTimeline (-1) eq_refl).
  left. vm_compute. discriminate.
Defined.

(** ** Snapping to the nearer gridline *)



(** ** The zoom *)

Lemma Qmax_bounds (lo x : Q) : (lo <= Qmax lo x)%Q /\ (x <= Qmax lo x)%Q.
Proof.
  unfold Qmax. destruct (Qle_bool lo x) eqn:E.
  - apply Qle_bool_iff in E. split; [exact E | apply Qle_refl].
  - split; [apply Qle_refl |].
    destruct (Qlt_le_dec x lo) as [L | L]; [apply Qlt_le_weak; exact L |].
    apply Qle_bool_iff in L. congruence.
Qed.

(** X6.  [setZoom] keeps the zoom between 0.25 and 3, leaves a zoom in that
    range as requested and copies it into the data model; with the zoom it
    sets, every day up to 10001 survives the round trip through pixels. *)
Theorem setZoom_clamps (tl : Timeline) (z : Q) :
  ((1 # 4) <= zoom (setZoom tl z) <= 3)%Q /\
  data_zoom (dataModel (setZoom tl z)) = zoom (setZoom tl z) /\
  (((1 # 4) <= z <= 3)%Q -> (zoom (setZoom tl z) == z)%Q) /\
  (forall tz d, 0 <= d <= 10001 ->
     pixelToDay tz (setZoom tl z) (dayToPixel tz (setZoom tl z) d) = d).
Proof.
  assert (R : ((1 # 4) <= zoom (setZoom tl z) <= 3)%Q).
  { cbn [setZoom zoom]. split; [apply Qmax_bounds |].
    unfold Qmax, Qmin.
    destruct (Qle_bool 3 z) eqn:E3.
    - destruct (Qle_bool (1 # 4) 3); [apply Qle_refl | discriminate].
    - assert (L : (z <= 3)%Q).
      { destruct (Qlt_le_dec z 3) as [L | L]; [apply Qlt_le_weak; exact L |].
        apply Qle_bool_iff in L. congruence. }
      destruct (Qle_bool (1 # 4) z); [exact L | discriminate]. }
  split; [exact R |]. split; [reflexivity |]. split.
  - intros [Hlo Hhi]. cbn [setZoom zoom]. unfold Qmax, Qmin.
    destruct (Qle_bool 3 z) eqn:E3.
    + apply Qle_bool_iff in E3.
      change (Qle_bool (1 # 4) 3) with true. cbv iota. lra.
    + replace (Qle_bool (1 # 4) z) with true
        by (symmetry; apply Qle_bool_iff; exact Hlo).
      reflexivity.
  - intros tz d Hd. unfold pixelToDay.
    rewrite pixelToDayLog_boundary; [reflexivity | | exact Hd].
    destruct R as [R _]. lra.
Qed.

Lemma setZoom_clamps_witness :
  (zoom (setZoom mondayTimeline (3 # 2)) == 3 # 2)%Q /\
  pixelToDay 0 (setZoom mondayTimeline 100) (dayToPixel 0 (setZoom mondayTimeline 100) 9) = 9.
Proof.
  split.
  - apply (proj1 (proj2 (proj2 (setZoom_clamps mondayTimeline (3 # 2))))).
    split; vm_compute; discriminate.
  - apply (proj2 (proj2 (proj2 (setZoom_clamps mondayTimeline 100))) 0 9). lia.
Defined.

(** ** Rows under the pointer *)

Lemma Qfloor_between (x : Q) (k : Z) :
  (inject_Z k <= x)%Q -> (x < inject_Z (k + 1))%Q -> Qfloor x = k.
Proof.
  intros Hlo Hhi.
  pose proof (Qfloor_le x) as F1. pose proof (Qlt_floor x) as F2.
  assert (A : (inject_Z (Qfloor x) < inject_Z (k + 1))%Q) by lra.
  assert (B : (inject_Z k < inject_Z (Qfloor x + 1))%Q) by lra.
  rewrite <- Zlt_Qlt in A, B. lia.
Qed.

Lemma Qceiling_between (x : Q) (k : Z) :
  (inject_Z k < x)%Q -> (x <= inject_Z (k + 1))%Q -> Qceiling x = k + 1.
Proof.
  intros Hlo Hhi.
  pose proof (Qle_ceiling x) as F1. pose proof (Qceiling_lt x) as F2.
  assert (A : (inject_Z k < inject_Z (Qceiling x))%Q) by lra.
  assert (B : (inject_Z (Qceiling x - 1) < inject_Z (k + 1))%Q) by lra.
  rewrite <- Zlt_Qlt in A, B. lia.
Qed.

(** The rows in exact arithmetic: the bands of the model are sharp. *)
Lemma gridline_rows_in_rationals (tz : Z) (tl : Timeline) (x y : Q) :
  let day := fst (calculateGridlineIntersection tz tl x y) in
  let row := snd (calculateGridlineIntersection tz tl x y) in
  0 <= row /\ 0 <= day <= 10001 /\
  (forall k : Z,
     0 <= k -> (0 <= blockHeight tl)%Q -> (0 < blockHeight tl + annotationSpace tl)%Q ->
     (rowTop tl k + blockHeight tl <= y)%Q -> (y < rowTop tl (k + 1))%Q ->
     row = k) /\
  (forall k : Z,
     0 <= k -> (0 < blockHeight tl + annotationSpace tl)%Q ->
     (rowTop tl k <= y)%Q -> (y < rowTop tl k + blockHeight tl)%Q ->
     (y < rowTop tl (k + 1))%Q ->
     row = if Qltb (y - rowTop tl k) (rowTop tl (k + 1) - y) then k else k + 1).
Proof.
  cbv zeta. unfold calculateGridlineIntersection. cbn [fst snd].
  set (rs := (blockHeight tl + annotationSpace tl)%Q).
  set (frac := ((y - 32) / rs)%Q).
  split; [| split; [apply pixelToDay_range | split]].
  - destruct (Qfloor frac <? 0) eqn:N; [lia |]. apply Z.ltb_ge in N.
    destruct (Qle_bool (blockHeight tl) ((frac - inject_Z (Qfloor frac)) * rs)); [exact N |].
    destruct (Qltb _ _); [exact N |].
    pose proof (Qfloor_le frac). pose proof (Qle_ceiling frac).
    assert (A : (inject_Z (Qfloor frac) <= inject_Z (Qceiling frac))%Q) by lra.
    rewrite <- Zle_Qle in A. lia.
  - intros k Hk Hbh Hrs Hlo Hhi. unfold rowTop in Hlo, Hhi. fold rs in Hlo, Hhi.
    rewrite inject_Z_plus in Hhi.
    assert (F : Qfloor frac = k).
    { apply Qfloor_between.
      - apply Qle_shift_div_l; [exact Hrs | lra].
      - apply Qlt_shift_div_r; [exact Hrs |]. rewrite inject_Z_plus. lra. }
    rewrite F.
    replace (k <? 0) with false by (symmetry; apply Z.ltb_ge; exact Hk).
    replace (Qle_bool (blockHeight tl) ((frac - inject_Z k) * rs)) with true; [reflexivity |].
    symmetry. apply Qle_bool_iff.
    assert (E : ((frac - inject_Z k) * rs == y - 32 - inject_Z k * rs)%Q).
    { unfold frac. field. intros C. rewrite C in Hrs. exact (Qlt_irrefl _ Hrs). }
    rewrite E. lra.
  - intros k Hk Hrs Hlo Hhi Hnext. unfold rowTop in *. fold rs in Hlo, Hhi, Hnext |- *.
    rewrite inject_Z_plus in Hnext |- *.
    assert (F : Qfloor frac = k).
    { apply Qfloor_between.
      - apply Qle_shift_div_l; [exact Hrs | lra].
      - apply Qlt_shift_div_r; [exact Hrs |]. rewrite inject_Z_plus. lra. }
    rewrite F.
    replace (k <? 0) with false by (symmetry; apply Z.ltb_ge; exact Hk).
    assert (E : ((frac - inject_Z k) * rs == y - 32 - inject_Z k * rs)%Q).
    { unfold frac. field. intros C. rewrite C in Hrs. exact (Qlt_irrefl _ Hrs). }
    replace (Qle_bool (blockHeight tl) ((frac - inject_Z k) * rs)) with false.
    2:{ symmetry. destruct (Qle_bool _ _) eqn:C; [| reflexivity].
        apply Qle_bool_iff in C. rewrite E in C. exfalso. lra. }
    destruct (Qeq_dec y (32 + inject_Z k * rs)) as [Y | Y].
    + (* exactly on the gridline of row k *)
      assert (FE : (frac == inject_Z k)%Q).
      { unfold frac. rewrite Y. field. intros C. rewrite C in Hrs. exact (Qlt_irrefl _ Hrs). }
      assert (Cl : Qceiling frac = k).
      { unfold Qceiling. rewrite FE.
        change (- inject_Z k)%Q with (inject_Z (- k)). rewrite Qfloor_Z. lia. }
      rewrite Cl.
      replace (Qltb (y - (32 + inject_Z k * rs)) (32 + (inject_Z k + inject_Z 1) * rs - y))
        with true.
      2:{ symmetry. apply Qltb_lt. change (inject_Z 1) with 1%Q. lra. }
      destruct (Qltb _ _); reflexivity.
    + assert (Cl : Qceiling frac = k + 1).
      { apply Qceiling_between.
        - apply Qlt_shift_div_l; [exact Hrs |].
          destruct (Qlt_le_dec (inject_Z k * rs) (y - 32)) as [L | L]; [exact L |].
          exfalso. apply Y. lra.
        - apply Qle_shift_div_r; [exact Hrs |]. rewrite inject_Z_plus. lra. }
      rewrite Cl. rewrite inject_Z_plus.
      assert (A1 : (Qabs (y - (32 + inject_Z k * rs)) == y - (32 + inject_Z k * rs))%Q)
        by (apply Qabs_pos; lra).
      assert (A2 : (Qabs (y - (32 + (inject_Z k + inject_Z 1) * rs))
                    == 32 + (inject_Z k + inject_Z 1) * rs - y)%Q).
      { rewrite Qabs_neg by lra. ring. }
      destruct (Qltb (y - (32 + inject_Z k * rs)) (32 + (inject_Z k + inject_Z 1) * rs - y))
        eqn:C.
      * apply Qltb_lt in C.
        replace (Qltb _ _) with true; [reflexivity |].
        symmetry. apply Qltb_lt. rewrite A1, A2. exact C.
      * apply Qltb_ge in C.
        replace (Qltb _ _) with false; [reflexivity |].
        symmetry. apply Qltb_ge. rewrite A1, A2. exact C.
Qed.

(** X4.  The intersection under a pointer never has a negative row or a day
    outside 0 .. 10001.  For a pointer at most a million pixels down and a
    positive row spacing: a pointer in the annotation band below row [k],
    a thousandth of a pixel or more from its edges, resolves to row [k];
    a pointer in the block band of row [k], as far from its edges, resolves
    to the nearer of the gridlines of rows [k] and [k + 1] when one of them
    is nearer by a thousandth of a pixel or more.  (The margin keeps the
    pointer clear of the rounding of the doubles the program computes in.) *)
Theorem gridline_intersection_rows (tz : Z) (tl : Timeline) (x y : Q) :
  let day := fst (calculateGridlineIntersection tz tl x y) in
  let row := snd (calculateGridlineIntersection tz tl x y) in
  let margin : Q := 1 # 1000 in
  0 <= row /\ 0 <= day <= 10001 /\
  (forall k : Z,
     0 <= k -> (0 <= blockHeight tl)%Q -> (0 < blockHeight tl + annotationSpace tl)%Q ->
     (y <= 1000000)%Q ->
     (rowTop tl k + blockHeight tl + margin <= y)%Q ->
     (y <= rowTop tl (k + 1) - margin)%Q ->
     row = k) /\
  (forall k : Z,
     0 <= k -> (0 < blockHeight tl + annotationSpace tl)%Q ->
     (y <= 1000000)%Q ->
     (rowTop tl k + margin <= y)%Q ->
     (y <= rowTop tl k + blockHeight tl - margin)%Q ->
     (y <= rowTop tl (k + 1) - margin)%Q ->
     ((y - rowTop tl k + margin <= rowTop tl (k + 1) - y)%Q -> row = k) /\
     ((rowTop tl (k + 1) - y + margin <= y - rowTop tl k)%Q -> row = k + 1)).
Proof.
  cbv zeta.
  destruct (gridline_rows_in_rationals tz tl x y) as [H0 [H1 [H2 H3]]].
  cbv zeta in H0, H1, H2, H3.
  split; [exact H0 |]. split; [exact H1 |]. split.
  - intros k Hk Hbh Hrs _ Hlo Hhi. apply (H2 k Hk Hbh Hrs); lra.
  - intros k Hk Hrs _ Hlo Hhi Hnext.
    assert (E : snd (calculateGridlineIntersection tz tl x y)
                = if Qltb (y - rowTop tl k) (rowTop tl (k + 1) - y) then k else k + 1)
      by (apply (H3 k Hk Hrs); lra).
    split; intros C; rewrite E.
    + replace (Qltb (y - rowTop tl k) (rowTop tl (k + 1) - y)) with true; [reflexivity |].
      symmetry. apply Qltb_lt. lra.
    + replace (Qltb (y - rowTop tl k) (rowTop tl (k + 1) - y)) with false; [reflexivity |].
      symmetry. apply Qltb_ge. lra.
Qed.

Lemma gridline_intersection_rows_witness :
  snd (calculateGridlineIntersection 0 mondayTimeline 250 (32 + 120 + 90)) = 1 /\
  snd (calculateGridlineIntersection 0 mondayTimeline 250 (32 + 120 + 70)) = 2.
Proof.
  assert (H1 : 0 <= 1) by lia.
  split.
  - apply (proj1 (proj2 (proj2 (gridline_intersection_rows 0 mondayTimeline 250 (32 + 120 + 90))))
             1 H1); vm_compute; reflexivity || discriminate.
  - apply (proj2 (proj2 (proj2 (proj2 (gridline_intersection_rows 0 mondayTimeline 250
                                         (32 + 120 + 70)))) 1 H1
                   ltac:(vm_compute; reflexivity) ltac:(vm_compute; discriminate)
                   ltac:(vm_compute; discriminate) ltac:(vm_compute; discriminate)
                   ltac:(vm_compute; discriminate))).
    vm_compute. discriminate.
Defined.

(** ** Decimal ids *)








(** ** Unique ids *)









(** ** Well-formed, sorted blocks *)

Lemma Forall_replaceBlock (P : Block -> Prop) (id : string) (b' : Block) (l : list Block) :
  Forall P l -> P b' -> Forall P (replaceBlock id b' l).
Proof.
  intros Hl Hb. induction Hl as [| x r Hx Hr IH]; cbn [replaceBlock]; [constructor |].
  destruct (String.eqb (b_id x) id); constructor; assumption.
Qed.

Lemma Forall_sortBlocks (P : Block -> Prop) (l : list Block) :
  Forall P l -> Forall P (sortBlocks l).
Proof.
  intros H. eapply Permutation_Forall; [symmetry; apply sortBlocks_perm | exact H].
Qed.

Lemma Forall_removeAt {A : Type} (P : A -> Prop) (i : nat) (l : list A) :
  Forall P l -> Forall P (removeAt i l).
Proof.
  rewrite !Forall_forall. intros H x Hx. apply H. eapply removeAt_In. exact Hx.
Qed.

Lemma Forall_insertAt {A : Type} (P : A -> Prop) (start : Z) (x : A) (l : list A) :
  Forall P l -> P x -> Forall P (insertAt start x l).
Proof.
  intros Hl Hx. eapply Permutation_Forall; [symmetry; apply insertAt_perm |].
  constructor; assumption.
Qed.

Lemma updateItem_Forall (tz : Z) (dm : TimelineDataModel) (id : string) (u : Updates)
      (P : Block -> Prop) :
  Forall P (items dm) ->
  (forall b, findBlock id (items dm) = Some b -> P (assignBlock b (blockUpdates tz dm u))) ->
  Forall P (items (snd (updateItem tz dm id u))).
Proof.
  intros Hl Hb. destruct (findBlock id (items dm)) as [b |] eqn:E.
  - rewrite (updateItem_block_items tz dm id u b E).
    apply Forall_sortBlocks, Forall_replaceBlock; [exact Hl | apply Hb; reflexivity].
  - rewrite (proj1 (updateItem_no_block tz dm id u E)). exact Hl.
Qed.

Lemma updateItem_sorted (tz : Z) (dm : TimelineDataModel) (id : string) (u : Updates) :
  blocksSorted (items dm) -> blocksSorted (items (snd (updateItem tz dm id u))).
Proof.
  intros Hs. destruct (findBlock id (items dm)) as [b |] eqn:E.
  - rewrite (updateItem_block_items tz dm id u b E). apply sortBlocks_sorted.
  - rewrite (proj1 (updateItem_no_block tz dm id u E)). exact Hs.
Qed.

Lemma updateItem_invariant (tz : Z) (dm : TimelineDataModel) (id : string) (u : Updates) :
  storeInvariant dm ->
  (forall b, findBlock id (items dm) = Some b ->
             blockWellFormed (assignBlock b (blockUpdates tz dm u))) ->
  storeInvariant (snd (updateItem tz dm id u)).
Proof.
  intros [Hw Hs] Hb. split.
  - apply updateItem_Forall; assumption.
  - apply updateItem_sorted; exact Hs.
Qed.

Lemma addBlock_invariant (tz : Z) (dm : TimelineDataModel) (d : DayOrDate)
      (n : Z) (l : string) (r : Z) :
  storeInvariant dm -> 1 <= n -> 0 <= r ->
  storeInvariant (snd (addBlock tz dm d n l r)).
Proof.
  intros [Hw Hs] Hn Hr. unfold addBlock. cbn. split.
  - unfold blocksWellFormed. cbn. apply Forall_sortBlocks.
    apply Forall_app. split; [exact Hw |].
    constructor; [split; assumption | constructor].
  - apply sortBlocks_sorted.
Qed.

Lemma removeItem_invariant (dm : TimelineDataModel) (id : string) :
  storeInvariant dm -> storeInvariant (snd (removeItem dm id)).
Proof.
  intros [Hw Hs]. unfold removeItem.
  destruct (findBlockIndex id (items dm)); [| split; assumption].
  cbn. split.
  - unfold blocksWellFormed. cbn. apply Forall_removeAt. exact Hw.
  - apply removeAt_sorted. exact Hs.
Qed.

Lemma getItem_found (dm : TimelineDataModel) (id : string) (block b : Block) :
  getItem dm id = Some block -> findBlock (b_id block) (items dm) = Some b -> b = block.
Proof.
  unfold getItem. intros Hg Hb.
  destruct (findBlock id (items dm)) as [x |] eqn:E.
  - injection Hg as ->. rewrite (proj2 (findBlock_Some _ _ _ E)) in Hb. congruence.
  - rewrite (proj2 (findBlock_Some _ _ _ Hg)) in Hb. congruence.
Qed.

Lemma rightmostStep_member (tz : Z) (tl : Timeline) (l : list Block) :
  forall acc,
    (forall b, fst acc = Some b -> In b (items (dataModel tl))) ->
    (forall b, In b l -> In b (items (dataModel tl))) ->
    forall b, fst (fold_left (rightmostStep tz tl) l acc) = Some b ->
              In b (items (dataModel tl)).
Proof.
  induction l as [| x r IH]; intros acc Hacc Hl b; cbn [fold_left]; [apply Hacc |].
  apply IH.
  - unfold rightmostStep. destruct (_ >? _); [| exact Hacc].
    cbn [fst]. intros b' Hb'. injection Hb' as <-. apply Hl. left. reflexivity.
  - intros b' Hb'. apply Hl. right. exact Hb'.
Qed.

Lemma findRightmostBlock_member (tz : Z) (tl : Timeline) (b : Block) :
  findRightmostBlock tz tl = Some b -> In b (items (dataModel tl)).
Proof.
  unfold findRightmostBlock. apply rightmostStep_member.
  - cbn [fst]. discriminate.
  - auto.
Qed.

Lemma rowUnder_nonneg (tl : Timeline) (y : Q) : 0 <= rowUnder tl y.
Proof. unfold rowUnder. lia. Qed.

(** X8.  The keys keep the store in shape: after [+], [-], [N], an arrow
    move or a delete, every block still lasts at least one day, is in a row
    from 0 on, and the blocks are in order of their start dates. *)
Theorem keys_keep_store_invariant (tz : Z) (tl : Timeline) :
  storeInvariant (dataModel tl) ->
  storeInvariant (dataModel (keyPlus tz tl)) /\
  storeInvariant (dataModel (keyMinus tz tl)) /\
  storeInvariant (dataModel (keyN tz tl)) /\
  (forall deltaDays deltaRow,
     storeInvariant (dataModel (moveSelectedItem tz tl deltaDays deltaRow))) /\
  storeInvariant (dataModel (deleteSelectedBlock tl)).
Proof.
  intros I. pose proof I as [Hw Hs].
  assert (W : forall b, In b (items (dataModel tl)) -> blockWellFormed b)
    by (apply Forall_forall; exact Hw).
  split; [| split; [| split; [| split]]].
  - unfold keyPlus. destruct (selectedBlockId tl) as [sel |]; [| exact I].
    destruct (getItem (dataModel tl) sel) as [block |] eqn:G; [| exact I].
    cbn [render dataModel set_dataModel]. apply updateItem_invariant; [exact I |].
    intros b Hb. rewrite (getItem_found _ _ _ _ G Hb).
    destruct (W block) as [Hd Hr].
    { rewrite <- (getItem_found _ _ _ _ G Hb). apply (findBlock_Some _ _ _ Hb). }
    split; cbn; lia.
  - unfold keyMinus. destruct (selectedBlockId tl) as [sel |]; [| exact I].
    destruct (getItem (dataModel tl) sel) as [block |] eqn:G; [| exact I].
    destruct (duration block >? 1) eqn:D; [| exact I].
    rewrite Z.gtb_ltb in D. apply Z.ltb_lt in D.
    cbn [render dataModel set_dataModel]. apply updateItem_invariant; [exact I |].
    intros b Hb. rewrite (getItem_found _ _ _ _ G Hb).
    destruct (W block) as [Hd Hr].
    { rewrite <- (getItem_found _ _ _ _ G Hb). apply (findBlock_Some _ _ _ Hb). }
    split; cbn; lia.
  - unfold keyN. destruct (findRightmostBlock tz tl) as [rm |] eqn:R.
    + destruct (addBlock tz (dataModel tl) _ 5 "" (row rm)) as [nb dm'] eqn:A.
      cbn [selectBlock render dataModel set_dataModel].
      change dm' with (snd (nb, dm')). rewrite <- A.
      apply addBlock_invariant; [exact I | lia |].
      apply (W rm). apply (findRightmostBlock_member tz). exact R.
    + destruct (addBlock tz (dataModel tl) _ 5 "" 0) as [nb dm'] eqn:A.
      cbn [selectBlock render dataModel set_dataModel].
      change dm' with (snd (nb, dm')). rewrite <- A.
      apply addBlock_invariant; [exact I | lia | lia].
  - intros deltaDays deltaRow. unfold moveSelectedItem.
    destruct (selectedBlockId tl) as [sel |].
    + destruct (getItem (dataModel tl) sel) as [block |] eqn:G; [| exact I].
      cbn [dataModel set_dataModel]. apply updateItem_invariant; [exact I |].
      intros b Hb. rewrite (getItem_found _ _ _ _ G Hb).
      destruct (W block) as [Hd Hr].
      { rewrite <- (getItem_found _ _ _ _ G Hb). apply (findBlock_Some _ _ _ Hb). }
      split; cbn; lia.
    + destruct (selectedAnnotationId tl) as [sel |]; [| exact I].
      destruct (findAnnotation sel (annotations (dataModel tl))) as [a |]; [| exact I].
      cbn [dataModel set_dataModel]. apply updateItem_invariant; [exact I |].
      intros b Hb. destruct (W b) as [Hd Hr]; [apply (findBlock_Some _ _ _ Hb) |].
      split; cbn; lia.
  - unfold deleteSelectedBlock. destruct (selectedBlockId tl) as [sel |]; [| exact I].
    assert (R : storeInvariant (snd (removeItem (dataModel tl) sel)))
      by (apply removeItem_invariant; exact I).
    assert (F : forall t, dataModel (selectFirstBlock t) = dataModel t).
    { intros t. unfold selectFirstBlock. destruct (getAllBlocksSorted t); reflexivity. }
    destruct (findNextBlock tl sel) as [next |].
    + destruct (negb (String.eqb next sel)).
      * destruct (getItem _ next); [exact R | rewrite F; exact R].
      * rewrite F. exact R.
    + rewrite F. exact R.
Qed.

Lemma scenario_store_invariant : storeInvariant (scenarioModel 0).
Proof.
  split.
  - unfold blocksWellFormed.
    change (items (scenarioModel 0))
      with [mkBlock "1" 19723 5 "Design" 0 "XD"; mkBlock "2" 19728 3 "Build" 0 "XD"].
    repeat constructor; cbn; lia.
  - change (items (scenarioModel 0))
      with [mkBlock "1" 19723 5 "Design" 0 "XD"; mkBlock "2" 19728 3 "Build" 0 "XD"].
    repeat constructor. unfold byStartDate. cbn. lia.
Defined.

Lemma keys_keep_store_invariant_witness :
  storeInvariant (dataModel (keyMinus 0 (selectBlock (scenarioTimeline 0) (Some "2"%string)))).
Proof.
  apply (proj1 (proj2 (keys_keep_store_invariant 0
                         (selectBlock (scenarioTimeline 0) (Some "2"%string))
                         scenario_store_invariant))).
Defined.

Lemma commitPushes_invariant (tz : Z) (deltaDays : Z) (ps : list PushEntry) :
  forall dm, storeInvariant dm ->
             storeInvariant (fold_left (commitPush tz deltaDays) ps dm).
Proof.
  induction ps as [| p r IH]; intros dm I; cbn [fold_left]; [exact I |].
  apply IH. unfold commitPush. apply updateItem_invariant; [exact I |].
  intros b Hb. destruct I as [Hw _].
  assert (W : blockWellFormed b).
  { unfold blocksWellFormed in Hw. rewrite Forall_forall in Hw.
    apply Hw. apply (findBlock_Some _ _ _ Hb). }
  exact W.
Qed.

Lemma handleDrop_invariant (tz : Z) (tl : Timeline) (zone : DropZone) (id : string)
      (targetRow : Z) :
  storeInvariant (dataModel tl) -> 0 <= targetRow ->
  storeInvariant (dataModel (handleDrop tz tl zone id targetRow)).
Proof.
  intros I Hrow. pose proof I as [Hw Hs]. unfold handleDrop.
  destruct (findBlockIndex id (items (dataModel tl))) as [i |]; [| exact I].
  destruct (nth_error (items (dataModel tl)) i) as [item |] eqn:N; [| exact I].
  cbn [render dataModel set_dataModel]. split.
  - unfold blocksWellFormed, sortTimelineItems. cbn [set_items items].
    apply Forall_sortBlocks, Forall_insertAt.
    + apply Forall_removeAt. exact Hw.
    + unfold blocksWellFormed in Hw. rewrite Forall_forall in Hw.
      destruct (Hw item (nth_error_In _ _ N)) as [Hd _].
      split; cbn; lia.
  - unfold sortTimelineItems. cbn [set_items items]. apply sortBlocks_sorted.
Qed.

(** X9.  The pointer gestures keep the store in shape: after a click or a
    drag that creates a block, the end of a drag of a block, the end of a
    resize, a badge click or the end of an annotation edit, every block
    still lasts at least one day, is in a row from 0 on, and the blocks are
    in order of their start dates. *)
Theorem gestures_keep_store_invariant (tz : Z) (tl : Timeline) :
  storeInvariant (dataModel tl) ->
  (forall down upX upY rectLeft dragging,
     storeInvariant (dataModel (handleMouseUp tz tl down upX upY rectLeft dragging))) /\
  (forall id rect clientX clientY currentLeft,
     storeInvariant (dataModel (handleDragEnd tz tl id rect clientX clientY currentLeft))) /\
  (forall resizeState clientX,
     storeInvariant (dataModel (handleResizeEnd tz resizeState tl clientX))) /\
  (forall data, storeInvariant (cycleBadge tz (dataModel tl) data)) /\
  (forall id newText, storeInvariant (finishEditingAnnotation tz (dataModel tl) id newText)).
Proof.
  intros I. pose proof I as [Hw Hs].
  assert (W : forall b, In b (items (dataModel tl)) -> blockWellFormed b)
    by (apply Forall_forall; exact Hw).
  split; [| split; [| split; [| split]]].
  - intros down upX upY rectLeft dragging. unfold handleMouseUp.
    destruct (createdBySpec tz tl down upX upY rectLeft dragging) as [[[day dur] r] |] eqn:C;
      [| exact I].
    cbn [render dataModel set_dataModel].
    unfold createdBySpec in C.
    destruct (Qle_bool _ 5 && Qle_bool _ 5 && negb dragging).
    + injection C as _ <- <-.
      apply addBlock_invariant; [exact I | lia | apply rowUnder_nonneg].
    + destruct dragging; [| discriminate].
      injection C as _ <- <-.
      apply addBlock_invariant; [exact I | lia | apply rowUnder_nonneg].
  - intros id rect clientX clientY currentLeft. unfold handleDragEnd.
    destruct (_ || _ || _ || _).
    + cbn [removeComponent dataModel set_dataModel]. apply removeItem_invariant. exact I.
    + destruct (findDropZone tz tl id (rect_left rect) clientX) as [zone |].
      * apply handleDrop_invariant; [exact I | apply rowUnder_nonneg].
      * cbn [render dataModel set_dataModel]. split.
        -- unfold blocksWellFormed, sortTimelineItems. cbn [set_items items].
           apply Forall_sortBlocks. apply updateItem_Forall; [exact Hw |].
           intros b Hb. destruct (W b (proj1 (findBlock_Some _ _ _ Hb))) as [Hd _].
           split; cbn; [lia | apply rowUnder_nonneg].
        -- unfold sortTimelineItems. cbn [set_items items]. apply sortBlocks_sorted.
  - intros resizeState clientX. unfold handleResizeEnd.
    destruct resizeState as [rs |]; [| exact I].
    cbn [dataModel set_dataModel]. apply commitPushes_invariant.
    apply updateItem_invariant; [exact I |].
    intros b Hb. destruct (W b (proj1 (findBlock_Some _ _ _ Hb))) as [_ Hr].
    split; cbn; [unfold snappedDuration; lia | exact Hr].
  - intros data. unfold cycleBadge. apply updateItem_invariant; [exact I |].
    intros b Hb. exact (W b (proj1 (findBlock_Some _ _ _ Hb))).
  - intros id newText. unfold finishEditingAnnotation.
    destruct (negb (String.eqb newText "")).
    + apply updateItem_invariant; [exact I |].
      intros b Hb. exact (W b (proj1 (findBlock_Some _ _ _ Hb))).
    + unfold removeAnnotation.
      destruct (findAnnotationIndex id (annotations (dataModel tl))); exact I.
Qed.

Lemma gestures_keep_store_invariant_witness :
  storeInvariant
    (dataModel (handleDragEnd 0 (scenarioTimeline 0) "2" (mkRect 0 1000 0 400) 300 (-900) 120)).
Proof.
  apply (proj1 (proj2 (gestures_keep_store_invariant 0 (scenarioTimeline 0)
                         scenario_store_invariant))).
Defined.

(** ** Badges *)

Lemma nextBadge_enum (s : string) :
  nextBadge s = "XD"%string \/ nextBadge s = "PM"%string \/ nextBadge s = "PD"%string.
Proof.
  unfold nextBadge. destruct (String.eqb s "XD"); [right; left; reflexivity |].
  destruct (String.eqb s "PM"); [right; right; reflexivity | left; reflexivity].
Qed.

(** X10.  A badge click moves the block's badge one step along
    XD, PM, PD, XD and makes the new value the default of the blocks
    created afterwards; three clicks bring an XD, PM or PD badge back. *)
Theorem cycleBadge_is_remembered (tz : Z) (dm : TimelineDataModel) (b : Block) :
  NoDup (map b_id (items dm)) -> In b (items dm) ->
  let next := nextBadge (badgeOrDefault (badge b)) in
  let dm' := cycleBadge tz dm b in
  findBlock (b_id b) (items dm')
  = Some (mkBlock (b_id b) (startDate b) (duration b) (label b) (row b) next) /\
  lastBadgeValue dm' = next /\
  (forall d n l r, badge (fst (addBlock tz dm' d n l r)) = next) /\
  (next = "XD"%string \/ next = "PM"%string \/ next = "PD"%string) /\
  (badge b = "XD"%string \/ badge b = "PM"%string \/ badge b = "PD"%string ->
   nextBadge (nextBadge next) = badge b).
Proof.
  intros Hnd Hin. cbv zeta.
  pose proof (findBlock_unique _ _ Hnd Hin) as Hb.
  assert (L : lastBadgeValue (cycleBadge tz dm b) = nextBadge (badgeOrDefault (badge b))).
  { unfold cycleBadge, updateItem. rewrite Hb. reflexivity. }
  split; [| split; [exact L | split; [| split; [apply nextBadge_enum |]]]].
  - unfold cycleBadge.
    rewrite (updateItem_block_lookup tz dm _ _ b Hb _ Hnd), String.eqb_refl. reflexivity.
  - intros d n l r. unfold addBlock. cbn. rewrite L.
    destruct (nextBadge_enum (badgeOrDefault (badge b))) as [-> | [-> | ->]]; reflexivity.
  - intros [-> | [-> | ->]]; reflexivity.
Qed.

Lemma cycleBadge_is_remembered_witness :
  badge (fst (addBlock 0 (cycleBadge 0 (scenarioModel 0) (mkBlock "1" 19723 5 "Design" 0 "XD"))
                       (RelativeDay 9) 2 "Test" 1)) = "PM"%string.
Proof.
  assert (Hnd : NoDup (map b_id (items (scenarioModel 0)))).
  { change (map b_id (items (scenarioModel 0))) with ["1"%string; "2"%string].
    repeat constructor; cbn; intuition discriminate. }
  assert (Hin : In (mkBlock "1" 19723 5 "Design" 0 "XD") (items (scenarioModel 0)))
    by (left; reflexivity).
  apply (proj1 (proj2 (proj2 (cycleBadge_is_remembered 0 (scenarioModel 0) _ Hnd Hin)))).
Defined.

(** ** Removing a block *)

Lemma findBlock_removeAt_other (id id' : string) (l : list Block) (i : nat) :
  findBlockIndex id l = Some i -> id' <> id ->
  findBlock id' (removeAt i l) = findBlock id' l.
Proof.
  revert i. induction l as [| x r IH]; intros i; cbn [findBlockIndex]; [discriminate |].
  destruct (String.eqb (b_id x) id) eqn:E.
  - intros H Hne. injection H as <-. cbn [removeAt findBlock].
    apply String.eqb_eq in E.
    replace (String.eqb (b_id x) id') with false
      by (symmetry; apply String.eqb_neq; congruence).
    reflexivity.
  - destruct (findBlockIndex id r) as [j |]; cbn [option_map]; [| discriminate].
    intros H Hne. injection H as <-. cbn [removeAt findBlock].
    rewrite (IH j eq_refl Hne). reflexivity.
Qed.

Lemma findBlock_removeAt_same (id : string) (l : list Block) (i : nat) :
  NoDup (map b_id l) -> findBlockIndex id l = Some i ->
  findBlock id (removeAt i l) = None.
Proof.
  revert i. induction l as [| x r IH]; intros i Hnd; cbn [findBlockIndex]; [discriminate |].
  cbn [map] in Hnd. inversion Hnd as [| ? ? Hx Hr]; subst.
  destruct (String.eqb (b_id x) id) eqn:E.
  - intros H. injection H as <-. cbn [removeAt].
    apply String.eqb_eq in E. apply findBlock_None. rewrite <- E. exact Hx.
  - destruct (findBlockIndex id r) as [j |]; cbn [option_map]; [| discriminate].
    intros H. injection H as <-. cbn [removeAt findBlock]. rewrite E.
    apply IH; [exact Hr | reflexivity].
Qed.

Lemma removeAt_length {A : Type} (i : nat) (l : list A) (x : A) :
  nth_error l i = Some x -> S (List.length (removeAt i l)) = List.length l.
Proof.
  revert i. induction l as [| y r IH]; intros i; destruct i as [| j];
    cbn [nth_error removeAt List.length]; try discriminate.
  - reflexivity.
  - intros H. rewrite (IH j H). reflexivity.
Qed.

(** X11.  [removeItem] of a block of the store returns that block and
    removes it and nothing else: the store is one block shorter, the removed
    id is no longer found and every other id is found as before. *)
Theorem removeItem_removes_exactly_one (dm : TimelineDataModel) (id : string) (b : Block) :
  NoDup (map b_id (items dm)) ->
  findBlock id (items dm) = Some b ->
  let dm' := snd (removeItem dm id) in
  fst (removeItem dm id) = Some b /\
  S (List.length (items dm')) = List.length (items dm) /\
  findBlock id (items dm') = None /\
  (forall id', id' <> id -> findBlock id' (items dm') = findBlock id' (items dm)) /\
  annotations dm' = annotations dm.
Proof.
  intros Hnd Hb. cbv zeta. unfold removeItem.
  destruct (findBlockIndex id (items dm)) as [i |] eqn:E.
  - pose proof (findBlockIndex_nth _ _ _ E) as N. rewrite Hb in N.
    cbn [fst snd notifyChange set_items items annotations].
    split; [exact N |]. split; [apply (removeAt_length _ _ _ N) |].
    split; [apply findBlock_removeAt_same; assumption |].
    split; [| reflexivity].
    intros id' Hne. apply findBlock_removeAt_other with (id := id); assumption.
  - apply findBlockIndex_None in E. congruence.
Qed.

Lemma removeItem_removes_exactly_one_witness :
  List.length (items (snd (removeItem (scenarioModel 0) "1"))) = 1%nat /\
  findBlock "2" (items (snd (removeItem (scenarioModel 0) "1")))
  = Some (mkBlock "2" 19728 3 "Build" 0 "XD").
Proof.
  assert (Hnd : NoDup (map b_id (items (scenarioModel 0)))).
  { change (map b_id (items (scenarioModel 0))) with ["1"%string; "2"%string].
    repeat constructor; cbn; intuition discriminate. }
  destruct (removeItem_removes_exactly_one (scenarioModel 0) "1"
              (mkBlock "1" 19723 5 "Design" 0 "XD") Hnd eq_refl)
    as [_ [Hlen [_ [Hother _]]]].
  split.
  - change (List.length (items (scenarioModel 0))) with 2%nat in Hlen. lia.
  - rewrite Hother by discriminate. reflexivity.
Defined.

(** ** Annotations: adding, finding, ending an edit *)

Lemma findAnnotationAt_app (d r : Z) (l l' : list Annotation) :
  findAnnotationAt d r (l ++ l') =
  match findAnnotationAt d r l with
  | Some e => Some e
  | None => findAnnotationAt d r l'
  end.
Proof.
  induction l as [| x rest IH]; cbn [app findAnnotationAt]; [reflexivity |].
  destruct ((date x =? d) && (a_row x =? r)); [reflexivity | exact IH].
Qed.

(** X13.  After [addAnnotation] at a day and row, [getAnnotation] at that
    day and row finds the milestone that was there first, and the new one
    when there was none; at any other date or row it finds what it found
    before. *)
Theorem getAnnotation_after_addAnnotation
        (tz : Z) (dm : TimelineDataModel) (n r : Z) (t : string) :
  let a := fst (addAnnotation tz dm (RelativeDay n) r t) in
  let dm' := snd (addAnnotation tz dm (RelativeDay n) r t) in
  getAnnotation tz dm' (RelativeDay n) r
  = match getAnnotation tz dm (RelativeDay n) r with
    | Some e => Some e
    | None => Some a
    end /\
  (forall d' r', ~ (d' = getDateFromRelativeDay tz dm n /\ r' = r) ->
     getAnnotation tz dm' (AbsoluteDate d') r' = getAnnotation tz dm (AbsoluteDate d') r').
Proof.
  cbv zeta. unfold getAnnotation, addAnnotation. cbn.
  unfold getDateFromRelativeDay, getStartDate. cbn [timelineStart].
  rewrite !findAnnotationAt_app. split.
  - destruct (findAnnotationAt _ r (annotations dm)); [reflexivity |].
    cbn [findAnnotationAt date a_row]. rewrite !Z.eqb_refl. reflexivity.
  - intros d' r' Hne. rewrite findAnnotationAt_app.
    destruct (findAnnotationAt d' r' (annotations dm)); [reflexivity |].
    cbn [findAnnotationAt date a_row].
    destruct (_ =? d') eqn:E1; [| reflexivity].
    destruct (r =? r') eqn:E2; [| reflexivity].
    apply Z.eqb_eq in E1. apply Z.eqb_eq in E2. exfalso. apply Hne.
    unfold getDateFromRelativeDay, getStartDate. split; congruence.
Qed.

Lemma getAnnotation_after_addAnnotation_witness :
  option_map a_id
    (getAnnotation 0 (snd (addAnnotation 0 (scenarioModel 0) (RelativeDay 3) 0 "go"))
                   (AbsoluteDate (JSDate.ymd 2024 1 9)) 0) = None.
Proof.
  rewrite (proj2 (getAnnotation_after_addAnnotation 0 (scenarioModel 0) 3 0 "go")).
  - reflexivity.
  - vm_compute. intros [H _]. discriminate H.
Defined.

Lemma findAnnotationIndex_fresh (id : string) (l : list Annotation) (a : Annotation) :
  findAnnotation id l = None -> a_id a = id ->
  findAnnotationIndex id (l ++ [a]) = Some (List.length l) /\
  findAnnotation id (l ++ [a]) = Some a.
Proof.
  intros Hf Hid. induction l as [| x r IH];
    cbn [app findAnnotationIndex findAnnotation List.length] in *.
  - rewrite Hid, String.eqb_refl. split; reflexivity.
  - destruct (String.eqb (a_id x) id); [discriminate |].
    destruct (IH Hf) as [-> ->]. split; reflexivity.
Qed.

Lemma removeAt_appended {A : Type} (l : list A) (x : A) :
  removeAt (List.length l) (l ++ [x]) = l.
Proof.
  induction l as [| y r IH]; cbn [app List.length removeAt]; [reflexivity |].
  rewrite IH. reflexivity.
Qed.

Lemma replaceAnnotation_appended (id : string) (l : list Annotation) (a a' : Annotation) :
  findAnnotation id l = None -> a_id a = id ->
  replaceAnnotation id a' (l ++ [a]) = l ++ [a'].
Proof.
  intros Hf Hid. induction l as [| x r IH]; cbn [app replaceAnnotation findAnnotation] in *.
  - rewrite Hid, String.eqb_refl. reflexivity.
  - destruct (String.eqb (a_id x) id); [discriminate |].
    rewrite (IH Hf). reflexivity.
Qed.

(** X12.  A milestone created empty disappears when its edit ends with
    empty text: the annotations are again what they were before it was
    added.  When the edit ends with text, the milestone carries that text.
    (The new id is [String(nextId)], which no annotation and no block has.) *)
Theorem empty_annotation_edit_removes_it
        (tz : Z) (dm : TimelineDataModel) (d : DayOrDate) (r : Z) :
  findAnnotation (toDecimal (nextId dm)) (annotations dm) = None ->
  let a := fst (addAnnotation tz dm d r "") in
  let dm1 := snd (addAnnotation tz dm d r "") in
  annotations (finishEditingAnnotation tz dm1 (a_id a) "") = annotations dm /\
  items (finishEditingAnnotation tz dm1 (a_id a) "") = items dm /\
  (forall newText,
     newText <> EmptyString ->
     findBlock (toDecimal (nextId dm)) (items dm) = None ->
     annotations (finishEditingAnnotation tz dm1 (a_id a) newText)
     = annotations dm ++ [mkAnnotation (a_id a) (date a) (a_row a) newText]).
Proof.
  intros Hfresh. cbv zeta.
  unfold addAnnotation, generateId, notifyChange, set_annotations.
  cbn [fst snd a_id date a_row annotations items nextId].
  set (a := mkAnnotation (toDecimal (nextId dm)) _ r "").
  destruct (findAnnotationIndex_fresh _ (annotations dm) a Hfresh eq_refl) as [Hi Hf].
  split; [| split].
  - unfold finishEditingAnnotation. cbn [String.eqb negb].
    unfold removeAnnotation. cbn [annotations]. rewrite Hi.
    cbn [snd notifyChange set_annotations annotations]. apply removeAt_appended.
  - unfold finishEditingAnnotation. cbn [String.eqb negb].
    unfold removeAnnotation. cbn [annotations]. rewrite Hi. reflexivity.
  - intros newText Hne Hb. unfold finishEditingAnnotation.
    replace (String.eqb newText "") with false
      by (symmetry; apply String.eqb_neq; exact Hne).
    cbn [negb]. unfold updateItem. cbn [items annotations]. rewrite Hb, Hf.
    cbn [snd notifyChange set_annotations annotations].
    rewrite (replaceAnnotation_appended _ _ a _ Hfresh eq_refl). reflexivity.
Qed.

Lemma empty_annotation_edit_removes_it_witness :
  annotations
    (finishEditingAnnotation 0
       (snd (addAnnotation 0 (newModel (JSDate.ymd 2024 1 1)) (RelativeDay 3) 0 "")) "1" "")
  = [].
Proof.
  apply (proj1 (empty_annotation_edit_removes_it 0 (newModel (JSDate.ymd 2024 1 1))
                  (RelativeDay 3) 0 eq_refl)).
Defined.

(** ** Sorting again *)

Lemma sortBlocks_of_sorted (l : list Block) : blocksSorted l -> sortBlocks l = l.
Proof.
  unfold blocksSorted. induction l as [| x r IH]; intros Hs; cbn [sortBlocks]; [reflexivity |].
  inversion Hs as [| ? ? Hr Hx]; subst. rewrite (IH Hr).
  destruct r as [| y r']; cbn [insertByDate]; [reflexivity |].
  inversion Hx as [| ? ? Hxy _]; subst.
  replace (startDate x <=? startDate y) with true
    by (symmetry; apply Z.leb_le; exact Hxy).
  reflexivity.
Qed.

Lemma blocksSorted_dates (l : list Block) :
  forall l', map startDate l' = map startDate l -> blocksSorted l -> blocksSorted l'.
Proof.
  unfold blocksSorted. induction l as [| x r IH]; intros l' Hm Hs.
  - destruct l'; [constructor | discriminate].
  - destruct l' as [| x' r']; [discriminate |]. cbn [map] in Hm. injection Hm as Hx Hr.
    inversion Hs as [| ? ? Hsr Hf]; subst.
    constructor; [apply IH; assumption |].
    rewrite Forall_forall in *. intros y Hy.
    apply (in_map startDate) in Hy. rewrite Hr in Hy.
    apply in_map_iff in Hy. destruct Hy as [z [Hz Hin]].
    specialize (Hf z Hin). unfold byStartDate in *. lia.
Qed.

Lemma replaceBlock_dates (id : string) (b b' : Block) (l : list Block) :
  findBlock id l = Some b -> startDate b' = startDate b ->
  map startDate (replaceBlock id b' l) = map startDate l.
Proof.
  intros Hf Hd. induction l as [| x r IH]; cbn [findBlock replaceBlock map] in *;
    [reflexivity |].
  destruct (String.eqb (b_id x) id); cbn [map].
  - injection Hf as ->. rewrite Hd. reflexivity.
  - rewrite (IH Hf). reflexivity.
Qed.

(** X14.  Sorting blocks that are already in order changes nothing, so in
    a sorted store an update that gives no new start date leaves every
    block at its index: only the updated block changes, in place. *)
Theorem update_without_date_keeps_order
        (tz : Z) (dm : TimelineDataModel) (id : string) (u : Updates) (b : Block) :
  blocksSorted (items dm) ->
  findBlock id (items dm) = Some b ->
  u_startDate u = None -> u_startDay u = None ->
  sortBlocks (items dm) = items dm /\
  items (snd (updateItem tz dm id u)) = replaceBlock id (assignBlock b u) (items dm).
Proof.
  intros Hs Hb Hd Hday. split; [apply sortBlocks_of_sorted; exact Hs |].
  rewrite (updateItem_block_items tz dm id u b Hb).
  assert (E : blockUpdates tz dm u = u) by (unfold blockUpdates; rewrite Hday; reflexivity).
  rewrite E. apply sortBlocks_of_sorted.
  apply (blocksSorted_dates (items dm)); [| exact Hs].
  apply replaceBlock_dates with (b := b); [exact Hb |].
  cbn [assignBlock startDate]. rewrite Hd. reflexivity.
Qed.

Lemma update_without_date_keeps_order_witness :
  map b_id (items (snd (updateItem 0 (scenarioModel 0) "1" (onlyDuration 40))))
  = ["1"%string; "2"%string].
Proof.
  rewrite (proj2 (update_without_date_keeps_order 0 (scenarioModel 0) "1" (onlyDuration 40)
                    (mkBlock "1" 19723 5 "Design" 0 "XD")
                    (proj2 scenario_store_invariant) eq_refl eq_refl eq_refl)).
  reflexivity.
Defined.

(** ** The start date of the timeline *)

Lemma toISODay_setHoursZero_utc_midnight (tz d : Z) :
  -720 <= tz <= 840 ->
  JSDate.toISODay (setHoursZero tz (JSDate.parseDateOnly d))
  = if tz =? 0 then d else d - 1.
Proof.
  intros Htz. unfold setHoursZero, JSDate.parseDateOnly, JSDate.toISODay.
  destruct (Z.eqb_spec tz 0) as [E | E].
  - subst tz. replace (d * JSDate.msPerDay + 0 * 60000) with (d * JSDate.msPerDay + 0) by ring.
    rewrite div_msPerDay by (unfold JSDate.msPerDay; lia).
    replace (d * JSDate.msPerDay - 0 * 60000) with (d * JSDate.msPerDay + 0) by ring.
    apply div_msPerDay. unfold JSDate.msPerDay. lia.
  - destruct (Z_lt_le_dec tz 0) as [W | Ea].
    + replace (d * JSDate.msPerDay + tz * 60000)
        with ((d - 1) * JSDate.msPerDay + (JSDate.msPerDay + tz * 60000)) by ring.
      rewrite div_msPerDay by (unfold JSDate.msPerDay; lia).
      replace ((d - 1) * JSDate.msPerDay - tz * 60000)
        with ((d - 1) * JSDate.msPerDay + (- tz * 60000)) by ring.
      apply div_msPerDay. unfold JSDate.msPerDay. lia.
    + rewrite div_msPerDay by (unfold JSDate.msPerDay; lia).
      replace (d * JSDate.msPerDay - tz * 60000)
        with ((d - 1) * JSDate.msPerDay + (JSDate.msPerDay - tz * 60000)) by ring.
      apply div_msPerDay. unfold JSDate.msPerDay. lia.
Qed.

Lemma toISODay_setHoursZero_local_midnight (tz d : Z) :
  -720 <= tz <= 840 ->
  JSDate.toISODay (setHoursZero tz (JSDate.parseLocalMidnight tz d))
  = if 0 <? tz then d - 1 else d.
Proof.
  intros Htz. unfold setHoursZero, JSDate.parseLocalMidnight, JSDate.toISODay.
  replace (d * JSDate.msPerDay - tz * 60000 + tz * 60000) with (d * JSDate.msPerDay + 0) by ring.
  rewrite div_msPerDay by (unfold JSDate.msPerDay; lia).
  destruct (Z.ltb_spec 0 tz) as [Ea | W].
  - replace (d * JSDate.msPerDay - tz * 60000)
      with ((d - 1) * JSDate.msPerDay + (JSDate.msPerDay - tz * 60000)) by ring.
    apply div_msPerDay. unfold JSDate.msPerDay. lia.
  - replace (d * JSDate.msPerDay - tz * 60000)
      with (d * JSDate.msPerDay + (- tz * 60000)) by ring.
    apply div_msPerDay. unfold JSDate.msPerDay. lia.
Qed.

(** X15.  [setStartDate] with a date-only string, or with the [Date] the
    start-date input builds from one, stores that day only on a host at
    UTC; at every other offset it stores the day before.  Given back the
    [Date] of [getStartDate], it stores the same start date at and west of
    UTC and the day before it east of UTC.  In each case it notifies once
    and leaves the blocks and annotations alone. *)
Theorem setStartDate_stored_day (tz : Z) (dm : TimelineDataModel) (d : Z) :
  -720 <= tz <= 840 ->
  timelineStart (setStartDate tz dm (DateText d)) = (if tz =? 0 then d else d - 1) /\
  timelineStart (setStartDate tz dm (DateObject (JSDate.parseDateOnly d)))
  = (if tz =? 0 then d else d - 1) /\
  timelineStart (setStartDate tz dm (DateObject (getStartDate tz dm)))
  = (if 0 <? tz then timelineStart dm - 1 else timelineStart dm) /\
  forall date,
    items (setStartDate tz dm date) = items dm /\
    annotations (setStartDate tz dm date) = annotations dm /\
    changes (setStartDate tz dm date) = S (changes dm).
Proof.
  intros Htz. unfold setStartDate, getStartDate.
  cbn [notifyChange set_timelineStart timelineStart items annotations changes].
  split; [apply toISODay_setHoursZero_utc_midnight; exact Htz |].
  split; [apply toISODay_setHoursZero_utc_midnight; exact Htz |].
  split; [apply toISODay_setHoursZero_local_midnight; exact Htz |].
  intros date. split; [| split]; reflexivity.
Qed.

Lemma setStartDate_stored_day_witness :
  JSDate.isoDate
    (timelineStart (setStartDate (-300) (newModel (JSDate.ymd 2024 1 1))
                                 (DateText (JSDate.ymd 2024 3 15))))
  = "2024-03-14"%string.
Proof.
  rewrite (proj1 (setStartDate_stored_day (-300) (newModel (JSDate.ymd 2024 1 1))
                    (JSDate.ymd 2024 3 15) ltac:(lia))).
  vm_compute. reflexivity.
Defined.

(** ** Blocks moved in and moved around *)




(** X17.  [reorderItems] takes the dragged block out and splices it back
    at the target index: for a target inside the remaining items the block
    stands at that index and the other blocks keep their order; a target
    past the end puts it last; a negative target counts from the end.  The
    list is not sorted again and nobody is notified. *)
Theorem reorderItems_places_block
        (dm : TimelineDataModel) (id : string) (target : Z) (b : Block) :
  findBlock id (items dm) = Some b ->
  let dm' := reorderItems dm id target in
  exists i,
    findBlockIndex id (items dm) = Some i /\
    let others := removeAt i (items dm) in
    let n := Z.of_nat (List.length others) in
    (0 <= target <= n ->
     nth_error (items dm') (Z.to_nat target) = Some b /\
     removeAt (Z.to_nat target) (items dm') = others) /\
    (n <= target -> items dm' = others ++ [b]) /\
    (- n <= target < 0 ->
     nth_error (items dm') (Z.to_nat (n + target)) = Some b /\
     removeAt (Z.to_nat (n + target)) (items dm') = others) /\
    (target < - n -> items dm' = b :: others) /\
    changes dm' = changes dm.
Proof.
  intros Hb. cbv zeta. unfold reorderItems.
  destruct (findBlockIndex id (items dm)) as [i |] eqn:E.
  2:{ apply findBlockIndex_None in E. congruence. }
  exists i. split; [reflexivity |].
  pose proof (findBlockIndex_nth _ _ _ E) as N. rewrite Hb in N. rewrite N.
  cbn [set_items items changes]. unfold insertAt, spliceStart.
  set (others := removeAt i (items dm)).
  split; [| split; [| split; [| split]]].
  - intros Ht. destruct (Z.ltb_spec target 0) as [C | C]; [lia |].
    rewrite Nat.min_l by lia. apply nth_error_insertAt. lia.
  - intros Ht. destruct (Z.ltb_spec target 0) as [C | C]; [lia |].
    rewrite Nat.min_r by lia. rewrite firstn_all, skipn_all. reflexivity.
  - intros Ht. destruct (Z.ltb_spec target 0) as [C | C]; [| lia].
    rewrite Z.max_l by lia. apply nth_error_insertAt. lia.
  - intros Ht. destruct (Z.ltb_spec target 0) as [C | C]; [| lia].
    rewrite Z.max_r by lia. reflexivity.
  - reflexivity.
Qed.

Lemma reorderItems_places_block_witness :
  map b_id (items (reorderItems (scenarioModel 0) "2" (-5))) = ["2"%string; "1"%string].
Proof.
  destruct (reorderItems_places_block (scenarioModel 0) "2" (-5)
              (mkBlock "2" 19728 3 "Build" 0 "XD") eq_refl) as [i [Hi [_ [_ [_ [H _]]]]]].
  vm_compute in Hi. injection Hi as <-.
  rewrite H; [reflexivity | vm_compute; reflexivity].
Defined.

(** ** Loading a document *)










Section Loading.

Variable tz : Z.
Variable JSON_parse : string -> option JSValue.
Variable newDate : JSValue -> option Z.
Variable setDatePlusValue : Z -> JSValue -> option Z.
Variable parseInt : JSValue -> option Z.
Variable todayISO : string.






End Loading.


(** ** The rightmost block and the key [N] *)

Lemma rightmostStep_fold (tz : Z) (tl : Timeline) (l : list Block) :
  forall (acc : option Block) (e : Z),
    let endOf := fun b => getRelativeDayFromDate tz (dataModel tl) (startDate b) + duration b in
    let res := fold_left (rightmostStep tz tl) l (acc, e) in
    e <= snd res /\
    (forall X, In X l -> endOf X <= snd res) /\
    ((res = (acc, e)) \/ (exists r, In r l /\ fst res = Some r /\ endOf r = snd res /\ e < snd res)).
Proof.
  induction l as [| x rest IH]; intros acc e; cbv zeta; cbn [fold_left].
  - split; [cbn; lia |]. split; [intros X [] | left; reflexivity].
  - assert (S : rightmostStep tz tl (acc, e) x
                = if getRelativeDayFromDate tz (dataModel tl) (startDate x) + duration x >? e
                  then (Some x,
                        getRelativeDayFromDate tz (dataModel tl) (startDate x) + duration x)
                  else (acc, e)) by reflexivity.
    rewrite S. clear S.
    destruct (Z.gtb_spec (getRelativeDayFromDate tz (dataModel tl) (startDate x) + duration x) e)
      as [G | G].
    + specialize (IH (Some x)
                     (getRelativeDayFromDate tz (dataModel tl) (startDate x) + duration x)).
      cbv zeta in IH. destruct IH as [H1 [H2 H3]].
      split; [lia |]. split.
      * intros X [<- | Hin]; [exact H1 | apply H2; exact Hin].
      * right. destruct H3 as [E | [r [Hr [Hf [He Hlt]]]]].
        -- exists x. rewrite E. cbn [fst snd]. split; [left; reflexivity |].
           split; [reflexivity |]. split; [reflexivity | lia].
        -- exists r. split; [right; exact Hr |]. split; [exact Hf |]. split; [exact He | lia].
    + specialize (IH acc e). cbv zeta in IH. destruct IH as [H1 [H2 H3]].
      split; [exact H1 |]. split.
      * intros X [<- | Hin]; [lia | apply H2; exact Hin].
      * destruct H3 as [E | [r [Hr [Hf [He Hlt]]]]]; [left; exact E |].
        right. exists r. split; [right; exact Hr |]. split; [exact Hf |].
        split; [exact He | exact Hlt].
Qed.

(** X19.  [findRightmostBlock] returns a block of the timeline that ends
    on or after day 0 and at least as late as every other block.  It
    returns nothing exactly when every block ends before day 0 (the
    search starts from an end of -1), in particular on an empty
    timeline. *)
Theorem findRightmostBlock_ends_last (tz : Z) (tl : Timeline) :
  let endOf := fun b => getRelativeDayFromDate tz (dataModel tl) (startDate b) + duration b in
  match findRightmostBlock tz tl with
  | Some r =>
      In r (items (dataModel tl)) /\ 0 <= endOf r /\
      forall X, In X (items (dataModel tl)) -> endOf X <= endOf r
  | None => forall X, In X (items (dataModel tl)) -> endOf X < 0
  end.
Proof.
  cbv zeta. unfold findRightmostBlock.
  pose proof (rightmostStep_fold tz tl (items (dataModel tl)) None (-1)) as H.
  cbv zeta in H. destruct H as [H1 [H2 H3]].
  destruct H3 as [E | [r [Hr [Hf [He Hlt]]]]].
  - rewrite E in *. cbn [fst snd] in *. intros X HX. specialize (H2 X HX). lia.
  - rewrite Hf. split; [exact Hr |]. split; [lia |].
    intros X HX. specialize (H2 X HX). lia.
Qed.

Lemma addBlock_absolute (tz : Z) (dm : TimelineDataModel) (d n : Z) (l : string) (r : Z) :
  let b := mkBlock (toDecimal (nextId dm)) d n l r (badgeOrDefault (lastBadgeValue dm)) in
  addBlock tz dm (AbsoluteDate d) n l r
  = (b, notifyChange (sortTimelineItems
                        (set_items (snd (generateId dm)) (items dm ++ [b])))).
Proof. reflexivity. Qed.

(** X20.  On a host at or west of UTC the key [N] adds a 5-day block with
    an empty label and selects it: in the row of the rightmost block and
    starting on the day that block ends, or in row 0 at day 0 when there is
    no rightmost block.  Every block that was there stays. *)
Theorem keyN_appends_after_rightmost (tz : Z) (tl : Timeline) :
  -720 <= tz <= 0 ->
  let dm := dataModel tl in
  let tl' := keyN tz tl in
  let target :=
    match findRightmostBlock tz tl with
    | Some r => (getRelativeDayFromDate tz dm (startDate r) + duration r, row r)
    | None => (0, 0)
    end in
  exists nb,
    In nb (items (dataModel tl')) /\
    selectedBlockId tl' = Some (b_id nb) /\
    b_id nb = toDecimal (nextId dm) /\
    getRelativeDayFromDate tz (dataModel tl') (startDate nb) = fst target /\
    row nb = snd target /\ duration nb = 5 /\ label nb = EmptyString /\
    Permutation (items (dataModel tl')) (nb :: items dm).
Proof.
  intros Htz. cbv zeta. unfold keyN.
  destruct (findRightmostBlock tz tl) as [r |].
  - rewrite addBlock_absolute.
    cbn [selectBlock render set_dataModel dataModel selectedBlockId notifyChange
         sortTimelineItems set_items items generateId snd fst b_id].
    match goal with |- context [items (dataModel tl) ++ [?b]] => exists b end.
    split; [| split; [reflexivity | split; [reflexivity |]]].
    + eapply Permutation_in; [symmetry; apply sortBlocks_perm |].
      apply in_or_app. right. left. reflexivity.
    + cbn [startDate row duration label fst snd].
      split.
      { rewrite getRelativeDayFromDate_near by lia.
        rewrite getDateFromRelativeDay_west by exact Htz. cbn [timelineStart].
        rewrite (getRelativeDayFromDate_near tz (dataModel tl)) by lia.
        cbn [timelineStart notifyChange sortTimelineItems set_items]. lia. }
      split; [reflexivity |]. split; [reflexivity |]. split; [reflexivity |].
      rewrite sortBlocks_perm. symmetry. apply Permutation_cons_append.
  - rewrite addBlock_absolute.
    cbn [selectBlock render set_dataModel dataModel selectedBlockId notifyChange
         sortTimelineItems set_items items generateId snd fst b_id].
    match goal with |- context [items (dataModel tl) ++ [?b]] => exists b end.
    split; [| split; [reflexivity | split; [reflexivity |]]].
    + eapply Permutation_in; [symmetry; apply sortBlocks_perm |].
      apply in_or_app. right. left. reflexivity.
    + cbn [startDate row duration label fst snd].
      split.
      { rewrite getRelativeDayFromDate_near by lia.
        cbn [timelineStart]. unfold getStartDate, JSDate.toISODay, JSDate.parseLocalMidnight.
        replace (timelineStart (dataModel tl) * JSDate.msPerDay - tz * 60000)
          with (timelineStart (dataModel tl) * JSDate.msPerDay + (- tz * 60000)) by ring.
        rewrite div_msPerDay by (unfold JSDate.msPerDay; lia).
        cbn [timelineStart notifyChange sortTimelineItems set_items]. lia. }
      split; [reflexivity |]. split; [reflexivity |]. split; [reflexivity |].
      rewrite sortBlocks_perm. symmetry. apply Permutation_cons_append.
Qed.

Lemma keyN_appends_after_rightmost_witness :
  map (fun b => (b_id b, startDate b - JSDate.ymd 2024 1 1, duration b))
      (items (dataModel (keyN 0 (scenarioTimeline 0))))
  = [("1"%string, 0, 5); ("2"%string, 5, 3); ("3"%string, 8, 5)]
  /\ exists nb, In nb (items (dataModel (keyN 0 (scenarioTimeline 0))))
                /\ selectedBlockId (keyN 0 (scenarioTimeline 0)) = Some (b_id nb).
Proof.
  split; [vm_compute; reflexivity |].
  destruct (keyN_appends_after_rightmost 0 (scenarioTimeline 0) ltac:(lia))
    as [nb [H1 [H2 _]]].
  exists nb. split; [exact H1 | exact H2].
Defined.

(** ** A resize that does not move the pointer *)

Lemma replaceBlock_same (id : string) (b : Block) (l : list Block) :
  findBlock id l = Some b -> replaceBlock id b l = l.
Proof.
  induction l as [| x r IH]; cbn [findBlock replaceBlock]; [reflexivity |].
  destruct (String.eqb (b_id x) id).
  - intros H. injection H as ->. reflexivity.
  - intros H. rewrite (IH H). reflexivity.
Qed.

Lemma updateItem_same_value (tz : Z) (dm : TimelineDataModel) (id : string)
      (u : Updates) (b : Block) :
  blocksSorted (items dm) ->
  findBlock id (items dm) = Some b ->
  u_startDay u = None -> assignBlock b u = b ->
  items (snd (updateItem tz dm id u)) = items dm /\
  timelineStart (snd (updateItem tz dm id u)) = timelineStart dm.
Proof.
  intros Hs Hb Hday Hsame.
  split; [| apply (updateItem_block_frame tz dm id u b Hb)].
  rewrite (updateItem_block_items tz dm id u b Hb).
  assert (E : blockUpdates tz dm u = u) by (unfold blockUpdates; rewrite Hday; reflexivity).
  rewrite E, Hsame, (replaceBlock_same _ _ _ Hb).
  apply sortBlocks_of_sorted. exact Hs.
Qed.

Lemma pushes_come_from_blocks (tz : Z) (tl : Timeline) (resizedId : string)
      (resizedRow resizedRightEdge : Z) (l : list Block) (p : PushEntry) :
  In p (flat_map (pushEntryOf tz tl resizedId resizedRow resizedRightEdge) l) ->
  exists item,
    In item l /\ pushId p = b_id item /\
    p_initialRelativeDay p = getRelativeDayFromDate tz (dataModel tl) (startDate item).
Proof.
  intros H. apply in_flat_map in H. destruct H as [item [Hin Hp]].
  exists item. split; [exact Hin |].
  destruct (pushEntryOf_cases tz tl resizedId resizedRow resizedRightEdge item)
    as [[E _] | [q [E [Hid [Hd _]]]]]; rewrite E in Hp.
  - destruct Hp.
  - destruct Hp as [<- | []]. split; [exact Hid | exact Hd].
Qed.

Lemma commitPushes_without_shift (tz : Z) (dm0 : TimelineDataModel) (ps : list PushEntry) :
  -720 <= tz <= 0 ->
  NoDup (map b_id (items dm0)) ->
  blocksSorted (items dm0) ->
  (forall p, In p ps ->
     exists item,
       In item (items dm0) /\ pushId p = b_id item /\
       p_initialRelativeDay p = getRelativeDayFromDate tz dm0 (startDate item)) ->
  forall dm,
    items dm = items dm0 -> timelineStart dm = timelineStart dm0 ->
    items (fold_left (commitPush tz 0) ps dm) = items dm0.
Proof.
  intros Htz Hnd Hs. induction ps as [| p r IH]; intros Hps dm Hi Ht; cbn [fold_left].
  - exact Hi.
  - destruct (Hps p (or_introl eq_refl)) as [item [Hin [Hid Hday]]].
    assert (Hf : findBlock (b_id item) (items dm) = Some item)
      by (rewrite Hi; apply findBlock_unique; assumption).
    assert (Hd : getDateFromRelativeDay tz dm (p_initialRelativeDay p + 0) = startDate item).
    { rewrite Hday, Z.add_0_r.
      rewrite (getDateFromRelativeDay_start tz dm0 dm _ Ht).
      apply date_of_relativeDay_west. exact Htz. }
    assert (Hsd : blocksSorted (items dm)) by (rewrite Hi; exact Hs).
    destruct (updateItem_same_value tz dm (b_id item)
                (onlyStartDate (startDate item)) item Hsd Hf eq_refl)
      as [Hi' Ht'].
    { destruct item; reflexivity. }
    apply IH.
    + intros q Hq. apply Hps. right. exact Hq.
    + unfold commitPush. fold (pushId p). rewrite Hid, Hd, Hi'. exact Hi.
    + unfold commitPush. fold (pushId p). rewrite Hid, Hd, Ht'. exact Ht.
Qed.

Lemma dayToPixelForDuration_boundary (tz : Z) (tl : Timeline) (a n : Z) :
  0 <= a -> 0 <= n ->
  (dayToPixel tz tl (a + n) == dayToPixel tz tl a + dayToPixelForDuration tz tl a n)%Q.
Proof.
  intros Ha Hn. unfold dayToPixel, dayToPixelForDuration.
  fold (dayStartPixel tz tl (a + n)). fold (dayStartPixel tz tl a).
  rewrite dayStartPixel_add by assumption.
  rewrite inject_Z_plus. ring.
Qed.

Lemma dayToPixel_monotone (tz : Z) (tl : Timeline) (a b : Z) :
  (0 < zoom tl)%Q -> 0 <= a <= b ->
  (dayToPixel tz tl a <= dayToPixel tz tl b)%Q.
Proof.
  intros Hz Hab. unfold dayToPixel.
  fold (dayStartPixel tz tl a). fold (dayStartPixel tz tl b).
  apply Qmult_le_compat_r; [| apply Qlt_le_weak; exact Hz].
  rewrite <- Zle_Qle.
  pose proof (dayStartPixel_gap tz tl a b Hab). lia.
Qed.

(** X21.  On a host at or west of UTC, a resize gesture that ends where it
    started on a block drawn at its day and as wide as its days keeps the
    duration, and in a sorted store with unique ids the items afterwards
    are the items before: neither the resized block nor the blocks to its
    right move. *)
Theorem resize_without_movement
        (tz : Z) (tl : Timeline) (component : Component) (clientX : Q) :
  -720 <= tz <= 0 -> (0 < zoom tl)%Q ->
  NoDup (map b_id (items (dataModel tl))) ->
  blocksSorted (items (dataModel tl)) ->
  In (c_data component) (items (dataModel tl)) ->
  let B := c_data component in
  let day := getRelativeDayFromDate tz (dataModel tl) (startDate B) in
  0 <= day -> 1 <= duration B -> day + duration B <= 10001 ->
  (c_left component == dayToPixel tz tl day)%Q ->
  (c_width component == dayToPixelForDuration tz tl day (duration B))%Q ->
  let rs := startResize tz clientX component tl in
  snappedDuration tz rs tl clientX = duration B /\
  items (dataModel (handleResizeEnd tz (Some rs) tl clientX)) = items (dataModel tl).
Proof.
  intros Htz Hz Hnd Hs HB. cbv zeta. intros Hday Hdur Hcap Hleft Hwidth.
  set (B := c_data component) in *.
  set (day := getRelativeDayFromDate tz (dataModel tl) (startDate B)) in *.
  assert (Hsnap : snappedDuration tz (startResize tz clientX component tl) tl clientX
                  = duration B).
  { unfold snappedDuration, startResize.
    cbn [rs_startX rs_initialWidth rs_initialLeft rs_initialRelativeDay].
    fold B. fold day.
    pose proof (dayToPixelForDuration_boundary tz tl day 1 Hday ltac:(lia)) as E1.
    pose proof (dayToPixelForDuration_boundary tz tl day (duration B) Hday ltac:(lia)) as E2.
    pose proof (dayToPixel_monotone tz tl (day + 1) (day + duration B) Hz ltac:(lia)) as M.
    assert (P : pixelToDay tz tl
                  (c_left component +
                   Qmax (dayToPixelForDuration tz tl day 1)
                        (c_width component + (clientX - clientX)))%Q
                = day + duration B).
    { unfold pixelToDay.
      rewrite (pixelToDayLog_on_boundary tz tl (day + duration B)); [reflexivity | exact Hz | lia |].
      unfold Qmax.
      destruct (Qle_bool (dayToPixelForDuration tz tl day 1)
                         (c_width component + (clientX - clientX))) eqn:C.
      - rewrite E2, Hleft, Hwidth. ring.
      - exfalso.
        assert (C' : ~ (dayToPixelForDuration tz tl day 1
                        <= c_width component + (clientX - clientX))%Q).
        { intros L. apply Qle_bool_iff in L. congruence. }
        apply C'. rewrite Hwidth. lra. }
    rewrite P. lia. }
  split; [exact Hsnap |].
  unfold handleResizeEnd. cbn [set_dataModel dataModel].
  rewrite Hsnap.
  change (rs_initialDuration (startResize tz clientX component tl)) with (duration B).
  change (b_id (c_data (rs_component (startResize tz clientX component tl)))) with (b_id B).
  replace (duration B - duration B) with 0 by lia.
  pose proof (findBlock_unique _ _ Hnd HB) as HfB. fold B in HfB.
  destruct (updateItem_same_value tz (dataModel tl) (b_id B) (onlyDuration (duration B)) B
              Hs HfB eq_refl) as [Hi Ht].
  { destruct B; reflexivity. }
  apply commitPushes_without_shift; try assumption.
  intros p Hp. unfold startResize in Hp. cbn [rs_blocksToPush] in Hp.
  unfold findBlocksToRight in Hp.
  apply (pushes_come_from_blocks tz tl _ _ _ _ p Hp).
Qed.

Lemma resize_without_movement_witness :
  let tl := scenarioTimeline 0 in
  let c := mkComponent (mkBlock "1" 19723 5 "Design" 0 "XD") 0 400 in
  items (dataModel (handleResizeEnd 0 (Some (startResize 0 250 c tl)) tl 250))
  = items (dataModel tl).
Proof.
  cbv zeta.
  refine (proj2 (resize_without_movement 0 (scenarioTimeline 0)
                   (mkComponent (mkBlock "1" 19723 5 "Design" 0 "XD") 0 400) 250
                   ltac:(lia) _ _ _ _ _ _ _ _ _)).
  - reflexivity.
  - vm_compute. repeat constructor; cbn; intuition discriminate.
  - exact (proj2 scenario_store_invariant).
  - vm_compute. left. reflexivity.
  - vm_compute. discriminate.
  - vm_compute. discriminate.
  - vm_compute. discriminate.
  - vm_compute. reflexivity.
  - vm_compute. reflexivity.
Defined.

(** ** The end of a drag *)

Lemma pixelToDay_snapPixelToGrid (tz : Z) (tl : Timeline) (p : Q) :
  (0 < zoom tl)%Q -> pixelToDay tz tl (snapPixelToGrid tz tl p) = pixelToDay tz tl p.
Proof.
  intros Hz. unfold snapPixelToGrid. unfold pixelToDay at 1.
  rewrite pixelToDayLog_boundary; [reflexivity | exact Hz | apply pixelToDay_range].
Qed.

Lemma getComponent_removeComponent (tl : Timeline) (id : string) :
  getComponent id (tl_items (removeComponent tl id)) = None.
Proof.
  unfold removeComponent. cbn [tl_items].
  induction (tl_items tl) as [| c r IH]; cbn [filter getComponent]; [reflexivity |].
  destruct (String.eqb (b_id (c_data c)) id) eqn:E; cbn [negb]; [exact IH |].
  cbn [getComponent]. rewrite E. exact IH.
Qed.




(** ** The tab order and the selection after a deletion *)

Lemma rowThenDate_spec (a b : Block) :
  rowThenDate a b = true <->
  row a < row b \/ (row a = row b /\ startDate a <= startDate b).
Proof.
  unfold rowThenDate. rewrite orb_true_iff, andb_true_iff.
  rewrite Z.ltb_lt, Z.eqb_eq, Z.leb_le. tauto.
Qed.

Lemma insertByRow_perm (b : Block) (l : list Block) :
  Permutation (insertByRow b l) (b :: l).
Proof.
  induction l as [| x r IH]; cbn [insertByRow]; [reflexivity |].
  destruct (rowThenDate b x); [reflexivity |].
  rewrite IH. apply perm_swap.
Qed.

Lemma sortByRow_perm (l : list Block) : Permutation (sortByRow l) l.
Proof.
  induction l as [| x r IH]; cbn [sortByRow]; [reflexivity |].
  rewrite insertByRow_perm. apply perm_skip. exact IH.
Qed.

Lemma insertByRow_sorted (b : Block) (l : list Block) :
  StronglySorted (fun x y => rowThenDate x y = true) l ->
  StronglySorted (fun x y => rowThenDate x y = true) (insertByRow b l).
Proof.
  induction l as [| x r IH]; intros Hs; cbn [insertByRow].
  - constructor; constructor.
  - inversion Hs as [| ? ? Hr Hx]; subst.
    destruct (rowThenDate b x) eqn:E.
    + constructor; [exact Hs |]. constructor; [exact E |].
      rewrite Forall_forall in *. intros y Hy. specialize (Hx y Hy).
      apply rowThenDate_spec in E. apply rowThenDate_spec in Hx.
      apply rowThenDate_spec. lia.
    + constructor; [apply IH; exact Hr |].
      rewrite Forall_forall in *. intros y Hy.
      apply (Permutation_in _ (insertByRow_perm b r)) in Hy.
      destruct Hy as [<- | Hy]; [| apply Hx; exact Hy].
      apply rowThenDate_spec.
      assert (N : ~ (row b < row x \/ (row b = row x /\ startDate b <= startDate x)))
        by (rewrite <- rowThenDate_spec; congruence).
      lia.
Qed.

Lemma sortByRow_sorted (l : list Block) :
  StronglySorted (fun x y => rowThenDate x y = true) (sortByRow l).
Proof.
  induction l as [| x r IH]; cbn [sortByRow]; [constructor |].
  apply insertByRow_sorted. exact IH.
Qed.

Lemma findFirst_In (test : Block -> bool) (l : list Block) (b : Block) :
  findFirst test l = Some b -> In b l /\ test b = true.
Proof.
  induction l as [| x r IH]; cbn [findFirst]; [discriminate |].
  destruct (test x) eqn:E.
  - intros H. injection H as <-. split; [left; reflexivity | exact E].
  - intros H. destruct (IH H) as [A B]. split; [right; exact A | exact B].
Qed.

Lemma In_skipn {A : Type} (n : nat) (l : list A) (x : A) : In x (skipn n l) -> In x l.
Proof.
  revert l. induction n as [| n IH]; intros l; [trivial |].
  destruct l as [| y r]; cbn [skipn]; [trivial |]. intros H. right. apply IH. exact H.
Qed.

Lemma findNextBlock_member (tl : Timeline) (id n : string) :
  findNextBlock tl id = Some n ->
  exists b, In b (items (dataModel tl)) /\ b_id b = n.
Proof.
  unfold findNextBlock, getAllBlocksSorted.
  pose proof (sortByRow_perm (items (dataModel tl))) as P.
  destruct (sortByRow (items (dataModel tl))) as [| first rest]; [discriminate |].
  assert (M : forall b, In b (first :: rest) -> exists b', In b' (items (dataModel tl))
                                                       /\ b_id b' = b_id b).
  { intros b Hb. exists b. split; [apply (Permutation_in _ P Hb) | reflexivity]. }
  assert (M0 : exists b', In b' (items (dataModel tl)) /\ b_id b' = b_id first)
    by (apply M; left; reflexivity).
  destruct (findBlockIndex id (first :: rest)) as [i |];
    [| intros H; injection H as <-; exact M0].
  destruct (nth_error (first :: rest) i) as [cur |];
    [| intros H; injection H as <-; exact M0].
  destruct (findFirst (fun b => row b =? row cur) (skipn (S i) (first :: rest)))
    as [b |] eqn:F1.
  - intros H. injection H as <-. apply M.
    apply (In_skipn (S i)). apply (findFirst_In _ _ _ F1).
  - destruct (findFirst (fun b => row cur <? row b) (first :: rest)) as [b |] eqn:F2.
    + intros H. injection H as <-. apply M. apply (findFirst_In _ _ _ F2).
    + intros H. injection H as <-. exact M0.
Qed.

(** X23.  The tab order [getAllBlocksSorted] holds exactly the blocks of
    the timeline, ordered by row and, within a row, by start date.
    [findNextBlock] answers with the id of a block of the timeline
    whatever id it is asked about, and with nothing only when the timeline
    has no block. *)
Theorem tab_order_and_next_block (tl : Timeline) :
  Permutation (getAllBlocksSorted tl) (items (dataModel tl)) /\
  StronglySorted
    (fun a b => row a < row b \/ (row a = row b /\ startDate a <= startDate b))
    (getAllBlocksSorted tl) /\
  forall id,
    match findNextBlock tl id with
    | Some n => exists b, In b (items (dataModel tl)) /\ b_id b = n
    | None => items (dataModel tl) = []
    end.
Proof.
  split; [apply sortByRow_perm |]. split.
  - unfold getAllBlocksSorted.
    pose proof (sortByRow_sorted (items (dataModel tl))) as H.
    induction H as [| a l Hl IH Ha]; constructor; [exact IH |].
    rewrite Forall_forall in *. intros y Hy. apply rowThenDate_spec. apply Ha. exact Hy.
  - intros id. destruct (findNextBlock tl id) as [n |] eqn:E.
    + apply (findNextBlock_member tl id n E).
    + unfold findNextBlock, getAllBlocksSorted in E.
      pose proof (sortByRow_perm (items (dataModel tl))) as P.
      destruct (sortByRow (items (dataModel tl))) as [| first rest].
      * apply Permutation_nil. exact P.
      * exfalso.
        destruct (findBlockIndex id (first :: rest)) as [i |]; [| discriminate].
        destruct (nth_error (first :: rest) i) as [cur |]; [| discriminate].
        destruct (findFirst _ (skipn (S i) (first :: rest))); [discriminate |].
        destruct (findFirst _ (first :: rest)); discriminate.
Qed.

Lemma selectFirstBlock_selection (tl : Timeline) :
  selectedBlockId tl = None ->
  dataModel (selectFirstBlock tl) = dataModel tl /\
  tl_items (selectFirstBlock tl) = tl_items tl /\
  match selectedBlockId (selectFirstBlock tl) with
  | Some s => exists b, In b (items (dataModel tl)) /\ b_id b = s
  | None => items (dataModel tl) = []
  end.
Proof.
  intros Hsel. unfold selectFirstBlock, getAllBlocksSorted.
  pose proof (sortByRow_perm (items (dataModel tl))) as P.
  destruct (sortByRow (items (dataModel tl))) as [| first rest].
  - rewrite Hsel. split; [reflexivity |]. split; [reflexivity |].
    apply Permutation_nil. exact P.
  - cbn [selectBlock dataModel tl_items selectedBlockId].
    split; [reflexivity |]. split; [reflexivity |].
    exists first. split; [apply (Permutation_in _ P); left; reflexivity | reflexivity].
Qed.

(** X24.  Deleting the selected block of a store with unique ids removes
    that block and its component, and never leaves the selection on a
    block that is gone: afterwards either a block of the remaining
    timeline is selected, or the timeline is empty and nothing is.  The
    block that [findNextBlock] named is the one selected, unless it named
    the deleted block itself.  (Ids are [String(nextId)]: never empty, so
    the truthiness tests on ids test their presence.) *)
Theorem deleteSelectedBlock_selection (tl : Timeline) (id : string) (b : Block) :
  NoDup (map b_id (items (dataModel tl))) ->
  selectedBlockId tl = Some id ->
  findBlock id (items (dataModel tl)) = Some b ->
  let tl' := deleteSelectedBlock tl in
  findBlock id (items (dataModel tl')) = None /\
  getComponent id (tl_items tl') = None /\
  (forall id', id' <> id ->
     findBlock id' (items (dataModel tl')) = findBlock id' (items (dataModel tl))) /\
  match selectedBlockId tl' with
  | Some s => s <> id /\ exists b', In b' (items (dataModel tl')) /\ b_id b' = s
  | None => items (dataModel tl') = []
  end /\
  (forall n, findNextBlock tl id = Some n -> n <> id -> selectedBlockId tl' = Some n).
Proof.
  intros Hnd Hsel Hb. cbv zeta. unfold deleteSelectedBlock. rewrite Hsel.
  destruct (findBlockIndex id (items (dataModel tl))) as [i |] eqn:Hi.
  2:{ apply findBlockIndex_None in Hi. congruence. }
  set (tl3 := set_selectedBlockId
                (removeComponent
                   (set_dataModel tl (snd (removeItem (dataModel tl) id))) id) None).
  assert (D3 : items (dataModel tl3) = removeAt i (items (dataModel tl))).
  { unfold tl3, removeItem. rewrite Hi. reflexivity. }
  assert (G3 : getComponent id (tl_items tl3) = None).
  { unfold tl3. cbn [set_selectedBlockId tl_items].
    apply (getComponent_removeComponent
             (set_dataModel tl (snd (removeItem (dataModel tl) id))) id). }
  assert (N3 : findBlock id (items (dataModel tl3)) = None)
    by (rewrite D3; apply findBlock_removeAt_same; assumption).
  assert (O3 : forall id', id' <> id ->
                 findBlock id' (items (dataModel tl3)) = findBlock id' (items (dataModel tl)))
    by (intros id' Hne; rewrite D3; apply (findBlock_removeAt_other id); assumption).
  assert (In3 : forall s, (exists b', In b' (items (dataModel tl3)) /\ b_id b' = s) -> s <> id).
  { intros s [b' [Hin Hs]] C. subst s.
    apply findBlock_None in N3. apply N3. rewrite <- C. apply in_map. exact Hin. }
  assert (First : let t := selectFirstBlock tl3 in
                  findBlock id (items (dataModel t)) = None /\
                  getComponent id (tl_items t) = None /\
                  (forall id', id' <> id ->
                     findBlock id' (items (dataModel t))
                     = findBlock id' (items (dataModel tl))) /\
                  match selectedBlockId t with
                  | Some s => s <> id /\ exists b', In b' (items (dataModel t)) /\ b_id b' = s
                  | None => items (dataModel t) = []
                  end).
  { cbv zeta. destruct (selectFirstBlock_selection tl3 eq_refl) as [E1 [E2 E3]].
    rewrite E1, E2. split; [exact N3 |]. split; [exact G3 |]. split; [exact O3 |].
    destruct (selectedBlockId (selectFirstBlock tl3)) as [s |]; [| exact E3].
    split; [apply In3; exact E3 | exact E3]. }
  cbv zeta in First. destruct First as [F1 [F2 [F3 F4]]].
  destruct (findNextBlock tl id) as [next |] eqn:Hnext.
  2:{ split; [exact F1 |]. split; [exact F2 |]. split; [exact F3 |].
      split; [exact F4 | discriminate]. }
  destruct (String.eqb next id) eqn:E; cbn [negb].
  { apply String.eqb_eq in E. subst next.
    split; [exact F1 |]. split; [exact F2 |]. split; [exact F3 |].
    split; [exact F4 |]. intros n Hn Hne. congruence. }
  apply String.eqb_neq in E.
  destruct (findNextBlock_member tl id next Hnext) as [nb [Hnb Hnid]].
  assert (Hf : findBlock next (items (dataModel tl3)) = Some nb).
  { rewrite (O3 next E). rewrite <- Hnid. apply findBlock_unique; assumption. }
  unfold getItem. rewrite Hf.
  cbn [selectBlock dataModel tl_items selectedBlockId].
  split; [exact N3 |]. split; [exact G3 |]. split; [exact O3 |].
  split.
  - split; [exact E |]. exists nb. split; [apply (findBlock_Some _ _ _ Hf) | exact Hnid].
  - intros n Hn _. exact Hn.
Qed.

Lemma deleteSelectedBlock_selection_witness :
  selectedBlockId (deleteSelectedBlock (selectBlock (scenarioTimeline 0) (Some "1"%string)))
  = Some "2"%string.
Proof.
  apply (proj2 (proj2 (proj2 (proj2
           (deleteSelectedBlock_selection
              (selectBlock (scenarioTimeline 0) (Some "1"%string)) "1"
              (mkBlock "1" 19723 5 "Design" 0 "XD")
              ltac:(vm_compute; repeat constructor; cbn; intuition discriminate)
              eq_refl eq_refl))))).
  - vm_compute. reflexivity.
  - discriminate.
Defined.

(** ** Blocks created with the pointer *)

Lemma addBlock_relative (tz : Z) (dm : TimelineDataModel) (day n : Z) (l : string) (r : Z) :
  let b := mkBlock (toDecimal (nextId dm)) (getDateFromRelativeDay tz dm day) n l r
                   (badgeOrDefault (lastBadgeValue dm)) in
  addBlock tz dm (RelativeDay day) n l r
  = (b, notifyChange (sortTimelineItems
                        (set_items (snd (generateId dm)) (items dm ++ [b])))).
Proof. reflexivity. Qed.

Lemma addBlock_relative_west (tz : Z) (dm : TimelineDataModel) (day n : Z) (l : string)
      (r : Z) :
  -720 <= tz <= 0 ->
  let nb := fst (addBlock tz dm (RelativeDay day) n l r) in
  let dm' := snd (addBlock tz dm (RelativeDay day) n l r) in
  Permutation (items dm') (nb :: items dm) /\
  b_id nb = toDecimal (nextId dm) /\
  getRelativeDayFromDate tz dm' (startDate nb) = day /\
  duration nb = n /\ label nb = l /\ row nb = r.
Proof.
  intros Htz. cbv zeta. rewrite addBlock_relative.
  cbn [fst snd notifyChange sortTimelineItems set_items items generateId
       b_id startDate duration label row].
  split; [rewrite sortBlocks_perm; symmetry; apply Permutation_cons_append |].
  split; [reflexivity |].
  split; [| split; [| split]]; try reflexivity.
  etransitivity; [| apply (relativeDay_of_date_west tz dm day Htz)].
  apply getRelativeDayFromDate_start. reflexivity.
Qed.

(** X25.  What the release of the pointer over the empty track creates, on
    a host at or west of UTC.  After a drag, a block that starts on the
    day of the left end of the drag and lasts at least one day; without a
    drag and within 5 pixels of the press, a one-day block on the day
    under the press; in both cases in the row under the press, with an
    empty label and a fresh id, beside the blocks that were there.
    Without a drag and further than 5 pixels from the press, nothing. *)
Theorem pointer_release_creates_block
        (tz : Z) (tl : Timeline) (down : MouseDown) (upClientX upClientY rectLeft : Q)
        (isDraggingBlock : bool) :
  -720 <= tz <= 0 -> (0 < zoom tl)%Q ->
  let dm := dataModel tl in
  let tl' := handleMouseUp tz tl down upClientX upClientY rectLeft isDraggingBlock in
  let near :=
    Qle_bool (Qabs (upClientX - md_clientX down)) 5
    && Qle_bool (Qabs (upClientY - md_clientY down)) 5 in
  let created := fun (day : Z) (nb : Block) =>
    Permutation (items (dataModel tl')) (nb :: items dm) /\
    b_id nb = toDecimal (nextId dm) /\
    getRelativeDayFromDate tz (dataModel tl') (startDate nb) = day /\
    row nb = rowUnder tl (md_y down - 32)%Q /\ label nb = EmptyString in
  (isDraggingBlock = true ->
   exists nb,
     created (pixelToDay tz tl (Qmin (md_x down) (upClientX - rectLeft)%Q)) nb /\
     1 <= duration nb <= 10001) /\
  (isDraggingBlock = false -> near = true ->
   exists nb, created (pixelToDay tz tl (md_x down)) nb /\ duration nb = 1) /\
  (isDraggingBlock = false -> near = false -> tl' = tl).
Proof.
  intros Htz Hz. cbv zeta. unfold handleMouseUp, createdBySpec.
  split; [| split].
  - intros ->. rewrite andb_false_r.
    rewrite (pixelToDay_snapPixelToGrid tz tl _ Hz).
    cbn [render dataModel set_dataModel].
    match goal with
    | |- context [addBlock tz ?dm (RelativeDay ?day) ?n ?l ?r] =>
        destruct (addBlock_relative_west tz dm day n l r Htz) as [P [I [D [N [L R]]]]];
        exists (fst (addBlock tz dm (RelativeDay day) n l r))
    end.
    split; [split; [exact P | split; [exact I | split; [exact D | split; [exact R | exact L]]]] |].
    rewrite N.
    match goal with
    | |- 1 <= Z.max 1 (pixelToDay tz tl ?p - pixelToDay tz tl ?q) <= _ =>
        pose proof (pixelToDay_range tz tl p); pose proof (pixelToDay_range tz tl q)
    end.
    lia.
  - intros -> Hnear. rewrite andb_true_r, Hnear.
    cbn [render dataModel set_dataModel].
    match goal with
    | |- context [addBlock tz ?dm (RelativeDay ?day) ?n ?l ?r] =>
        destruct (addBlock_relative_west tz dm day n l r Htz) as [P [I [D [N [L R]]]]];
        exists (fst (addBlock tz dm (RelativeDay day) n l r))
    end.
    split; [split; [exact P | split; [exact I | split; [exact D | split; [exact R | exact L]]]] |].
    exact N.
  - intros -> Hnear. rewrite andb_true_r, Hnear. reflexivity.
Qed.

Lemma pointer_release_creates_block_witness :
  map (fun b => (b_id b, startDate b - JSDate.ymd 2024 1 1, duration b, row b))
      (items (dataModel (handleMouseUp 0 (scenarioTimeline 0)
                           (mkMouseDown 700 200 710 240) 712 241 10 false)))
  = [("1"%string, 0, 5, 0); ("2"%string, 5, 3, 0); ("3"%string, 10, 1, 1)]
  /\ exists nb,
       In nb (items (dataModel (handleMouseUp 0 (scenarioTimeline 0)
                                  (mkMouseDown 700 200 710 240) 712 241 10 false)))
       /\ duration nb = 1.
Proof.
  split; [vm_compute; reflexivity |].
  destruct (proj1 (proj2 (pointer_release_creates_block 0 (scenarioTimeline 0)
                            (mkMouseDown 700 200 710 240) 712 241 10 false
                            ltac:(lia) eq_refl)) eq_refl eq_refl)
    as [nb [[P _] N]].
  exists nb. split; [| exact N].
  apply (Permutation_in _ (Permutation_sym P)). left. reflexivity.
Defined.

(** ** Coordinates and the host's zone *)

Lemma getDayWidth_zone (tz tz' : Z) (tl : Timeline) (day : Z) :
  getDayWidth tz tl (Some day) = getDayWidth tz' tl (Some day).
Proof. rewrite !getDayWidth_weekday. reflexivity. Qed.

Lemma widthLoop_zone (tz tz' : Z) (tl : Timeline) (n : nat) :
  forall day acc, widthLoop tz tl n day acc = widthLoop tz' tl n day acc.
Proof.
  induction n as [| n IH]; intros day acc; cbn [widthLoop]; [reflexivity |].
  rewrite (getDayWidth_zone tz tz'). apply IH.
Qed.

Lemma pixelWalk_zone (tz tz' : Z) (tl : Timeline) (u : Q) (fuel : nat) :
  forall acc day, pixelWalk tz tl fuel u acc day = pixelWalk tz' tl fuel u acc day.
Proof.
  induction fuel as [| f IH]; intros acc day; cbn [pixelWalk]; [reflexivity |].
  rewrite (getDayWidth_zone tz tz'). rewrite IH. reflexivity.
Qed.

(** X26.  The coordinates do not depend on the offset of the host from
    UTC: which day columns are weekend columns, the pixel of a day, the
    width of a run of days, the day of a pixel and the snapped pixel are
    fixed by the stored start date alone.  (The walk over days starts at
    local midnight of the start date and reads the local day of the week,
    so the offset cancels.) *)
Theorem coordinates_independent_of_zone (tz tz' : Z) (tl : Timeline) :
  (forall day, isWeekend tz tl day = isWeekend tz' tl day) /\
  (forall day, dayToPixel tz tl day = dayToPixel tz' tl day) /\
  (forall startDay n,
     dayToPixelForDuration tz tl startDay n = dayToPixelForDuration tz' tl startDay n) /\
  (forall pixel, pixelToDay tz tl pixel = pixelToDay tz' tl pixel) /\
  (forall pixel, snapPixelToGrid tz tl pixel = snapPixelToGrid tz' tl pixel).
Proof.
  assert (D : forall day, dayToPixel tz tl day = dayToPixel tz' tl day).
  { intros day. unfold dayToPixel. rewrite (widthLoop_zone tz tz'). reflexivity. }
  assert (P : forall pixel, pixelToDay tz tl pixel = pixelToDay tz' tl pixel).
  { intros pixel. unfold pixelToDay, pixelToDayLog.
    rewrite (pixelWalk_zone tz tz'). reflexivity. }
  split; [intros day; rewrite !isWeekend_weekday; reflexivity |].
  split; [exact D |].
  split.
  { intros startDay n. unfold dayToPixelForDuration.
    rewrite (widthLoop_zone tz tz'). reflexivity. }
  split; [exact P |].
  intros pixel. unfold snapPixelToGrid. rewrite P. apply D.
Qed.
